(** * Multi-Audio Track Video Importer: a shallow embedding of
      [multi_audio_importer.py]

    The development follows the source file top to bottom:
    - [Py]: the few Python built-ins the add-on relies on ([str.strip],
      truthiness, [str(int)], [int(float)], [max], [str.split]);
    - the data the add-on exchanges with its surroundings (ffprobe and
      ffmpeg invocations, the sequencer's strips, operator reports);
    - [get_audio_tracks], [run_ffmpeg_with_progress] and the operator's
      [execute], written with explicit state passing over a [World]
      (the sequencer plus a log of every observable effect)
      and an [Env] that answers each call to the host or to an external
      tool.
    - the panel's [draw], which reads the same scene and lays out labels
      and the operator's button.

    Conventions.
    - Python [float]s are modelled by exact rationals ([Q]); frame numbers,
      channels, byte counts and exit codes by [Z].
    - A strip is a mutable Blender object: it carries an identity [sid], and
      an attribute assignment updates the strip of that identity inside the
      sequencer.  The host keeps strips of one level from overlapping: after
      an assignment to a placement attribute it relocates the strip when
      needed, and the [Env] says where to.
    - Formatted report texts are kept as structured messages ([Msg]) whose
      constructor identifies the source line and whose arguments are the
      interpolated values. *)

From Stdlib Require Import ZArith QArith Qround String Ascii List Bool Lia Lqa DecimalString
  DecimalPos DecimalZ.
Import ListNotations.
Open Scope string_scope.
Open Scope Z_scope.

(** ** Python built-ins *)

Module Py.

(** Characters removed by [str.strip()] (ASCII range). *)
Definition is_space (c : ascii) : bool :=
  let n := nat_of_ascii c in
  ((9 <=? n) && (n <=? 13) || (28 <=? n) && (n <=? 32))%nat.

Fixpoint lstrip (s : string) : string :=
  match s with
  | EmptyString => EmptyString
  | String c r => if is_space c then lstrip r else s
  end.

Fixpoint rstrip (s : string) : string :=
  match s with
  | EmptyString => EmptyString
  | String c r =>
      match rstrip r with
      | EmptyString => if is_space c then EmptyString else String c EmptyString
      | r' => String c r'
      end
  end.

Definition strip (s : string) : string := rstrip (lstrip s).

(** Truth value of a [str]: non-empty. *)
Definition truthy (s : string) : bool :=
  match s with EmptyString => false | _ => true end.

(** [str(n)] for an [int]. *)
Definition str_of_int (n : Z) : string := NilZero.string_of_int (Z.to_int n).

(** [str(d.get(key))]: an absent key prints as [None]. *)
Definition str_of_opt_int (o : option Z) : string :=
  match o with Some n => str_of_int n | None => "None" end.

(** [int(x)] for a [float]: truncation towards zero. *)
Definition int_of_float (x : Q) : Z := Z.quot (Qnum x) (Zpos (Qden x)).

(** [max(xs)] of a non-empty list. *)
Definition max_list (x : Z) (xs : list Z) : Z := fold_left Z.max xs x.

(** [c in s] for a one-character pattern. *)
Fixpoint contains (c : ascii) (s : string) : bool :=
  match s with
  | EmptyString => false
  | String d r => Ascii.eqb c d || contains c r
  end.

(** [s.split(c)]. *)
Fixpoint split (c : ascii) (s : string) : list string :=
  match s with
  | EmptyString => [EmptyString]
  | String d r =>
      if Ascii.eqb c d then EmptyString :: split c r
      else match split c r with
           | p :: ps => String d p :: ps
           | [] => [String d EmptyString]
           end
  end.

(** Python exceptions of class [Exception], carried by their text, as
    [str(e)] gives it.  The add-on's handlers are [except Exception]
    clauses; what is raised outside that class ([KeyboardInterrupt],
    [SystemExit]) passes through them and is left out of the model. *)
Definition Exn := string.

(** A [float] compared with zero. *)
Definition is_zero (x : Q) : bool := Qeq_bool x 0.

(** True division; [None] stands for [ZeroDivisionError]. *)
Definition truediv (x y : Q) : option Q :=
  if is_zero y then None else Some (x / y)%Q.

End Py.

(** ** External tools *)

(** One element of an argument vector: a literal, or a float printed with
    the format [:.6f]. *)
Inductive Arg :=
| Lit (s : string)
| Fmt6 (x : Q).

Definition Command := list Arg.

(** What [subprocess.run(..., check=False, timeout=t)] can do. *)
Inductive RunOutcome :=
| Completed (returncode : Z) (stdout stderr : string)
| TimeoutExpired
| RunRaised (e : Py.Exn).

(** One entry of ffprobe's [streams] array. *)
Record StreamInfo := mkStream {
  s_index : option Z;
  s_duration : option string;
  s_codec_name : option string;
  s_channels : option Z;
  s_sample_rate : option string;
  s_title : option string          (* tags.title *)
}.

(** What [json.loads(stdout)] followed by [data.get("streams", [])] can do
    on ffprobe's JSON writer output: a decoding error, a document that is an
    object (with or without the key [streams]), or any other exception
    (for instance a document that is not an object, which has no [get]). *)
Inductive JsonLoad :=
| JSONDecodeError (e : Py.Exn)
| JsonObject (streams : option (list StreamInfo))
| JsonOtherError (e : Py.Exn).

(** Result of [get_audio_tracks]: the list of streams, or the dictionary
    [{"error": kind, "detail": text}]. *)
Inductive ScanResult :=
| ScanStreams (streams : list StreamInfo)
| ScanError (error : string) (detail : string).

(** *** The ffmpeg child process as [run_ffmpeg_with_progress] observes it *)

(** One turn of the monitoring loop, entered because [poll()] is [None]:
    the wall-clock time elapsed since the start, and what [readline()] on
    the child's stderr gave. *)
Inductive ReadLine :=
| ReadRaised                                   (* any exception: swallowed *)
| ReadLineOk (line : string) (time_match : option (Z * Z * Q)).
                                               (* groups of [time=HH:MM:SS.cc] *)

Record Tick := mkTick {
  elapsed : Q;
  readline : ReadLine
}.

(** How the child ends once [poll()] is no longer [None]. *)
Inductive Final :=
| Exited (returncode : Z) (stdout stderr : string)
| CommunicateRaised (e : Py.Exn).

(** The child process.  [lifetime] is the wall-clock time, in seconds, from
    [Popen] to the end of the child; the function never reads it: it sees
    the clock only at the start of a loop turn ([elapsed]), and between two
    turns it is blocked in [readline()] for as long as the child prints
    nothing. *)
Record Proc := mkProc {
  popen_raises : option Py.Exn;        (* [subprocess.Popen] itself fails *)
  ticks : list Tick;                   (* loop turns while the child runs *)
  wait_raises : option Py.Exn;         (* [process.wait(timeout=5)] after terminate *)
  final : Final;
  lifetime : Q
}.

(** ** The sequencer

    Strips are Blender objects, not part of the add-on.  The model keeps the
    attributes the add-on reads or writes.  Frame numbers are integers;
    [frame_final_start], [frame_final_end] and [frame_final_duration] are
    the read-only attributes Blender derives from the start, the content
    length and the two offsets. *)

Inductive StripType := MOVIE | SOUND | META | OTHER.

Record Strip := mkStrip {
  sid : nat;                           (* object identity *)
  name : string;
  stype : StripType;
  select : bool;
  channel : Z;
  frame_start : Z;
  frame_duration : Z;                  (* length of the content *)
  frame_offset_start : Z;
  frame_offset_end : Z;
  filepath : string;                   (* [filepath], or [sound.filepath] for SOUND *)
  parent : option nat                  (* the meta strip that contains it *)
}.

(** Read-only attributes Blender derives from the stored ones. *)
Definition frame_final_start (s : Strip) : Z := frame_start s + frame_offset_start s.
Definition frame_final_end (s : Strip) : Z :=
  frame_start s + frame_duration s - frame_offset_end s.
Definition frame_final_duration (s : Strip) : Z :=
  frame_final_end s - frame_final_start s.

Record SeqEditor := mkSeq {
  strips_all : list Strip;
  active_strip : option nat
}.

(** Answers of the host's strip-creating primitives. *)
Inductive NewSound :=
| NewSoundOk (duration : Z)
| NewSoundNone
| NewSoundRaised (e : Py.Exn).

Inductive MetaMake :=
| MetaOk (ch fs dur ofs_start ofs_end : Z)   (* placement the host gives the meta *)
| MetaNoop                                   (* nothing grouped, nothing raised *)
| MetaRaised (e : Py.Exn).

(** Two strips collide when they sit on the same channel and their visible
    frame ranges intersect. *)
Definition overlaps (a b : Strip) : bool :=
  (channel a =? channel b) &&
  (frame_final_start a <? frame_final_end b) &&
  (frame_final_start b <? frame_final_end a).

(** ** Reports, progress and the log *)

Inductive Level := INFO | WARNING | ERROR.

Inductive Status := FINISHED | CANCELLED.

Inductive Msg :=
| MsgNoSequenceEditor
| MsgMultipleSelected
| MsgNoneSelected
| MsgSourceNotFound (source_file : string)
| MsgScanning (base : string)
| MsgScanFailed (detail : string)
| MsgNoAudioTracks
| MsgOnlyOneTrack (n : nat)
| MsgFoundTracks (n : nat)
| MsgTrackInfo (i : nat) (stream : StreamInfo)
| MsgTrackShort (stream_index title : string) (duration : Q)
| MsgGettingDuration
| MsgDurationFailed
| MsgSourceDuration (seconds : Q)
| MsgSourceFps (fps : Q)
| MsgProjectFps (fps : Q)
| MsgAnalyzeFailed (e : Py.Exn)
| MsgOriginalProps (start final_start final_end duration : Z)
| MsgExtractingAll (n : nat)
| MsgTempArea (frame : Z)
| MsgChannelsOccupied (max_channel start_channel : Z)
| MsgNoChannels (start_channel : Z)
| MsgExtractingTrack (stream_index title codec : string) (k n : nat)
| MsgStripOffsets (ofs_start ofs_end : Z)
| MsgPreciseExtraction (start duration : Q) (frames : Z) (fps : Q)
| MsgFfmpegCommand (cmd : Command)
| MsgExtractFailed (stream_index : string) (stderr : string)
| MsgExtractedFile (kb : Q)
| MsgVerifiedDuration (actual requested : Q)
| MsgCouldNotVerify
| MsgVerifyError (e : Py.Exn)
| MsgVerySmall (stream_index title : string) (kb : Q)
| MsgMaybeSilent
| MsgOutputNotFound (path : string)
| MsgCreated (strip_name : string) (start final_start final_end duration : Z)
| MsgAdded (strip_name : string) (ch duration : Z)
| MsgCreateFailed (strip_name : string)
| MsgImportFailed (stream_index : string) (e : Py.Exn)
| MsgCreatingMeta (n : nat)
| MsgMovedOriginal
| MsgRestoring
| MsgAdjusted (current target : Z)
| MsgMetaCreated (meta_name : string)
| MsgOneVideoTrack
| MsgAudioTrackCount (n : nat)
| MsgAllGrouped (n : nat)
| MsgPreserved
| MsgSafety
| MsgPcm
| MsgMetaMayHaveFailed
| MsgNoneExtracted
| MsgOnlyOneNoProcessing
| MsgFailed (e : Py.Exn).

(** Everything the add-on does that its surroundings can observe, besides
    changing strips. *)
Inductive Event :=
| EvReport (lvl : Level) (m : Msg)
| EvProgressBegin (lo hi : Z)
| EvProgressUpdate (v : Q)
| EvProgressEnd
| EvRun (cmd : Command) (timeout : Z)                         (* subprocess.run *)
| EvPopen (cmd : Command) (timeout : Z) (duration : option Q) (* one ffmpeg job *)
| EvNewSound (strip_name path : string) (ch frame : Z)
| EvSelectAll
| EvMetaMake.

(** The mutable state: the scene's sequence editor, if any, and the log,
    most recent event first. *)
Record World := mkWorld {
  sequence_editor : option SeqEditor;
  log : list Event
}.

(** The surroundings: file system, external tools, host primitives. *)
Record Env := mkEnv {
  abspath : string -> string;                    (* bpy.path.abspath *)
  isfile : string -> bool;                       (* os.path.isfile *)
  getsize : string -> option Z;                  (* os.path.getsize; None: OSError *)
  path_exists : string -> bool;                  (* os.path.exists, after a job ran *)
  basename : string -> string;
  dirname : string -> string;
  path_join : string -> string -> string;
  subprocess_run : Command -> Z -> RunOutcome;
  json_loads : string -> JsonLoad;
  float_of_str : string -> option Q;             (* float(s); None: ValueError *)
  popen : Command -> Proc;
  render_fps : Z;                                (* scene.render.fps *)
  render_fps_base : Q;                           (* scene.render.fps_base *)
  new_sound : string -> string -> Z -> Z -> NewSound;
  select_all_raises : option Py.Exn;             (* bpy.ops.sequencer.select_all *)
  meta_make : list Strip -> MetaMake;            (* bpy.ops.sequencer.meta_make *)
  relocate : nat -> list Strip -> list Strip -> list Strip;
                                   (* the sequencer once the host resolved a collision *)
  listing : list Strip -> list Strip             (* order of strips_all after grouping *)
}.

(** ** State passing with Python's control flow

    A computation either yields a value, leaves the operator through a
    [return {...}] statement, or raises an exception. *)

Inductive Res (A : Type) :=
| Val (a : A)
| Returned (st : Status)
| Raised (e : Py.Exn).

Arguments Val {A} a.
Arguments Returned {A} st.
Arguments Raised {A} e.

Definition M (A : Type) := World -> Res A * World.

Definition ret {A} (a : A) : M A := fun w => (Val a, w).

Definition bind {A B} (m : M A) (k : A -> M B) : M B :=
  fun w =>
    match m w with
    | (Val a, w') => k a w'
    | (Returned st, w') => (Returned st, w')
    | (Raised e, w') => (Raised e, w')
    end.

Definition py_return {A} (st : Status) : M A := fun w => (Returned st, w).

Definition raise {A} (e : Py.Exn) : M A := fun w => (Raised e, w).

(** [try: m  except Exception as e: h e]. *)
Definition try_except {A} (m : M A) (h : Py.Exn -> M A) : M A :=
  fun w =>
    match m w with
    | (Raised e, w') => h e w'
    | r => r
    end.

Declare Scope py_scope.
Delimit Scope py_scope with py.
Notation "x <- m ;; k" := (bind m (fun x => k))
  (at level 61, m at next level, right associativity) : py_scope.
Notation "m ;; k" := (bind m (fun _ => k))
  (at level 61, right associativity) : py_scope.
Notation "' pat <- m ;; k" := (bind m (fun x => match x with pat => k end))
  (at level 61, pat pattern, m at next level, right associativity) : py_scope.
Open Scope py_scope.

Definition emit (e : Event) : M unit :=
  fun w => (Val tt, mkWorld (sequence_editor w) (e :: log w)).

Definition report (lvl : Level) (m : Msg) : M unit := emit (EvReport lvl m).
Definition progress_update (v : Q) : M unit := emit (EvProgressUpdate v).

Definition when (b : bool) (m : M unit) : M unit := if b then m else ret tt.

(** [for i, x in enumerate(xs)] threading the loop's local variables. *)
Fixpoint for_each {A St} (body : nat -> A -> St -> M St) (i : nat) (xs : list A) (s : St) : M St :=
  match xs with
  | [] => ret s
  | x :: rest => s' <- body i x s ;; for_each body (S i) rest s'
  end.

(** [subprocess.run]: the call is logged, the surroundings answer. *)
Definition run (env : Env) (cmd : Command) (timeout : Z) : M RunOutcome :=
  emit (EvRun cmd timeout) ;; ret (subprocess_run env cmd timeout).

(** The same call where no handler tells the exceptions apart. *)
Definition run_or_raise (env : Env) (cmd : Command) (timeout : Z) : M (Z * string * string) :=
  o <- run env cmd timeout ;;
  match o with
  | Completed rc out err => ret (rc, out, err)
  | TimeoutExpired => raise "Command timed out"
  | RunRaised e => raise e
  end.

Coercion Lit : string >-> Arg.

(** ** [get_audio_tracks] *)

Definition ffprobe_scan_command (video_path : string) : Command :=
  [ Lit "ffprobe"; Lit "-v"; Lit "error"; Lit "-select_streams"; Lit "a";
    Lit "-show_entries";
    Lit "stream=index,duration,codec_name,channels,sample_rate:stream_tags=title";
    Lit "-of"; Lit "json"; Lit video_path ].

(** The body of the [try] block as a function of what the probe did. *)
Definition scan_result (env : Env) (o : RunOutcome) : ScanResult :=
  match o with
  | Completed returncode stdout stderr =>
      if negb (returncode =? 0) then
        ScanError "ffprobe_failed"
          ("ffprobe failed (code " ++ Py.str_of_int returncode ++ "): " ++ Py.strip stderr)
      else if negb (Py.truthy (Py.strip stdout)) then
        ScanError "ffprobe_empty_output"
          "ffprobe returned no output. File may not contain audio tracks."
      else
        match json_loads env stdout with
        | JsonObject (Some streams) => ScanStreams streams
        | JsonObject None => ScanStreams []
        | JSONDecodeError e =>
            ScanError "json_decode_error" ("Error parsing ffprobe output: " ++ e)
        | JsonOtherError e =>
            ScanError "ffprobe_unexpected_error" ("Unexpected error running ffprobe: " ++ e)
        end
  | TimeoutExpired =>
      ScanError "ffprobe_timeout" "ffprobe timed out after 30 seconds"
  | RunRaised e =>
      ScanError "ffprobe_unexpected_error" ("Unexpected error running ffprobe: " ++ e)
  end.

Definition get_audio_tracks (env : Env) (video_path : string) : M ScanResult :=
  o <- run env (ffprobe_scan_command video_path) 30 ;;
  ret (scan_result env o).

(** ** [run_ffmpeg_with_progress] *)

(** [x > y] on floats. *)
Definition gt (x y : Q) : bool := negb (Qle_bool x y).

(** [min(x, 1.0)]. *)
Definition min_one (x : Q) : Q := if gt x 1 then 1%Q else x.

(** The progress bookkeeping of one loop turn (the inner [try] block):
    returns the new [last_progress]. *)
Definition track_progress (duration_seconds : option Q) (t : Tick) (last_progress : Q) : M Q :=
  match readline t with
  | ReadRaised => ret last_progress
  | ReadLineOk line time_match =>
      if Py.truthy line then
        match time_match, duration_seconds with
        | Some (hours, minutes, seconds), Some d =>
            if Py.is_zero d then ret last_progress
            else
              let current_time :=
                (inject_Z (hours * 3600 + minutes * 60) + seconds)%Q in
              let progress := min_one (current_time / d)%Q in
              if gt (progress - last_progress)%Q (1 # 100) then
                progress_update progress ;; ret progress
              else ret last_progress
        | _, _ => ret last_progress
        end
      else ret last_progress
  end.

(** The [while process.poll() is None] loop followed by the final
    [communicate()], by recursion on the turns the child stays alive. *)
Fixpoint monitor (timeout : Z) (duration_seconds : option Q) (p : Proc)
    (ts : list Tick) (last_progress : Q) : M (option string * option string) :=
  match ts with
  | t :: rest =>
      if gt (elapsed t) (inject_Z timeout) then
        (* process.terminate(); process.wait(timeout=5) *)
        match wait_raises p with
        | Some e => raise e
        | None => ret (None, Some "Process timed out")
        end
      else
        last <- track_progress duration_seconds t last_progress ;;
        monitor timeout duration_seconds p rest last
  | [] =>
      match final p with
      | CommunicateRaised e => raise e
      | Exited returncode stdout stderr =>
          if returncode =? 0 then ret (Some stdout, None)
          else ret (None, Some stderr)
      end
  end.

Definition run_ffmpeg_with_progress (env : Env) (command : Command) (timeout : Z)
    (duration_seconds : option Q) : M (option string * option string) :=
  emit (EvPopen command timeout duration_seconds) ;;
  try_except
    (let process := popen env command in
     match popen_raises process with
     | Some e => raise e
     | None => monitor timeout duration_seconds process (ticks process) 0
     end)
    (fun e => ret (None, Some e)).

(** ** Host primitives on the sequencer

    The operations of [bpy] the operator calls.  What Blender does is not
    part of the add-on; the model keeps what the add-on relies on and
    leaves the rest to the surroundings:
    - [name] and [select] are stored as assigned;
    - a placement attribute ([frame_start], [channel], [frame_offset_start],
      [frame_offset_end]) is stored as assigned, a meta strip taking its
      children along when it moves; when the strip then overlaps another
      strip of its level, the host relocates it, and where to is the
      surroundings' answer ([relocate]);
    - channels are kept within 1 .. 128;
    - [new_sound] appends a strip with a fresh identity at the frame asked
      for, on the channel asked for (clamped), or fails as the
      surroundings say;
    - [select_all] deselects every strip;
    - [meta_make] puts the selected top-level strips inside a new meta
      strip, which becomes the active strip, with the placement the
      surroundings give it, relocated like any strip when it overlaps; the
      order in which [strips_all] then lists the strips is the
      surroundings' answer too ([listing]). *)

Definition no_editor : Py.Exn := "'NoneType' object has no attribute 'strips_all'".

(** The strips of the scene's sequence editor, [strips_all]. *)
Definition get_strips : M (list Strip) :=
  fun w =>
    match sequence_editor w with
    | Some ed => (Val (strips_all ed), w)
    | None => (Raised no_editor, w)
    end.

Definition set_strips (f : list Strip -> list Strip) : M unit :=
  fun w =>
    match sequence_editor w with
    | Some ed =>
        (Val tt, mkWorld (Some (mkSeq (f (strips_all ed)) (active_strip ed))) (log w))
    | None => (Raised no_editor, w)
    end.

(** Attribute writers. *)
Definition with_name (v : string) (s : Strip) : Strip :=
  mkStrip (sid s) v (stype s) (select s) (channel s) (frame_start s) (frame_duration s)
          (frame_offset_start s) (frame_offset_end s) (filepath s) (parent s).
Definition with_select (v : bool) (s : Strip) : Strip :=
  mkStrip (sid s) (name s) (stype s) v (channel s) (frame_start s) (frame_duration s)
          (frame_offset_start s) (frame_offset_end s) (filepath s) (parent s).
Definition with_channel (v : Z) (s : Strip) : Strip :=
  mkStrip (sid s) (name s) (stype s) (select s) v (frame_start s) (frame_duration s)
          (frame_offset_start s) (frame_offset_end s) (filepath s) (parent s).
Definition with_frame_start (v : Z) (s : Strip) : Strip :=
  mkStrip (sid s) (name s) (stype s) (select s) (channel s) v (frame_duration s)
          (frame_offset_start s) (frame_offset_end s) (filepath s) (parent s).
Definition with_frame_offset_start (v : Z) (s : Strip) : Strip :=
  mkStrip (sid s) (name s) (stype s) (select s) (channel s) (frame_start s) (frame_duration s)
          v (frame_offset_end s) (filepath s) (parent s).
Definition with_frame_offset_end (v : Z) (s : Strip) : Strip :=
  mkStrip (sid s) (name s) (stype s) (select s) (channel s) (frame_start s) (frame_duration s)
          (frame_offset_start s) v (filepath s) (parent s).
Definition with_parent (v : option nat) (s : Strip) : Strip :=
  mkStrip (sid s) (name s) (stype s) (select s) (channel s) (frame_start s) (frame_duration s)
          (frame_offset_start s) (frame_offset_end s) (filepath s) v.

(** The strips once [f] was applied to the strip of identity [id]. *)
Definition update (id : nat) (f : Strip -> Strip) (strips : list Strip) : list Strip :=
  map (fun s => if Nat.eqb (sid s) id then f s else s) strips.

(** [obj.attr = v] for an attribute the host stores as it is: [name],
    [select]. *)
Definition assign (id : nat) (f : Strip -> Strip) : M unit := set_strips (update id f).

Definition lookup (id : nat) (strips : list Strip) : option Strip :=
  find (fun s => Nat.eqb (sid s) id) strips.

(** The host's channels. *)
Definition MAXSEQ : Z := 128.

Definition clamp_channel (ch : Z) : Z := Z.max 1 (Z.min ch MAXSEQ).

(** Two strips of the same level: both at the top, or inside the same meta
    strip. *)
Definition beside (a b : Strip) : bool :=
  match parent a, parent b with
  | None, None => true
  | Some p, Some q => Nat.eqb p q
  | _, _ => false
  end.

(** The strip of identity [id] overlaps another strip of its level. *)
Definition collides (id : nat) (strips : list Strip) : bool :=
  match lookup id strips with
  | Some x =>
      existsb (fun y => negb (Nat.eqb (sid y) id) && beside x y && overlaps x y) strips
  | None => false
  end.

(** [y] is inside the meta strip [id], at any depth. *)
Fixpoint inside (fuel : nat) (strips : list Strip) (id : nat) (y : Strip) : bool :=
  match parent y with
  | None => false
  | Some p =>
      Nat.eqb p id ||
      match fuel with
      | O => false
      | S fuel' =>
          match lookup p strips with
          | Some container => inside fuel' strips id container
          | None => false
          end
      end
  end.

(** The strips once strip [id] starts at frame [v]: a meta strip moves with
    everything inside it. *)
Definition moved_to (id : nat) (v : Z) (strips : list Strip) : list Strip :=
  match lookup id strips with
  | None => strips
  | Some x =>
      map (fun y =>
             if Nat.eqb (sid y) id then with_frame_start v y
             else
               match stype x with
               | META =>
                   if inside (length strips) strips id y
                   then with_frame_start (frame_start y + (v - frame_start x)) y
                   else y
               | _ => y
               end) strips
  end.

(** What the host makes of a placement it stored for strip [id]: nothing
    when the strip overlaps no strip of its level, a relocation otherwise. *)
Definition settle (env : Env) (id : nat) (before stored : list Strip) : list Strip :=
  if collides id stored then relocate env id before stored else stored.

(** [strip.frame_start = v]. *)
Definition set_frame_start (env : Env) (id : nat) (v : Z) : M unit :=
  set_strips (fun strips => settle env id strips (moved_to id v strips)).

(** [strip.channel = v]. *)
Definition set_channel (env : Env) (id : nat) (v : Z) : M unit :=
  set_strips (fun strips =>
                settle env id strips (update id (with_channel (clamp_channel v)) strips)).

(** [strip.frame_offset_start = v]. *)
Definition set_frame_offset_start (env : Env) (id : nat) (v : Z) : M unit :=
  set_strips (fun strips =>
                settle env id strips (update id (with_frame_offset_start v) strips)).

(** [strip.frame_offset_end = v]. *)
Definition set_frame_offset_end (env : Env) (id : nat) (v : Z) : M unit :=
  set_strips (fun strips =>
                settle env id strips (update id (with_frame_offset_end v) strips)).

(** An identity no strip of the list has. *)
Definition fresh_id (strips : list Strip) : nat :=
  S (fold_right Nat.max 0%nat (map sid strips)).

(** [seq_editor.strips.new_sound(name, filepath, channel, frame_start)]. *)
Definition strips_new_sound (env : Env) (strip_name path : string) (ch frame : Z)
  : M (option Strip) :=
  emit (EvNewSound strip_name path ch frame) ;;
  match new_sound env strip_name path ch frame with
  | NewSoundRaised e => raise e
  | NewSoundNone => ret None
  | NewSoundOk duration =>
      strips <- get_strips ;;
      let s := mkStrip (fresh_id strips) strip_name SOUND true (clamp_channel ch) frame
                       duration 0 0 path None in
      set_strips (fun l => (l ++ [s])%list) ;;
      ret (Some s)
  end.

(** [bpy.ops.sequencer.select_all(action='DESELECT')]. *)
Definition ops_select_all_deselect (env : Env) : M unit :=
  emit EvSelectAll ;;
  match select_all_raises env with
  | Some e => raise e
  | None => set_strips (map (with_select false))
  end.

(** Strips the grouping primitive takes: selected, and not already inside
    a meta strip. *)
Definition groupable (s : Strip) : bool :=
  select s && match parent s with None => true | Some _ => false end.

(** [bpy.ops.sequencer.meta_make()]: the selected strips become the
    children of a new meta strip, which becomes the active strip and is
    relocated like any strip when it overlaps; [strips_all] lists the
    strips in the host's order. *)
Definition ops_meta_make (env : Env) : M unit :=
  emit EvMetaMake ;;
  strips <- get_strips ;;
  match meta_make env (filter groupable strips) with
  | MetaRaised e => raise e
  | MetaNoop => ret tt
  | MetaOk ch fs dur ofs_start ofs_end =>
      let mid := fresh_id strips in
      let meta := mkStrip mid "MetaStrip" META true ch fs dur ofs_start ofs_end "" None in
      fun w =>
        (Val tt,
         mkWorld
           (Some (mkSeq (listing env
                           (settle env mid strips
                              (map (fun s => if groupable s then with_parent (Some mid) s
                                             else s)
                                   strips ++ [meta])%list))
                        (Some mid)))
           (log w))
  end.

(** [seq_editor.active_strip], when there is one. *)
Definition get_active : M (option Strip) :=
  fun w =>
    match sequence_editor w with
    | Some ed =>
        (Val match active_strip ed with
             | Some id => lookup id (strips_all ed)
             | None => None
             end, w)
    | None => (Raised no_editor, w)
    end.

(** ** The operator [AUDIO_OT_ExtractAdditionalTracks.execute] *)

(** *** Finding the selected strip *)

Definition is_candidate (strip : Strip) : bool :=
  select strip &&
  match stype strip with
  | MOVIE => true
  | SOUND => Py.truthy (filepath strip)
  | _ => false
  end.

Inductive Selection :=
| SelNone
| SelOne (strip : Strip)
| SelMultiple.

(** The [for strip in seq_editor.strips_all] loop; [selected] is the
    variable [selected_strip]. *)
Fixpoint find_selected (strips : list Strip) (selected : option Strip) : Selection :=
  match strips with
  | [] => match selected with Some s => SelOne s | None => SelNone end
  | strip :: rest =>
      if is_candidate strip then
        match selected with
        | None => find_selected rest (Some strip)
        | Some _ => SelMultiple
        end
      else find_selected rest selected
  end.

Definition source_path (env : Env) (strip : Strip) : string :=
  match stype strip with
  | MOVIE => abspath env (filepath strip)
  | _ => abspath env (filepath strip)            (* strip.sound.filepath *)
  end.

(** *** Phase 1: the per-track log *)

Definition or_unknown (o : option string) : string :=
  match o with Some s => s | None => "unknown" end.

Definition stream_index_of (stream_info : StreamInfo) : string :=
  Py.str_of_opt_int (s_index stream_info).

Definition stream_title_of (stream_info : StreamInfo) : string :=
  match s_title stream_info with
  | Some t => t
  | None => "Track_" ++ stream_index_of stream_info
  end.

Definition log_track (env : Env) (i : nat) (stream_info : StreamInfo) (_ : unit) : M unit :=
  let stream_duration := or_unknown (s_duration stream_info) in
  report INFO (MsgTrackInfo i stream_info) ;;
  if Py.truthy stream_duration && negb (String.eqb stream_duration "unknown") then
    match float_of_str env stream_duration with
    | Some duration_float =>
        when (gt 1 duration_float)
             (report WARNING
                (MsgTrackShort (stream_index_of stream_info) (stream_title_of stream_info)
                               duration_float))
    | None => ret tt                                 (* except: pass *)
    end
  else ret tt.

(** *** Phase 2: size, duration and frame rate of the source *)

Definition video_info_command (source_file : string) : Command :=
  [ Lit "ffprobe"; Lit "-v"; Lit "error"; Lit "-show_entries"; Lit "format=duration";
    Lit "-of"; Lit "default=noprint_wrappers=1:nokey=1"; Lit source_file ].

Definition video_fps_command (source_file : string) : Command :=
  [ Lit "ffprobe"; Lit "-v"; Lit "error"; Lit "-select_streams"; Lit "v:0";
    Lit "-show_entries"; Lit "stream=r_frame_rate";
    Lit "-of"; Lit "default=noprint_wrappers=1:nokey=1"; Lit source_file ].

Definition value_error : Py.Exn := "could not convert string to float".
Definition zero_division : Py.Exn := "float division by zero".
Definition os_error : Py.Exn := "[Errno 2] No such file or directory".

Definition py_float (env : Env) (s : string) : M Q :=
  match float_of_str env s with
  | Some x => ret x
  | None => raise value_error
  end.

Definition py_truediv (x y : Q) : M Q :=
  match Py.truediv x y with
  | Some q => ret q
  | None => raise zero_division
  end.

Definition py_getsize (env : Env) (path : string) : M Z :=
  match getsize env path with
  | Some n => ret n
  | None => raise os_error
  end.

(** Frame rate strings: ["30/1"], ["30000/1001"] or ["29.97"]. *)
Definition parse_fps (env : Env) (fps_string : string) : M Q :=
  if Py.contains "/" fps_string then
    match Py.split "/" fps_string with
    | [numerator; denominator] =>
        n <- py_float env numerator ;;
        d <- py_float env denominator ;;
        py_truediv n d
    | _ => raise "too many values to unpack (expected 2)"
    end
  else py_float env fps_string.

(** Returns [(file_size_mb, actual_video_fps)]. *)
Definition analyze_source (env : Env) (source_file : string) : M (Q * Q) :=
  try_except
    (bytes <- py_getsize env source_file ;;
     let file_size_mb := (inject_Z bytes / inject_Z (1024 * 1024))%Q in
     '(returncode, stdout, _) <- run_or_raise env (video_info_command source_file) 30 ;;
     if negb (returncode =? 0) || negb (Py.truthy (Py.strip stdout)) then
       report ERROR MsgDurationFailed ;; py_return CANCELLED
     else
       video_duration_seconds <- py_float env (Py.strip stdout) ;;
       report INFO (MsgSourceDuration video_duration_seconds) ;;
       '(fps_returncode, fps_stdout, _) <-
          run_or_raise env (video_fps_command source_file) 30 ;;
       actual_video_fps <-
         (if (fps_returncode =? 0) && Py.truthy (Py.strip fps_stdout) then
            fps <- parse_fps env (Py.strip fps_stdout) ;;
            report INFO (MsgSourceFps fps) ;;
            ret fps
          else
            fps <- py_truediv (inject_Z (render_fps env)) (render_fps_base env) ;;
            report WARNING (MsgProjectFps fps) ;;
            ret fps) ;;
       ret (file_size_mb, actual_video_fps))
    (fun e => report ERROR (MsgAnalyzeFailed e) ;; py_return CANCELLED).

(** The frame rate Phase 2 settles on for a source file, when it does. *)
Definition resolved_rate (env : Env) (source_file : string) : option Q :=
  match fst (analyze_source env source_file (mkWorld None [])) with
  | Val (_, fps) => Some fps
  | _ => None
  end.

(** *** Phase 3: the snapshot of the original strip *)

Record Snapshot := mkSnapshot {
  original_strip_name : string;
  original_strip_channel : Z;
  original_frame_start : Z;
  original_frame_final_start : Z;
  original_frame_final_end : Z;
  original_frame_final_duration : Z;
  original_frame_offset_start : Z;
  original_frame_offset_end : Z
}.

Definition snapshot (selected_strip : Strip) : Snapshot :=
  mkSnapshot (name selected_strip) (channel selected_strip) (frame_start selected_strip)
             (frame_final_start selected_strip) (frame_final_end selected_strip)
             (frame_final_duration selected_strip)
             (frame_offset_start selected_strip) (frame_offset_end selected_strip).

Definition audio_timeout (file_size_mb : Q) : Z :=
  Z.max 60 (Z.min 600 (Py.int_of_float (file_size_mb * 2)%Q)).

Definition temp_extraction_start : Z := 1000.

(** [max_channel + 1] over [occupied_channels], or 1 when there is none. *)
Definition extraction_start_channel (occupied_channels : list Z) : Z :=
  match occupied_channels with
  | [] => 1
  | c :: cs => Py.max_list c cs + 1
  end.

(** *** Phase 4: one extraction job per additional stream *)

Definition ffmpeg_command (strip_start_offset_seconds : Q)
    (source_file stream_index temp_path : string) : Command :=
  [ Lit "ffmpeg"; Lit "-y";
    Lit "-ss"; Fmt6 strip_start_offset_seconds;
    Lit "-i"; Lit source_file;
    Lit "-map"; Lit ("0:" ++ stream_index);
    Lit "-vn";
    Lit "-acodec"; Lit "pcm_s16le";
    Lit "-ar"; Lit "48000";
    Lit temp_path ].

Definition verify_command (temp_path : string) : Command :=
  [ Lit "ffprobe"; Lit "-v"; Lit "error"; Lit "-show_entries"; Lit "format=duration";
    Lit "-of"; Lit "default=noprint_wrappers=1:nokey=1"; Lit temp_path ].

(** The debugging check of the extracted file's duration. *)
Definition verify_extracted (env : Env) (temp_path : string) (requested : Q) : M unit :=
  try_except
    ('(returncode, stdout, _) <- run_or_raise env (verify_command temp_path) 10 ;;
     if (returncode =? 0) && Py.truthy (Py.strip stdout) then
       actual_extracted_duration <- py_float env (Py.strip stdout) ;;
       report INFO (MsgVerifiedDuration actual_extracted_duration requested)
     else report WARNING MsgCouldNotVerify)
    (fun e => report WARNING (MsgVerifyError e)).

(** The loop's variables. *)
Record LoopState := mkLoop {
  created_audio_strips : list nat;     (* identities of the strips created *)
  next_channel : Z
}.

(** Truth value of the [stderr] component: neither [None] nor empty. *)
Definition truthy_opt (o : option string) : bool :=
  match o with Some s => Py.truthy s | None => false end.

Definition opt_text (o : option string) : string :=
  match o with Some s => s | None => "None" end.

(** The body of [for i, stream_info in enumerate(additional_tracks)];
    [continue] ends the turn with the variables unchanged. *)
Definition extract_track (env : Env) (source_file : string) (snap : Snapshot)
    (actual_video_fps : Q) (timeout : Z) (n : nat)
    (i : nat) (stream_info : StreamInfo) (st : LoopState) : M LoopState :=
  progress_update (30 + 50 * inject_Z (Z.of_nat (i + 1)) / inject_Z (Z.of_nat n))%Q ;;
  let stream_index := stream_index_of stream_info in
  let stream_title := stream_title_of stream_info in
  let stream_codec := or_unknown (s_codec_name stream_info) in
  let temp_audio_filename :=
    "additional_audio_" ++ original_strip_name snap ++ "_track_" ++ stream_index ++ ".wav" in
  let source_dir := dirname env source_file in
  let temp_path := path_join env source_dir temp_audio_filename in
  report INFO (MsgExtractingTrack stream_index stream_title stream_codec (i + 1) n) ;;
  try_except
    (precise_duration_seconds <-
       py_truediv (inject_Z (original_frame_final_duration snap)) actual_video_fps ;;
     strip_start_offset_seconds <-
       py_truediv (inject_Z (original_frame_offset_start snap)) actual_video_fps ;;
     report INFO (MsgStripOffsets (original_frame_offset_start snap)
                                  (original_frame_offset_end snap)) ;;
     report INFO (MsgPreciseExtraction strip_start_offset_seconds precise_duration_seconds
                                       (original_frame_final_duration snap) actual_video_fps) ;;
     let command :=
       ffmpeg_command strip_start_offset_seconds source_file stream_index temp_path in
     report INFO (MsgFfmpegCommand command) ;;
     '(stdout, stderr) <-
        run_ffmpeg_with_progress env command timeout (Some precise_duration_seconds) ;;
     if truthy_opt stderr then
       report WARNING (MsgExtractFailed stream_index (opt_text stderr)) ;;
       ret st                                                     (* continue *)
     else if path_exists env temp_path then
       bytes <- py_getsize env temp_path ;;
       let file_size_kb := (inject_Z bytes / 1024)%Q in
       report INFO (MsgExtractedFile file_size_kb) ;;
       verify_extracted env temp_path precise_duration_seconds ;;
       when (gt 10 file_size_kb)
            (report WARNING (MsgVerySmall stream_index stream_title file_size_kb) ;;
             report WARNING MsgMaybeSilent) ;;
       let audio_strip_name := "Audio_" ++ stream_title in
       audio_strip <-
         strips_new_sound env audio_strip_name temp_path (next_channel st)
                          temp_extraction_start ;;
       match audio_strip with
       | Some a =>
           report INFO (MsgCreated audio_strip_name (frame_start a) (frame_final_start a)
                                   (frame_final_end a) (frame_final_duration a)) ;;
           report INFO (MsgAdded audio_strip_name (channel a) (frame_final_duration a)) ;;
           ret (mkLoop (created_audio_strips st ++ [sid a])%list (next_channel st + 1))
       | None =>
           report WARNING (MsgCreateFailed audio_strip_name) ;;
           ret st
       end
     else
       report WARNING (MsgOutputNotFound temp_path) ;;
       ret st)                                                    (* continue *)
    (fun e =>
       report WARNING (MsgImportFailed stream_index e) ;;
       ret st).                                                   (* continue *)

(** *** Phases 5 and 6: grouping and restoring *)

(** Moving the original strip beside the new audio strips. *)
Definition move_to_temporary_area (env : Env) (selected : nat) (start_channel : Z)
  : M unit :=
  set_frame_start env selected temp_extraction_start ;;
  set_channel env selected (start_channel - 1).

(** Phase 6, on the meta strip of identity [meta]. *)
Definition restore_original (env : Env) (snap : Snapshot) (meta : nat) : M unit :=
  set_frame_start env meta (original_frame_start snap) ;;
  set_channel env meta (original_strip_channel snap) ;;
  set_frame_offset_start env meta (original_frame_offset_start snap) ;;
  set_frame_offset_end env meta (original_frame_offset_end snap) ;;
  strips <- get_strips ;;
  match lookup meta strips with
  | None => ret tt
  | Some m =>
      let current_duration := frame_final_duration m in
      let target_duration := original_frame_final_duration snap in
      if Z.abs (current_duration - target_duration) >? 1 then
        let duration_diff := current_duration - target_duration in
        set_frame_offset_end env meta (original_frame_offset_end snap + duration_diff) ;;
        report INFO (MsgAdjusted current_duration target_duration)
      else ret tt
  end.

Definition group_and_restore (env : Env) (selected : nat) (snap : Snapshot)
    (start_channel : Z) (created : list nat) (found : nat) : M unit :=
  report INFO (MsgCreatingMeta (length created)) ;;
  move_to_temporary_area env selected start_channel ;;
  report INFO MsgMovedOriginal ;;
  ops_select_all_deselect env ;;
  assign selected (with_select true) ;;
  for_each (fun _ audio_strip _ => assign audio_strip (with_select true)) 0 created tt ;;
  ops_meta_make env ;;
  active <- get_active ;;
  match active with
  | Some a =>
      match stype a with
      | META =>
          let meta_name := "MultiAudio_" ++ original_strip_name snap in
          assign (sid a) (with_name meta_name) ;;
          report INFO MsgRestoring ;;
          restore_original env snap (sid a) ;;
          report INFO (MsgMetaCreated meta_name) ;;
          report INFO MsgOneVideoTrack ;;
          report INFO (MsgAudioTrackCount (length created + 1)) ;;
          report INFO (MsgAllGrouped found) ;;
          report INFO MsgPreserved ;;
          report INFO MsgSafety ;;
          report INFO MsgPcm
      | _ => report WARNING MsgMetaMayHaveFailed
      end
  | None => report WARNING MsgMetaMayHaveFailed
  end.

(** Phases 3 to 6, entered once the source has been analysed. *)
Definition extract_additional (env : Env) (selected_strip : Strip) (source_file : string)
    (found_audio_streams : list StreamInfo) (file_size_mb actual_video_fps : Q) : M unit :=
  progress_update 30 ;;
  let snap := snapshot selected_strip in
  report INFO (MsgOriginalProps (original_frame_start snap) (original_frame_final_start snap)
                                (original_frame_final_end snap)
                                (original_frame_final_duration snap)) ;;
  if (1 <? length found_audio_streams)%nat then
    report INFO (MsgExtractingAll (length found_audio_streams)) ;;
    let additional_tracks := tl found_audio_streams in
    let timeout := audio_timeout file_size_mb in
    report INFO (MsgTempArea temp_extraction_start) ;;
    strips <- get_strips ;;
    let occupied_channels := map channel strips in
    let start_channel := extraction_start_channel occupied_channels in
    match occupied_channels with
    | c :: cs => report INFO (MsgChannelsOccupied (Py.max_list c cs) start_channel)
    | [] => report INFO (MsgNoChannels start_channel)
    end ;;
    st <- for_each
            (extract_track env source_file snap actual_video_fps timeout
                           (length additional_tracks))
            0 additional_tracks (mkLoop [] start_channel) ;;
    progress_update 90 ;;
    match created_audio_strips st with
    | [] => report WARNING MsgNoneExtracted
    | _ :: _ =>
        group_and_restore env (sid selected_strip) snap start_channel
                          (created_audio_strips st) (length found_audio_streams)
    end
  else report INFO MsgOnlyOneNoProcessing.

(** *** The operator *)

(** The body of the operator's outer [try] block. *)
Definition operator_body (env : Env) (selected_strip : Strip) (source_file : string)
  : M Status :=
  progress_update 10 ;;
  report INFO (MsgScanning (basename env source_file)) ;;
  found_audio_info <- get_audio_tracks env source_file ;;
  match found_audio_info with
  | ScanError _ detail =>
      report ERROR (MsgScanFailed detail) ;; py_return CANCELLED
  | ScanStreams found_audio_streams =>
      match found_audio_streams with
      | [] => report INFO MsgNoAudioTracks ;; py_return FINISHED
      | [_] =>
          report INFO (MsgOnlyOneTrack (length found_audio_streams)) ;;
          py_return FINISHED
      | _ =>
          report INFO (MsgFoundTracks (length found_audio_streams)) ;;
          for_each (log_track env) 0 found_audio_streams tt
      end ;;
      progress_update 20 ;;
      report INFO MsgGettingDuration ;;
      '(file_size_mb, actual_video_fps) <- analyze_source env source_file ;;
      extract_additional env selected_strip source_file found_audio_streams
                         file_size_mb actual_video_fps ;;
      progress_update 100 ;;
      py_return FINISHED
  end.

(** [try: m  finally: f]. *)
Definition finally {A} (m : M A) (f : M unit) : M A :=
  fun w => let (r, w') := m w in (r, snd (f w')).

Definition execute (env : Env) : M Status :=
  fun w =>
    match sequence_editor w with
    | None => (report ERROR MsgNoSequenceEditor ;; py_return CANCELLED) w
    | Some seq_editor =>
        match find_selected (strips_all seq_editor) None with
        | SelMultiple => (report ERROR MsgMultipleSelected ;; py_return CANCELLED) w
        | SelNone => (report ERROR MsgNoneSelected ;; py_return CANCELLED) w
        | SelOne selected_strip =>
            let source_file := source_path env selected_strip in
            if negb (isfile env source_file) then
              (report ERROR (MsgSourceNotFound source_file) ;; py_return CANCELLED) w
            else
              (emit (EvProgressBegin 0 100) ;;
               finally
                 (try_except
                    (operator_body env selected_strip source_file)
                    (fun e => report ERROR (MsgFailed e) ;; py_return CANCELLED))
                 (emit EvProgressEnd)) w
        end
    end.

(** ** The panel [SEQUENCER_PT_MultiAudioImport.draw] *)

Inductive Icon := ICON_NONE | ICON_INFO | ICON_ERROR | ICON_SEQUENCE | ICON_SPEAKER.

(** The text of a label: a string, or the size line
    [f"Size: {file_size_mb:.1f} MB"] by the number it formats. *)
Inductive LabelText :=
| Text (s : string)
| SizeText (file_size_mb : Q).

Coercion Text : string >-> LabelText.

(** What [draw] puts on the layout. *)
Inductive Item :=
| Label (text : LabelText) (icon : Icon)
| Separator
| OperatorButton (idname : string) (icon : Icon) (text : string).

Definition bl_idname : string := "multi_audio.extract_additional_tracks".

Definition extract_button : Item :=
  OperatorButton bl_idname ICON_SPEAKER "Extract Additional Audio Tracks".

(** [seq_editor.strips]: the strips that are not inside a meta strip. *)
Definition strips_top (ed : SeqEditor) : list Strip :=
  filter (fun s => match parent s with None => true | Some _ => false end) (strips_all ed).

(** [draw]: the items laid out, in order, and the exception that ended
    the drawing, if one did.  It reads the scene and changes nothing. *)
Definition draw (env : Env) (w : World) : list Item * option Py.Exn :=
  match sequence_editor w with
  | None => ([Label "No sequences available" ICON_INFO], None)
  | Some seq_editor =>
      match strips_top seq_editor with
      | [] => ([Label "No sequences available" ICON_INFO], None)
      | _ :: _ =>
          let selected_video_strips := filter is_candidate (strips_all seq_editor) in
          match selected_video_strips with
          | [] =>
              ([Label "Select a video strip" ICON_INFO;
                Label "to extract additional audio tracks" ICON_NONE], None)
          | _ :: _ :: _ =>
              ([Label "Select only one video strip" ICON_ERROR], None)
          | [selected_strip] =>
              let source_file := source_path env selected_strip in
              let strip_type :=
                match stype selected_strip with MOVIE => "Video" | _ => "Audio" end in
              let info :=
                [Label ("Selected: " ++ name selected_strip) ICON_SEQUENCE;
                 Label ("Type: " ++ strip_type) ICON_NONE] in
              if isfile env source_file then
                match getsize env source_file with
                | None => (info, Some os_error)
                | Some bytes =>
                    let file_size_mb := (inject_Z bytes / inject_Z (1024 * 1024))%Q in
                    ((info ++ [Label (SizeText file_size_mb) ICON_NONE;
                               Separator;
                               extract_button])%list, None)
                end
              else
                ((info ++ [Label "⚠ Source file not found" ICON_ERROR;
                           Label ("Path: " ++ source_file)%string ICON_NONE;
                           Separator;
                           Label "Tip: Use 'Make Paths Relative'" ICON_NONE;
                           Label "or ensure source file exists" ICON_NONE])%list, None)
          end
      end
  end.

(** ** Observations on a run *)

(** The operator's return value. *)
Definition status_of {A} (r : Res A * World) : option Status :=
  match fst r with Returned st => Some st | _ => None end.

(** One ffmpeg invocation, as [run_ffmpeg_with_progress] was called. *)
Record Job := mkJob {
  job_command : Command;
  job_timeout : Z;
  job_duration : option Q
}.

(** The value after [-ss] in a job's command. *)
Definition job_start (j : Job) : option Q :=
  match job_command j with
  | _ :: _ :: Lit "-ss" :: Fmt6 x :: _ => Some x
  | _ => None
  end.

(** The stream selected by [-map 0:<index>]. *)
Definition job_map (j : Job) : option string :=
  match job_command j with
  | _ :: _ :: _ :: _ :: _ :: _ :: Lit "-map" :: Lit m :: _ => Some m
  | _ => None
  end.

(** The jobs of a log, most recent first, as the log is. *)
Fixpoint jobs_rev (l : list Event) : list Job :=
  match l with
  | [] => []
  | EvPopen cmd t d :: rest => mkJob cmd t d :: jobs_rev rest
  | _ :: rest => jobs_rev rest
  end.

(** The jobs of a world, oldest first. *)
Definition jobs (w : World) : list Job := rev (jobs_rev (log w)).

(** The reports of a log at a given level, most recent first. *)
Fixpoint reports_rev (lvl : Level) (l : list Event) : list Msg :=
  match l with
  | [] => []
  | EvReport lvl' m :: rest =>
      match lvl, lvl' with
      | INFO, INFO | WARNING, WARNING | ERROR, ERROR => m :: reports_rev lvl rest
      | _, _ => reports_rev lvl rest
      end
  | _ :: rest => reports_rev lvl rest
  end.

(** The reports of a world at a given level, oldest first. *)
Definition reports (lvl : Level) (w : World) : list Msg := rev (reports_rev lvl (log w)).

(** The strips of a world, as [strips_all] lists them. *)
Definition strips_of (w : World) : list Strip :=
  match sequence_editor w with
  | Some ed => strips_all ed
  | None => []
  end.

(** The composite of a world: its active strip, when that is a meta strip. *)
Definition composite_of (w : World) : option Strip :=
  match sequence_editor w with
  | Some ed =>
      match active_strip ed with
      | Some id =>
          match lookup id (strips_all ed) with
          | Some m => match stype m with META => Some m | _ => None end
          | None => None
          end
      | None => None
      end
  | None => None
  end.

(** Where a strip is: channel, start, the two offsets and the visible
    length. *)
Definition placement (x : Strip) : Z * Z * Z * Z * Z :=
  (channel x, frame_start x, frame_offset_start x, frame_offset_end x,
   frame_final_duration x).

(** A computation run on its own: what it returns and what it logs. *)
Definition blank : World := mkWorld None [].
Definition value_of {A} (m : M A) : Res A := fst (m blank).
Definition events_of {A} (m : M A) : list Event := log (snd (m blank)).

(** The world [w] after the events [evs] (most recent first) were logged. *)
Definition logged (evs : list Event) (w : World) : World :=
  mkWorld (sequence_editor w) (evs ++ log w)%list.

(** A computation that leaves the sequencer alone and whose value and
    events do not depend on the world it starts from. *)
Definition tool_only {A} (m : M A) : Prop :=
  forall w, m w = (value_of m, logged (events_of m) w).

(** What the scan of a source file answers. *)
Definition scan (env : Env) (video_path : string) : ScanResult :=
  scan_result env (subprocess_run env (ffprobe_scan_command video_path) 30).

(** A loop turn that finds more than the timeout elapsed. *)
Definition late (timeout : Z) (t : Tick) : bool := gt (elapsed t) (inject_Z timeout).




(** The number of [subprocess.run] calls in a log. *)
Definition count_runs (l : list Event) : nat :=
  length (filter (fun e => match e with EvRun _ _ => true | _ => false end) l).

(** The four failures the scanner's interface names. *)
Definition named_scan_failure (r : ScanResult) : Prop :=
  exists detail,
    r = ScanError "ffprobe_failed" detail \/
    r = ScanError "ffprobe_empty_output" detail \/
    r = ScanError "json_decode_error" detail \/
    r = ScanError "ffprobe_timeout" detail.

(** ** Vocabulary for the statements

    The functions below describe, without the log, what the extraction
    loop does to the strips; the section on Phases 3 to 6 proves that
    [execute] computes exactly them. *)

(** [quiet m]: [m] only talks to tools, and starts no ffmpeg job. *)
Definition quiet {A} (m : M A) : Prop :=
  tool_only m /\ jobs_rev (events_of m) = [].

(** [steady m]: [m] starts no ffmpeg job and keeps what was logged. *)
Definition steady {A} (m : M A) : Prop :=
  forall w, jobs_rev (log (snd (m w))) = jobs_rev (log w) /\ incl (log w) (log (snd (m w))).

(** The variable [temp_path] of the loop turn for [stream_info]. *)
Definition temp_path_of (env : Env) (source_file : string) (snap : Snapshot)
    (stream_info : StreamInfo) : string :=
  path_join env (dirname env source_file)
    ("additional_audio_" ++ original_strip_name snap ++ "_track_"
       ++ stream_index_of stream_info ++ ".wav").

(** The call of [run_ffmpeg_with_progress] the loop turn for [stream_info]
    makes when the frame rate is [fps]. *)
Definition job_of (env : Env) (source_file : string) (snap : Snapshot) (fps : Q)
    (timeout : Z) (stream_info : StreamInfo) : Job :=
  mkJob (ffmpeg_command (inject_Z (original_frame_offset_start snap) / fps)%Q source_file
           (stream_index_of stream_info) (temp_path_of env source_file snap stream_info))
        timeout
        (Some (inject_Z (original_frame_final_duration snap) / fps)%Q).

(** What [run_ffmpeg_with_progress] returns for a job. *)
Definition ffmpeg_result (env : Env) (j : Job) : Res (option string * option string) :=
  value_of (run_ffmpeg_with_progress env (job_command j) (job_timeout j) (job_duration j)).

(** The job for [stream_info] is verified: the window could be computed,
    ffmpeg returned no error text, and the output file exists. *)
Definition extraction_ok (env : Env) (source_file : string) (snap : Snapshot) (fps : Q)
    (timeout : Z) (stream_info : StreamInfo) : bool :=
  negb (Py.is_zero fps) &&
  match ffmpeg_result env (job_of env source_file snap fps timeout stream_info) with
  | Val (_, stderr) =>
      negb (truthy_opt stderr) && path_exists env (temp_path_of env source_file snap stream_info)
  | _ => false
  end.

(** The length of the strip the loop turn creates on channel [ch], if it
    creates one. *)
Definition created_duration (env : Env) (source_file : string) (snap : Snapshot) (fps : Q)
    (timeout : Z) (stream_info : StreamInfo) (ch : Z) : option Z :=
  if extraction_ok env source_file snap fps timeout stream_info then
    match getsize env (temp_path_of env source_file snap stream_info) with
    | Some _ =>
        match new_sound env ("Audio_" ++ stream_title_of stream_info)
                        (temp_path_of env source_file snap stream_info) ch
                        temp_extraction_start with
        | NewSoundOk d => Some d
        | _ => None
        end
    | None => None
    end
  else None.

(** The sound strip [new_sound] adds for [stream_info]. *)
Definition audio_strip (env : Env) (source_file : string) (snap : Snapshot)
    (stream_info : StreamInfo) (id : nat) (ch d : Z) : Strip :=
  mkStrip id ("Audio_" ++ stream_title_of stream_info) SOUND true (clamp_channel ch)
          temp_extraction_start d 0 0 (temp_path_of env source_file snap stream_info) None.

(** One loop turn on the strips and the loop's variables. *)
Definition track_step (env : Env) (source_file : string) (snap : Snapshot) (fps : Q)
    (timeout : Z) (stream_info : StreamInfo) (acc : list Strip * LoopState)
  : list Strip * LoopState :=
  let (strips, st) := acc in
  match created_duration env source_file snap fps timeout stream_info (next_channel st) with
  | Some d =>
      ((strips ++ [audio_strip env source_file snap stream_info (fresh_id strips)
                    (next_channel st) d])%list,
       mkLoop (created_audio_strips st ++ [fresh_id strips])%list (next_channel st + 1))
  | None => acc
  end.

(** The whole loop. *)
Definition track_loop (env : Env) (source_file : string) (snap : Snapshot) (fps : Q)
    (timeout : Z) (streams : list StreamInfo) (acc : list Strip * LoopState)
  : list Strip * LoopState :=
  fold_left (fun acc s => track_step env source_file snap fps timeout s acc) streams acc.

(** The warnings that tell a job was skipped. *)
Definition skip_warning (env : Env) (src : string) (snap : Snapshot) (stream : StreamInfo)
    (m : Msg) : Prop :=
  (exists text, m = MsgExtractFailed (stream_index_of stream) text) \/
  m = MsgOutputNotFound (temp_path_of env src snap stream).

(** How the operator ends once Phases 3 to 6 are over. *)
Definition conclude (r : Res unit * World) : Res Status * World :=
  match r with
  | (Val _, w') => (Returned FINISHED, logged [EvProgressEnd; EvProgressUpdate 100] w')
  | (Returned st, w') => (Returned st, logged [EvProgressEnd] w')
  | (Raised e, w') =>
      (Returned CANCELLED, logged [EvProgressEnd; EvReport ERROR (MsgFailed e)] w')
  end.

(** The host's strip creation and file system never fail on a file that
    was extracted. *)
Definition host_creates (env : Env) : Prop :=
  (forall p, path_exists env p = true -> exists n, getsize env p = Some n) /\
  (forall nm p ch fr, exists d, new_sound env nm p ch fr = NewSoundOk d).

(** *** How runs end and what they log *)

(** How a computation ends. *)
Inductive Kind := KVal | KRet (st : Status) | KExc.

Definition kind_of {A} (r : Res A) : Kind :=
  match r with
  | Val _ => KVal
  | Returned st => KRet st
  | Raised _ => KExc
  end.

(** [obeys I m]: whatever the world, [m] only adds events to the log, and
    the events it adds satisfy [I] for the way it ends. *)
Definition obeys (I : Kind -> list Event -> Prop) {A} (m : M A) : Prop :=
  forall w, exists evs,
    log (snd (m w)) = (evs ++ log w)%list /\ I (kind_of (fst (m w))) evs.

(** Events that can be logged while the operator goes on: everything but
    error reports and the opening and closing of the progress bar. *)
Definition plain (e : Event) : bool :=
  match e with
  | EvReport ERROR _ | EvProgressBegin _ _ | EvProgressEnd => false
  | _ => true
  end.

(** The body of the operator's [try] statement with its handler. *)
Definition guarded_body (env : Env) (selected_strip : Strip) (source_file : string)
  : M Status :=
  try_except (operator_body env selected_strip source_file)
             (fun e => report ERROR (MsgFailed e) ;; py_return CANCELLED).

(** The events of the progress bar's opening and closing. *)
Definition bar_event (e : Event) : bool :=
  match e with
  | EvProgressBegin _ _ | EvProgressEnd => true
  | _ => false
  end.

(** Number of error reports among some events. *)
Definition errors (evs : list Event) : nat := length (reports_rev ERROR evs).

(** Error reports and the status: one error with [CANCELLED], none otherwise. *)
Definition one_error_iff_cancelled (k : Kind) (evs : list Event) : Prop :=
  errors evs = match k with KRet CANCELLED => 1%nat | _ => 0%nat end.

(** No progress-bar event among the events. *)
Definition no_bar_events (k : Kind) (evs : list Event) : Prop :=
  Forall (fun e => bar_event e = false) evs.

(** The error reports of Phase 2, by the way it ends. *)
Definition analysis_errors (k : Kind) (evs : list Event) : Prop :=
  match k with
  | KRet CANCELLED =>
      reports_rev ERROR evs = [MsgDurationFailed] \/
      exists e, reports_rev ERROR evs = [MsgAnalyzeFailed e]
  | KRet FINISHED => False
  | _ => reports_rev ERROR evs = []
  end.

(** *** Progress of one job *)

(** The values passed to [wm.progress_update] among some events, most
    recent first. *)
Fixpoint progress_values (evs : list Event) : list Q :=
  match evs with
  | [] => []
  | EvProgressUpdate v :: rest => v :: progress_values rest
  | _ :: rest => progress_values rest
  end.

(** Progress values, oldest first, that start above [last], each at most 1
    and more than a hundredth above the one before. *)
Fixpoint paced (last : Q) (ps : list Q) : Prop :=
  match ps with
  | [] => True
  | p :: rest => (1 # 100 < p - last)%Q /\ (p <= 1)%Q /\ paced p rest
  end.

(** Whether a job can report progress: [duration_seconds] is truthy. *)
Definition tracks (duration_seconds : option Q) : bool :=
  match duration_seconds with
  | Some d => negb (Py.is_zero d)
  | None => false
  end.

(** *** The strips a run creates *)

(** The additional streams whose job is verified, in stream order. *)
Definition extracted (env : Env) (src : string) (snap : Snapshot) (fps : Q) (timeout : Z)
    (streams : list StreamInfo) : list StreamInfo :=
  filter (extraction_ok env src snap fps timeout) streams.

(** The variable [temp_audio_filename] of the loop turn for [stream_info]. *)
Definition temp_audio_filename (snap : Snapshot) (stream_info : StreamInfo) : string :=
  "additional_audio_" ++ original_strip_name snap ++ "_track_"
    ++ stream_index_of stream_info ++ ".wav".

(** *** A grouping that fails *)

(** The strip [x] once Phase 5 stored the original strip's new start and
    channel, whatever became of its selection. *)
Definition displaced (selected : nat) (start_channel : Z) (x : Strip) : Strip :=
  if Nat.eqb (sid x) selected
  then with_channel (clamp_channel (start_channel - 1))
         (with_frame_start temp_extraction_start x)
  else x.

(** The temporary area is free for the original strip: it overlaps no
    strip of its level, neither once it starts at frame 1000 nor once it
    is on the channel below the workspace as well, so the host has nothing
    to relocate. *)
Definition area_free (selected : nat) (start_channel : Z) (strips : list Strip) : bool :=
  negb (collides selected (update selected (with_frame_start temp_extraction_start) strips)) &&
  negb (collides selected (map (displaced selected start_channel) strips)).

(** The strip [x] once Phase 5 also selected the strips to group. *)
Definition place (selected : nat) (start_channel : Z) (created : list nat) (x : Strip)
  : Strip :=
  with_select (Nat.eqb (sid x) selected || existsb (Nat.eqb (sid x)) created)
              (displaced selected start_channel x).


(** ** A concrete installation, used to exercise the model *)

Module Scenario.

Definition idx0 := mkStream (Some 0) (Some "40.0") (Some "aac") (Some 2) (Some "48000") None.
Definition idx1 :=
  mkStream (Some 1) (Some "40.0") (Some "aac") (Some 2) (Some "48000") (Some "Comm").
Definition idx2 :=
  mkStream (Some 2) (Some "40.0") (Some "aac") (Some 2) (Some "48000") (Some "Music").

(** An ffmpeg run that reports progress once and exits with code 0. *)
Definition good_proc : Proc :=
  mkProc None [mkTick 1 (ReadLineOk "time=00:00:20.00" (Some (0, 0, 20%Q)))] None
         (Exited 0 "" "") 2.

(** An ffmpeg run that exits with code 1. *)
Definition bad_proc : Proc :=
  mkProc None [] None (Exited 1 "" "Stream map matches no streams") 1.

(** An ffmpeg run that exits with code 1 after its only message was read
    by the monitoring loop: nothing is left for [communicate()]. *)
Definition mute_proc : Proc :=
  mkProc None [mkTick 1 (ReadLineOk "Error while opening encoder" None)] None
         (Exited 1 "" "") 2.


(** *** The host

    A sequencer that resolves collisions the way Blender's does.  A strip
    that overlaps after an assignment is moved one channel at a time, up
    when the assignment did not lower its channel and down otherwise,
    until it is free or at the limit; when that takes it out of the
    channels, it stays on the channel assigned and is moved in time to the
    end of everything on that channel. *)

(** [x] overlaps another strip of its level. *)
Definition hits (strips : list Strip) (x : Strip) : bool :=
  existsb (fun y => negb (Nat.eqb (sid y) (sid x)) && beside x y && overlaps x y) strips.

(** While [x] overlaps and is not at the limit, one more channel. *)
Fixpoint climb (fuel : nat) (delta : Z) (strips : list Strip) (x : Strip) : Strip :=
  match fuel with
  | O => x
  | S fuel' =>
      if hits strips x then
        if (if delta >? 0 then channel x >=? MAXSEQ else channel x <? 1) then x
        else climb fuel' delta strips (with_channel (channel x + delta) x)
      else x
  end.

(** The relocation of strip [id], which overlaps in [stored]. *)
Definition shuffle (id : nat) (before stored : list Strip) : list Strip :=
  match lookup id stored with
  | Some x =>
      let lowered :=
        match lookup id before with
        | Some old => channel x <? channel old
        | None => false
        end in
      let delta := if lowered then -1 else 1 in
      let y := climb 130 delta stored (with_channel (channel x + delta) x) in
      if (1 <=? channel y) && (channel y <=? MAXSEQ)
      then update id (with_channel (channel y)) stored
      else
        let new_frame :=
          fold_right Z.max (frame_final_end x)
            (map frame_final_end
                 (filter (fun z => beside x z && (channel z =? channel x)) stored)) in
        moved_to id (new_frame + (frame_start x - frame_final_start x)) stored
  | None => stored
  end.

(** Grouping: no strip is active on the timelines below, so the meta strip
    takes the highest channel of the strips it groups; it spans their
    visible ranges. *)
Definition make_meta (grouped : list Strip) : MetaMake :=
  match grouped with
  | [] => MetaNoop
  | g :: rest =>
      let ch := fold_right Z.max 1 (map channel grouped) in
      let fs := fold_right Z.min (frame_final_start g) (map frame_final_start rest) in
      let fe := fold_right Z.max (frame_final_end g) (map frame_final_end rest) in
      MetaOk ch fs (fe - fs) 0 0
  end.

(** [strips_all]: the strips of a level in order, each meta strip followed
    by what it contains. *)
Fixpoint nested (fuel : nat) (strips : list Strip) (p : option nat) : list Strip :=
  match fuel with
  | O => []
  | S fuel' =>
      flat_map (fun y => y :: nested fuel' strips (Some (sid y)))
               (filter (fun y => match parent y, p with
                                 | None, None => true
                                 | Some a, Some b => Nat.eqb a b
                                 | _, _ => false
                                 end) strips)
  end.

Definition top_first (strips : list Strip) : list Strip :=
  nested (S (length strips)) strips None.

Definition maps (m : string) (c : Command) : bool :=
  match job_map (mkJob c 0 None) with
  | Some x => String.eqb x m
  | None => false
  end.

Definition floats (s : string) : option Q :=
  if String.eqb s "24" then Some 24%Q
  else if String.eqb s "1" then Some 1%Q
  else if String.eqb s "60.0" then Some 60%Q
  else if String.eqb s "40.0" then Some 40%Q
  else None.

Definition probes (c : Command) (_ : Z) : RunOutcome :=
  match c with
  | [_; _; _; _; Lit "a"; _; _; _; _; _] => Completed 0 "{streams}" ""
  | [_; _; _; _; Lit "format=duration"; _; _; _] => Completed 0 "60.0" ""
  | _ => Completed 0 "24/1" ""
  end.

(** A 100 MiB source with the given streams; [failing] lists the
    [-map] targets whose extraction fails. *)
Definition env_with (streams : list StreamInfo) (failing : list string) : Env :=
  mkEnv (fun p => p) (fun _ => true) (fun _ => Some 104857600) (fun _ => true)
        (fun p => p) (fun _ => "/v") (fun d f => d ++ "/" ++ f)
        probes
        (fun _ => JsonObject (Some streams))
        floats
        (fun c => if existsb (fun m => maps m c) failing then bad_proc else good_proc)
        24 1
        (fun _ _ _ _ => NewSoundOk 960)
        None
        make_meta shuffle top_first.

(** The installation where the probe cannot be started. *)
Definition env_no_ffprobe : Env :=
  mkEnv (fun p => p) (fun _ => true) (fun _ => Some 104857600) (fun _ => true)
        (fun p => p) (fun _ => "/v") (fun d f => d ++ "/" ++ f)
        (fun _ _ => RunRaised "[Errno 2] No such file or directory: 'ffprobe'")
        (fun _ => JsonObject None)
        floats
        (fun _ => good_proc)
        24 1
        (fun _ _ _ _ => NewSoundOk 960)
        None
        make_meta shuffle top_first.

(** The selected clip: trim window [{offsetStart=48, offsetEnd=0,
    finalDuration=960}] on channel 1. *)
Definition clip : Strip := mkStrip 1 "clip" MOVIE true 1 10 1008 48 0 "/v/a.mkv" None.

(** Another clip, on channel 2, covering frames 900 to 1200. *)
Definition other : Strip := mkStrip 2 "other" MOVIE false 2 900 300 0 0 "/v/b.mkv" None.

Definition timeline : SeqEditor := mkSeq [clip; other] None.

Definition start : World := mkWorld (Some timeline) [].

(** The installation where the size of the source cannot be read. *)
Definition env_unreadable : Env :=
  mkEnv (fun p => p) (fun _ => true) (fun _ => None) (fun _ => true)
        (fun p => p) (fun _ => "/v") (fun d f => d ++ "/" ++ f)
        probes
        (fun _ => JsonObject (Some [idx0; idx1]))
        floats
        (fun _ => good_proc)
        24 1
        (fun _ _ _ _ => NewSoundOk 960)
        None
        make_meta shuffle top_first.

(** The timeline with both clips selected. *)
Definition both_selected : World :=
  mkWorld (Some (mkSeq [clip; with_select true other] None)) [].


(** The installation where the host creates no strip. *)
Definition env_no_strips : Env :=
  mkEnv (fun p => p) (fun _ => true) (fun _ => Some 104857600) (fun _ => true)
        (fun p => p) (fun _ => "/v") (fun d f => d ++ "/" ++ f)
        probes
        (fun _ => JsonObject (Some [idx0; idx1]))
        floats
        (fun _ => good_proc)
        24 1
        (fun _ _ _ _ => NewSoundNone)
        None
        make_meta shuffle top_first.

(** The installation where the grouping operator does nothing. *)
Definition env_grouping_noop : Env :=
  mkEnv (fun p => p) (fun _ => true) (fun _ => Some 104857600) (fun _ => true)
        (fun p => p) (fun _ => "/v") (fun d f => d ++ "/" ++ f)
        probes
        (fun _ => JsonObject (Some [idx0; idx1]))
        floats
        (fun _ => good_proc)
        24 1
        (fun _ _ _ _ => NewSoundOk 960)
        None
        (fun _ => MetaNoop) shuffle top_first.

(** A clip on channel 1 that ends where the trimmed-away head of the
    selected clip begins: frames 10 to 58. *)
Definition prev : Strip := mkStrip 3 "prev" MOVIE false 1 10 48 0 0 "/v/c.mkv" None.

(** The timeline with that neighbour. *)
Definition crowded : World := mkWorld (Some (mkSeq [clip; other; prev] None)) [].

(** A title on the topmost channel, covering frames 900 to 1200. *)
Definition title : Strip := mkStrip 2 "title" OTHER false 128 900 300 0 0 "" None.

(** The timeline whose topmost channel is in use. *)
Definition topped : World := mkWorld (Some (mkSeq [clip; title] None)) [].

(** A clip on channel 2 that ends before the temporary area: frames 100
    to 400. *)
Definition early : Strip := mkStrip 2 "early" MOVIE false 2 100 300 0 0 "/v/b.mkv" None.

(** The timeline whose temporary area is free. *)
Definition calm : World := mkWorld (Some (mkSeq [clip; early] None)) [].

(** The installation whose ffmpeg fails without leaving a message, the
    output file being there all the same. *)
Definition env_mute : Env :=
  mkEnv (fun p => p) (fun _ => true) (fun _ => Some 104857600) (fun _ => true)
        (fun p => p) (fun _ => "/v") (fun d f => d ++ "/" ++ f)
        probes
        (fun _ => JsonObject (Some [idx0; idx1]))
        floats
        (fun _ => mute_proc)
        24 1
        (fun _ _ _ _ => NewSoundOk 960)
        None
        make_meta shuffle top_first.


End Scenario.

(** * Properties *)

(** ** Python built-ins *)

Lemma max_list_ge_init (xs : list Z) (x : Z) : x <= Py.max_list x xs.
Proof.
  unfold Py.max_list. revert x.
  induction xs as [|y ys IH]; intros x; simpl; [lia|].
  specialize (IH (Z.max x y)). lia.
Qed.

Lemma max_list_ge (xs : list Z) (x y : Z) : In y xs -> y <= Py.max_list x xs.
Proof.
  unfold Py.max_list. revert x.
  induction xs as [|z zs IH]; intros x Hin; simpl in *; [contradiction|].
  destruct Hin as [->|Hin].
  - pose proof (max_list_ge_init zs (Z.max x y)) as H. unfold Py.max_list in H. lia.
  - now apply IH.
Qed.

Lemma max_list_in (xs : list Z) (x : Z) : In (Py.max_list x xs) (x :: xs).
Proof.
  unfold Py.max_list. revert x.
  induction xs as [|y ys IH]; intros x; simpl; [now left|].
  destruct (IH (Z.max x y)) as [H|H].
  - rewrite <- H. destruct (Z.max_spec x y) as [[_ ->]|[_ ->]]; auto.
  - right. now right.
Qed.

Lemma int_of_float_floor (x : Q) : (0 <= x)%Q -> Py.int_of_float x = Qfloor x.
Proof.
  destruct x as [n d]. unfold Qle, Py.int_of_float, Qfloor. simpl. intros H.
  apply Z.quot_div_nonneg; lia.
Qed.

Lemma int_of_float_mono (x y : Q) :
  (0 <= x)%Q -> (x <= y)%Q -> Py.int_of_float x <= Py.int_of_float y.
Proof.
  intros Hx Hxy.
  rewrite !int_of_float_floor by (try assumption; eapply Qle_trans; eassumption).
  now apply Qfloor_resp_le.
Qed.

(** ** Workspace allocation *)

(** C8. The workspace's starting channel is 1 on an empty timeline and one
    more than the maximum occupied channel otherwise; in both cases it is
    strictly above every channel a strip occupies. *)
Theorem start_channel_above_occupied (strips : list Strip) :
  (map channel strips = [] <-> strips = []) /\
  match map channel strips with
  | [] => extraction_start_channel (map channel strips) = 1
  | c :: cs =>
      extraction_start_channel (map channel strips) = 1 + Py.max_list c cs /\
      In (Py.max_list c cs) (map channel strips) /\
      Forall (fun s => channel s <= Py.max_list c cs) strips
  end /\
  Forall (fun s => channel s < extraction_start_channel (map channel strips)) strips.
Proof.
  split; [|split].
  - destruct strips; simpl; split; congruence.
  - destruct (map channel strips) as [|c cs] eqn:E; [reflexivity|].
    split; [unfold extraction_start_channel; lia|]. split; [apply max_list_in|].
    apply Forall_forall. intros s Hs.
    assert (Hin : In (channel s) (c :: cs)) by (rewrite <- E; now apply in_map).
    destruct Hin as [<-|Hin]; [apply max_list_ge_init | now apply max_list_ge].
  - apply Forall_forall. intros s Hs.
    destruct (map channel strips) as [|c cs] eqn:E.
    + destruct strips; [contradiction | discriminate].
    + assert (Hin : In (channel s) (c :: cs)) by (rewrite <- E; now apply in_map).
      unfold extraction_start_channel. destruct Hin as [<-|Hin].
      * pose proof (max_list_ge_init cs c). lia.
      * pose proof (max_list_ge cs c _ Hin). lia.
Qed.

(** ** Computations that only talk to tools *)

Lemma jobs_rev_app (l1 l2 : list Event) :
  jobs_rev (l1 ++ l2) = (jobs_rev l1 ++ jobs_rev l2)%list.
Proof.
  induction l1 as [|e l1 IH]; simpl; [reflexivity|].
  destruct e; simpl; now rewrite ?IH.
Qed.

Lemma logged_logged (l1 l2 : list Event) (w : World) :
  logged l1 (logged l2 w) = logged (l1 ++ l2) w.
Proof. unfold logged; simpl. now rewrite app_assoc. Qed.

Lemma logged_nil (w : World) : logged [] w = w.
Proof. now destruct w. Qed.

Lemma tool_only_intro {A} (m : M A) (r : Res A) (evs : list Event) :
  (forall w, m w = (r, logged evs w)) -> tool_only m /\ value_of m = r /\ events_of m = evs.
Proof.
  intros H. unfold tool_only, value_of, events_of.
  rewrite (H blank); simpl. rewrite app_nil_r. repeat split. exact H.
Qed.

Lemma quiet_intro {A} (m : M A) (r : Res A) (evs : list Event) :
  (forall w, m w = (r, logged evs w)) -> jobs_rev evs = [] -> quiet m.
Proof.
  intros H J. destruct (tool_only_intro m r evs H) as (T & _ & E).
  split; [exact T | now rewrite E].
Qed.

Lemma quiet_ret {A} (a : A) : quiet (ret a).
Proof. apply quiet_intro with (r := Val a) (evs := []); [|reflexivity].
  intros w. unfold ret. now rewrite logged_nil. Qed.

Lemma quiet_raise {A} (e : Py.Exn) : quiet (@raise A e).
Proof. apply quiet_intro with (r := Raised e) (evs := []); [|reflexivity].
  intros w. unfold raise. now rewrite logged_nil. Qed.

Lemma quiet_py_return {A} (st : Status) : quiet (@py_return A st).
Proof. apply quiet_intro with (r := Returned st) (evs := []); [|reflexivity].
  intros w. unfold py_return. now rewrite logged_nil. Qed.

Lemma quiet_report (lvl : Level) (m : Msg) : quiet (report lvl m).
Proof. now apply quiet_intro with (r := Val tt) (evs := [EvReport lvl m]). Qed.

Lemma quiet_progress_update (v : Q) : quiet (progress_update v).
Proof. now apply quiet_intro with (r := Val tt) (evs := [EvProgressUpdate v]). Qed.

Lemma tool_only_bind_eq {A B} (m : M A) (k : A -> M B) :
  tool_only m -> (forall a, tool_only (k a)) ->
  forall w,
    bind m k w =
    match value_of m with
    | Val a => (value_of (k a), logged (events_of (k a) ++ events_of m) w)
    | Returned st => (Returned st, logged (events_of m) w)
    | Raised e => (Raised e, logged (events_of m) w)
    end.
Proof.
  intros Hm Hk w. unfold bind. rewrite (Hm w).
  destruct (value_of m) as [a|st|e]; try reflexivity.
  rewrite (Hk a). now rewrite logged_logged.
Qed.

Lemma tool_only_bind {A B} (m : M A) (k : A -> M B) :
  tool_only m -> (forall a, tool_only (k a)) -> tool_only (bind m k).
Proof.
  intros Hm Hk.
  pose proof (tool_only_bind_eq m k Hm Hk) as E.
  destruct (value_of m) as [a|st|e]; exact (proj1 (tool_only_intro _ _ _ E)).
Qed.

Lemma quiet_bind {A B} (m : M A) (k : A -> M B) :
  quiet m -> (forall a, quiet (k a)) -> quiet (bind m k).
Proof.
  intros [Hm Jm] Hk.
  pose proof (tool_only_bind_eq m k Hm (fun a => proj1 (Hk a))) as E.
  destruct (value_of m) as [a|st|e]; eapply quiet_intro; try exact E; try assumption.
  rewrite jobs_rev_app, Jm, (proj2 (Hk a)). reflexivity.
Qed.

Lemma quiet_try_except {A} (m : M A) (h : Py.Exn -> M A) :
  quiet m -> (forall e, quiet (h e)) -> quiet (try_except m h).
Proof.
  intros [Hm Jm] Hh.
  assert (E : forall w,
             try_except m h w =
             match value_of m with
             | Raised e => (value_of (h e), logged (events_of (h e) ++ events_of m) w)
             | r => (r, logged (events_of m) w)
             end).
  { intros w. unfold try_except. rewrite (Hm w).
    destruct (value_of m) as [a|st|e]; try reflexivity.
    rewrite (proj1 (Hh e)). now rewrite logged_logged. }
  destruct (value_of m) as [a|st|e]; eapply quiet_intro; try exact E; try assumption.
  rewrite jobs_rev_app, Jm, (proj2 (Hh e)). reflexivity.
Qed.

Lemma quiet_when (b : bool) (m : M unit) : quiet m -> quiet (when b m).
Proof. destruct b; simpl; [trivial | intros _; apply quiet_ret]. Qed.

Lemma quiet_for_each {A St} (body : nat -> A -> St -> M St) (xs : list A) :
  (forall i x s, quiet (body i x s)) -> forall i s, quiet (for_each body i xs s).
Proof.
  intros Hb. induction xs as [|x xs IH]; intros i s; simpl.
  - apply quiet_ret.
  - apply quiet_bind; [apply Hb | intros s'; apply IH].
Qed.

Lemma quiet_run (env : Env) (cmd : Command) (timeout : Z) : quiet (run env cmd timeout).
Proof.
  now apply quiet_intro
    with (r := Val (subprocess_run env cmd timeout)) (evs := [EvRun cmd timeout]).
Qed.

(** Closes [quiet] goals by following the structure of the computation. *)
Ltac quiet_step :=
  match goal with
  | |- quiet (bind _ _) => apply quiet_bind; [|intros]
  | |- quiet (try_except _ _) => apply quiet_try_except; [|intros]
  | |- quiet (ret _) => apply quiet_ret
  | |- quiet (raise _) => apply quiet_raise
  | |- quiet (py_return _) => apply quiet_py_return
  | |- quiet (report _ _) => apply quiet_report
  | |- quiet (progress_update _) => apply quiet_progress_update
  | |- quiet (when _ _) => apply quiet_when
  | |- quiet (run _ _ _) => apply quiet_run
  | |- quiet (for_each _ _ _ _) => apply quiet_for_each; intros
  | |- quiet (match ?x with _ => _ end) => destruct x
  | |- quiet (if ?b then _ else _) => destruct b
  end.

Ltac quiet_tac := repeat quiet_step.

Lemma quiet_run_or_raise (env : Env) (cmd : Command) (timeout : Z) :
  quiet (run_or_raise env cmd timeout).
Proof. unfold run_or_raise. quiet_tac. Qed.

Lemma quiet_py_float (env : Env) (s : string) : quiet (py_float env s).
Proof. unfold py_float. quiet_tac. Qed.

Lemma quiet_py_truediv (x y : Q) : quiet (py_truediv x y).
Proof. unfold py_truediv. quiet_tac. Qed.

Lemma quiet_py_getsize (env : Env) (p : string) : quiet (py_getsize env p).
Proof. unfold py_getsize. quiet_tac. Qed.

Lemma quiet_parse_fps (env : Env) (s : string) : quiet (parse_fps env s).
Proof.
  unfold parse_fps.
  repeat first [ apply quiet_py_float | apply quiet_py_truediv | quiet_step ].
Qed.

Lemma quiet_get_audio_tracks (env : Env) (p : string) : quiet (get_audio_tracks env p).
Proof. unfold get_audio_tracks. quiet_tac. Qed.

Lemma quiet_log_track (env : Env) (i : nat) (s : StreamInfo) (u : unit) :
  quiet (log_track env i s u).
Proof. unfold log_track. quiet_tac. Qed.

Lemma quiet_analyze_source (env : Env) (source_file : string) :
  quiet (analyze_source env source_file).
Proof.
  unfold analyze_source.
  repeat first [ apply quiet_py_float | apply quiet_py_truediv | apply quiet_py_getsize
               | apply quiet_run_or_raise | apply quiet_parse_fps | quiet_step ].
Qed.

Lemma quiet_verify_extracted (env : Env) (p : string) (q : Q) :
  quiet (verify_extracted env p q).
Proof.
  unfold verify_extracted.
  repeat first [ apply quiet_py_float | apply quiet_run_or_raise | quiet_step ].
Qed.

Lemma quiet_track_progress (d : option Q) (t : Tick) (last : Q) :
  quiet (track_progress d t last).
Proof. unfold track_progress. quiet_tac. Qed.

Lemma quiet_monitor (timeout : Z) (d : option Q) (p : Proc) (ts : list Tick) :
  forall last, quiet (monitor timeout d p ts last).
Proof.
  induction ts as [|t ts IH]; intros last; simpl.
  - quiet_tac.
  - destruct (gt (elapsed t) (inject_Z timeout)); [quiet_tac|].
    apply quiet_bind; [apply quiet_track_progress | intros; apply IH].
Qed.

(** ** [run_ffmpeg_with_progress] *)

Lemma track_progress_value (d : option Q) (t : Tick) (last : Q) (w : World) :
  exists l w', track_progress d t last w = (Val l, w').
Proof.
  unfold track_progress.
  destruct (readline t) as [|line tm]; [now eexists; eexists|].
  destruct (Py.truthy line); [|now eexists; eexists].
  destruct tm as [[[h m] s]|]; [|now eexists; eexists].
  destruct d as [d|]; [|now eexists; eexists].
  destruct (Py.is_zero d); [now eexists; eexists|].
  match goal with |- context [if ?b then _ else _] => destruct b end;
    now eexists; eexists.
Qed.

Lemma monitor_result (timeout : Z) (d : option Q) (p : Proc) (ts : list Tick) :
  forall last w,
    fst (monitor timeout d p ts last w) =
    if existsb (late timeout) ts then
      match wait_raises p with
      | Some e => Raised e
      | None => Val (None, Some "Process timed out")
      end
    else
      match final p with
      | CommunicateRaised e => Raised e
      | Exited returncode stdout stderr =>
          if returncode =? 0 then Val (Some stdout, None) else Val (None, Some stderr)
      end.
Proof.
  induction ts as [|t ts IH]; intros last w; simpl.
  - destruct (final p) as [rc out err|e]; [|reflexivity].
    now destruct (rc =? 0).
  - unfold late at 1. destruct (gt (elapsed t) (inject_Z timeout)); simpl.
    + now destruct (wait_raises p).
    + unfold bind.
      destruct (track_progress_value d t last w) as (l & w' & ->).
      apply IH.
Qed.





(** ** The stream scan *)

Lemma truthy_false (s : string) : Py.truthy s = false <-> s = "".
Proof. destruct s; simpl; split; congruence. Qed.

Lemma truthy_true (s : string) : Py.truthy s = true <-> s <> "".
Proof. destruct s; simpl; split; congruence. Qed.

Lemma get_audio_tracks_eq (env : Env) (video_path : string) (w : World) :
  get_audio_tracks env video_path w =
  (Val (scan env video_path), logged [EvRun (ffprobe_scan_command video_path) 30] w).
Proof. reflexivity. Qed.

(** What the operator does up to and including the scan. *)
Lemma execute_until_scan (env : Env) (w : World) (ed : SeqEditor) (s : Strip) :
  sequence_editor w = Some ed ->
  find_selected (strips_all ed) None = SelOne s ->
  isfile env (source_path env s) = true ->
  execute env w =
  finally
    (try_except
       (match scan env (source_path env s) with
        | ScanError _ detail =>
            report ERROR (MsgScanFailed detail) ;; py_return CANCELLED
        | ScanStreams found_audio_streams =>
            match found_audio_streams with
            | [] => report INFO MsgNoAudioTracks ;; py_return FINISHED
            | [_] =>
                report INFO (MsgOnlyOneTrack (length found_audio_streams)) ;;
                py_return FINISHED
            | _ =>
                report INFO (MsgFoundTracks (length found_audio_streams)) ;;
                for_each (log_track env) 0 found_audio_streams tt
            end ;;
            progress_update 20 ;;
            report INFO MsgGettingDuration ;;
            '(file_size_mb, actual_video_fps) <- analyze_source env (source_path env s) ;;
            extract_additional env s (source_path env s) found_audio_streams
                               file_size_mb actual_video_fps ;;
            progress_update 100 ;;
            py_return FINISHED
        end)
       (fun e => report ERROR (MsgFailed e) ;; py_return CANCELLED))
    (emit EvProgressEnd)
    (logged [ EvRun (ffprobe_scan_command (source_path env s)) 30;
              EvReport INFO (MsgScanning (basename env (source_path env s)));
              EvProgressUpdate 10;
              EvProgressBegin 0 100 ] w).
Proof.
  intros Hed Hsel Hfile. unfold execute. rewrite Hed, Hsel, Hfile. reflexivity.
Qed.

Ltac scan_cases env o :=
  unfold scan, scan_result in *;
  destruct o as [rc out err| |e0]; simpl in *;
  [ destruct (rc =? 0) eqn:RC; simpl in *;
    [ apply Z.eqb_eq in RC; subst rc;
      destruct (Py.truthy (Py.strip out)) eqn:TR; simpl in *;
      [ apply truthy_true in TR;
        destruct (json_loads env out) as [e1|[streams0|]|e1] eqn:JL; simpl in *
      | apply truthy_false in TR ]
    | apply Z.eqb_neq in RC ]
  | | ].

(** C7 (amended). The scan runs the probe exactly once and never raises.
    It answers the probe's stream list, or exactly one failure: the tool
    failure (exit code and stripped stderr) when the probe exits non-zero,
    the empty output when it exits with 0 and prints only blanks, the
    decoding error when the output is not JSON, the timeout when the 30 s
    bound is hit, and, for every other exception (the probe cannot be
    started, the document cannot be read), the unexpected error with the
    exception's text.  The operator passes a failure's detail on unchanged,
    cancels, and neither probes again nor touches the sequencer. *)
Theorem scan_streams_or_typed_failure (env : Env) (video_path : string) (w : World) :
  let o := subprocess_run env (ffprobe_scan_command video_path) 30 in
  let r := scan env video_path in
  get_audio_tracks env video_path w =
    (Val r, logged [EvRun (ffprobe_scan_command video_path) 30] w) /\
  ((exists streams, r = ScanStreams streams) \/ named_scan_failure r \/
   exists detail, r = ScanError "ffprobe_unexpected_error" detail) /\
  (forall streams,
     r = ScanStreams streams <->
     exists out err, o = Completed 0 out err /\ Py.strip out <> "" /\
       (json_loads env out = JsonObject (Some streams) \/
        json_loads env out = JsonObject None /\ streams = [])) /\
  (forall detail,
     r = ScanError "ffprobe_failed" detail <->
     exists rc out err, o = Completed rc out err /\ rc <> 0 /\
       detail = "ffprobe failed (code " ++ Py.str_of_int rc ++ "): " ++ Py.strip err) /\
  (forall detail,
     r = ScanError "ffprobe_empty_output" detail <->
     exists out err, o = Completed 0 out err /\ Py.strip out = "" /\
       detail = "ffprobe returned no output. File may not contain audio tracks.") /\
  (forall detail,
     r = ScanError "json_decode_error" detail <->
     exists out err e, o = Completed 0 out err /\ Py.strip out <> "" /\
       json_loads env out = JSONDecodeError e /\
       detail = "Error parsing ffprobe output: " ++ e) /\
  (forall detail,
     r = ScanError "ffprobe_timeout" detail <->
     o = TimeoutExpired /\ detail = "ffprobe timed out after 30 seconds") /\
  (forall detail,
     r = ScanError "ffprobe_unexpected_error" detail <->
     exists e, detail = "Unexpected error running ffprobe: " ++ e /\
       (o = RunRaised e \/
        exists out err, o = Completed 0 out err /\ Py.strip out <> "" /\
          json_loads env out = JsonOtherError e)) /\
  (forall ed s kind detail,
     sequence_editor w = Some ed ->
     find_selected (strips_all ed) None = SelOne s ->
     isfile env (source_path env s) = true ->
     scan env (source_path env s) = ScanError kind detail ->
     execute env w =
     (Returned CANCELLED,
      logged [ EvProgressEnd;
               EvReport ERROR (MsgScanFailed detail);
               EvRun (ffprobe_scan_command (source_path env s)) 30;
               EvReport INFO (MsgScanning (basename env (source_path env s)));
               EvProgressUpdate 10;
               EvProgressBegin 0 100 ] w)).
Proof.
  intros o r. subst r.
  split; [apply get_audio_tracks_eq|].
  split.
  { unfold named_scan_failure. subst o.
    scan_cases env (subprocess_run env (ffprobe_scan_command video_path) 30);
      eauto 8. }
  assert (Ho : subprocess_run env (ffprobe_scan_command video_path) 30 = o) by reflexivity.
  clearbody o.
  repeat split; intros.
  1-12: unfold scan, scan_result in *; rewrite Ho in *.
  - scan_cases env o; try discriminate.
    + exists out, err. split; [reflexivity|]. split; [assumption|]. left. congruence.
    + exists out, err. split; [reflexivity|]. split; [assumption|]. right.
      split; congruence.
  - destruct H as (out & err & -> & TR & J). apply truthy_true in TR.
    simpl. rewrite TR. simpl. destruct J as [-> | [-> ->]]; reflexivity.
  - scan_cases env o; try discriminate.
    exists rc, out, err. repeat split; try assumption; try reflexivity; congruence.
  - destruct H as (rc & out & err & -> & RC & ->). apply Z.eqb_neq in RC.
    simpl. now rewrite RC.
  - scan_cases env o; try discriminate.
    exists out, err. repeat split; try assumption; try reflexivity; congruence.
  - destruct H as (out & err & -> & TR & ->). apply truthy_false in TR.
    simpl. now rewrite TR.
  - scan_cases env o; try discriminate.
    exists out, err, e1. repeat split; try assumption; try reflexivity; congruence.
  - destruct H as (out & err & e & -> & TR & J & ->). apply truthy_true in TR.
    simpl. now rewrite TR, J.
  - scan_cases env o; try discriminate. congruence.
  - scan_cases env o; try discriminate. congruence.
  - destruct H as [-> ->]. reflexivity.
  - scan_cases env o; try discriminate.
    + exists e1. split; [congruence|]. right. now exists out, err.
    + exists e0. split; [congruence|]. now left.
  - destruct H as (e & -> & [Hr | (out & err & Hr & TR & J)]).
    + unfold scan, scan_result. rewrite Ho, Hr. reflexivity.
    + unfold scan, scan_result. rewrite Ho, Hr. apply truthy_true in TR.
      simpl. now rewrite TR, J.
  - rewrite (execute_until_scan env w ed s) by assumption.
    rewrite H2. reflexivity.
Qed.

Lemma scan_streams_or_typed_failure_witness :
  status_of (execute Scenario.env_no_ffprobe Scenario.start) = Some CANCELLED /\
  sequence_editor (snd (execute Scenario.env_no_ffprobe Scenario.start)) =
    Some Scenario.timeline /\
  count_runs (log (snd (execute Scenario.env_no_ffprobe Scenario.start))) = 1%nat.
Proof.
  destruct (scan_streams_or_typed_failure Scenario.env_no_ffprobe "/v/a.mkv" Scenario.start)
    as (_ & _ & _ & _ & _ & _ & _ & _ & H).
  rewrite (H Scenario.timeline Scenario.clip "ffprobe_unexpected_error"
             "Unexpected error running ffprobe: [Errno 2] No such file or directory: 'ffprobe'"
             eq_refl eq_refl eq_refl eq_refl).
  repeat split.
Defined.

(** C7 as stated fails: when the probe cannot be started the scan answers
    neither a stream list nor one of the four named failures. *)
Lemma scan_failure_outside_named_kinds :
  fst (get_audio_tracks Scenario.env_no_ffprobe "/v/a.mkv" blank) =
    Val (ScanError "ffprobe_unexpected_error"
           "Unexpected error running ffprobe: [Errno 2] No such file or directory: 'ffprobe'") /\
  (forall streams, scan Scenario.env_no_ffprobe "/v/a.mkv" <> ScanStreams streams) /\
  ~ named_scan_failure (scan Scenario.env_no_ffprobe "/v/a.mkv").
Proof.
  split; [reflexivity|]. split.
  - intros streams. discriminate.
  - intros (detail & [H|[H|[H|H]]]); discriminate H.
Qed.

(** ** Nothing to extract *)

(** C5. When the scan reports no stream or a single one, the operator
    finishes with [FINISHED]; all it did is probe once and report: the
    sequencer is untouched, no ffmpeg job was started, no strip created. *)
Theorem few_streams_no_mutation (env : Env) (w : World) (ed : SeqEditor) (s : Strip)
    (streams : list StreamInfo) :
  sequence_editor w = Some ed ->
  find_selected (strips_all ed) None = SelOne s ->
  isfile env (source_path env s) = true ->
  scan env (source_path env s) = ScanStreams streams ->
  (length streams <= 1)%nat ->
  execute env w =
    (Returned FINISHED,
     logged [ EvProgressEnd;
              EvReport INFO (match streams with
                             | [] => MsgNoAudioTracks
                             | _ => MsgOnlyOneTrack (length streams)
                             end);
              EvRun (ffprobe_scan_command (source_path env s)) 30;
              EvReport INFO (MsgScanning (basename env (source_path env s)));
              EvProgressUpdate 10;
              EvProgressBegin 0 100 ] w) /\
  sequence_editor (snd (execute env w)) = sequence_editor w /\
  jobs (snd (execute env w)) = jobs w.
Proof.
  intros Hed Hsel Hfile Hscan Hlen.
  rewrite (execute_until_scan env w ed s) by assumption.
  rewrite Hscan.
  destruct streams as [|a [|b rest]]; simpl in Hlen; try lia;
    (split; [reflexivity | split; reflexivity]).
Qed.

Lemma few_streams_no_mutation_witness :
  status_of (execute (Scenario.env_with [Scenario.idx0] []) Scenario.start) = Some FINISHED /\
  sequence_editor (snd (execute (Scenario.env_with [Scenario.idx0] []) Scenario.start)) =
    Some Scenario.timeline /\
  jobs (snd (execute (Scenario.env_with [Scenario.idx0] []) Scenario.start)) = [].
Proof.
  destruct (few_streams_no_mutation (Scenario.env_with [Scenario.idx0] []) Scenario.start
              Scenario.timeline Scenario.clip [Scenario.idx0]
              eq_refl eq_refl eq_refl eq_refl (le_n 1)) as (E & Hs & Hj).
  split; [now rewrite E|]. split; [exact Hs | exact Hj].
Defined.

(** ** Phases 3 to 6 *)

Lemma tool_only_run_ffmpeg env cmd t d : tool_only (run_ffmpeg_with_progress env cmd t d).
Proof.
  unfold run_ffmpeg_with_progress.
  apply tool_only_bind.
  - apply (proj1 (tool_only_intro _ (Val tt) [EvPopen cmd t d] (fun w => eq_refl))).
  - intros _. apply quiet_try_except.
    + destruct (popen_raises (popen env cmd)); [apply quiet_raise | apply quiet_monitor].
    + intros; apply quiet_ret.
Qed.

Lemma run_ffmpeg_value env cmd t d :
  exists a b, value_of (run_ffmpeg_with_progress env cmd t d) = Val (a, b).
Proof.
  unfold value_of, run_ffmpeg_with_progress, bind, emit, try_except.
  destruct (popen_raises (popen env cmd)) as [e|]; simpl; [now eexists; eexists|].
  match goal with |- context [monitor ?a ?b ?c ?d ?e ?w] =>
    pose proof (monitor_result a b c d e w) as H;
    destruct (monitor a b c d e w) as [r w2] end.
  simpl in H. subst r.
  destruct (existsb _ _).
  - destruct (wait_raises _); simpl; now eexists; eexists.
  - destruct (final _) as [rc out err|e]; [destruct (rc =? 0)|]; simpl;
      now eexists; eexists.
Qed.

Lemma jobs_run_ffmpeg env cmd t d :
  jobs_rev (events_of (run_ffmpeg_with_progress env cmd t d)) = [mkJob cmd t d].
Proof.
  unfold events_of, run_ffmpeg_with_progress, bind. simpl.
  assert (Q : quiet (try_except
             (match popen_raises (popen env cmd) with
              | Some e => raise e
              | None => monitor t d (popen env cmd) (ticks (popen env cmd)) 0
              end) (fun e => ret (None, Some e)))).
  { apply quiet_try_except.
    - destruct (popen_raises (popen env cmd)); [apply quiet_raise | apply quiet_monitor].
    - intros; apply quiet_ret. }
  destruct Q as [T J]. rewrite T.
  destruct (value_of _); simpl; rewrite jobs_rev_app, J; reflexivity.
Qed.

Lemma bind_tool_only {A B} (m : M A) (k : A -> M B) (w : World) :
  tool_only m ->
  bind m k w =
  match value_of m with
  | Val a => k a (logged (events_of m) w)
  | Returned st => (Returned st, logged (events_of m) w)
  | Raised e => (Raised e, logged (events_of m) w)
  end.
Proof. intros T. unfold bind. rewrite (T w). now destruct (value_of m). Qed.

Lemma truediv_nonzero x y : Py.is_zero y = false -> Py.truediv x y = Some (x / y)%Q.
Proof. unfold Py.truediv. now intros ->. Qed.

Lemma truediv_zero x y : Py.is_zero y = true -> Py.truediv x y = None.
Proof. unfold Py.truediv. now intros ->. Qed.

Lemma verify_extracted_value env p q : value_of (verify_extracted env p q) = Val tt.
Proof.
  unfold value_of, verify_extracted, try_except, bind, run_or_raise, run, bind, emit, ret,
    raise, report, emit, py_float.
  simpl.
  destruct (subprocess_run env (verify_command p) 10) as [rc out err| |e]; simpl;
    try reflexivity.
  destruct ((rc =? 0) && Py.truthy (Py.strip out)); simpl; try reflexivity.
  destruct (float_of_str env (Py.strip out)); reflexivity.
Qed.

Ltac incl_log :=
  simpl;
  repeat first [ apply incl_refl | apply incl_tl | apply incl_appr ].

Lemma extract_track_spec env src snap fps timeout n i stream st strips act l :
  let r := extract_track env src snap fps timeout n i stream st
             (mkWorld (Some (mkSeq strips act)) l) in
  let acc := track_step env src snap fps timeout stream (strips, st) in
  fst r = Val (snd acc) /\
  sequence_editor (snd r) = Some (mkSeq (fst acc) act) /\
  jobs_rev (log (snd r)) =
    ((if Py.is_zero fps then [] else [job_of env src snap fps timeout stream])
       ++ jobs_rev l)%list /\
  incl l (log (snd r)) /\
  (Py.is_zero fps = false ->
   extraction_ok env src snap fps timeout stream = false ->
   exists m, In (EvReport WARNING m) (log (snd r)) /\ skip_warning env src snap stream m).
Proof.
  intros r acc.
  assert (E : r = extract_track env src snap fps timeout n i stream st
                    (mkWorld (Some (mkSeq strips act)) l)) by reflexivity.
  clearbody r. subst acc.
  unfold skip_warning, track_step, created_duration, extraction_ok, ffmpeg_result, job_of.
  cbn [job_command job_timeout job_duration].
  unfold extract_track in E.
  fold (temp_path_of env src snap stream) in E.
  set (path := temp_path_of env src snap stream) in *.
  unfold bind at 1 in E. unfold progress_update at 1 in E. unfold emit at 1 in E.
  unfold bind at 1 in E. unfold report at 1 in E. unfold emit at 1 in E.
  cbn [sequence_editor log] in E.
  unfold try_except in E.
  unfold py_truediv in E.
  destruct (Py.is_zero fps) eqn:Z0.
  - rewrite !truediv_zero in E by assumption. simpl in E. subst r. simpl.
    repeat split; try reflexivity; [incl_log | discriminate].
  - rewrite !truediv_nonzero in E by assumption.
    unfold bind at 1 in E. unfold ret at 1 in E.
    unfold bind at 1 in E. unfold ret at 1 in E.
    unfold bind at 1 in E. unfold report at 1 in E. unfold emit at 1 in E.
    unfold bind at 1 in E. unfold report at 1 in E. unfold emit at 1 in E.
    unfold bind at 1 in E. unfold report at 1 in E. unfold emit at 1 in E.
    cbn [sequence_editor log] in E. cbn [negb andb].
    rewrite bind_tool_only in E by apply tool_only_run_ffmpeg.
    pose proof (jobs_run_ffmpeg env
                (ffmpeg_command (inject_Z (original_frame_offset_start snap) / fps) src
                   (stream_index_of stream) path) timeout
                (Some (inject_Z (original_frame_final_duration snap) / fps)%Q)) as JF.
    destruct (run_ffmpeg_value env
                (ffmpeg_command (inject_Z (original_frame_offset_start snap) / fps) src
                   (stream_index_of stream) path) timeout
                (Some (inject_Z (original_frame_final_duration snap) / fps)%Q))
      as (a & b & V).
    rewrite V in *. unfold logged in E. cbn [sequence_editor log] in E.
    destruct (truthy_opt b) eqn:TB; cbn [negb andb].
    { simpl in E. subst r. simpl. rewrite jobs_rev_app, JF.
      repeat split; try reflexivity; [incl_log|].
      intros _ _. eexists. split; [left; reflexivity|]. left. eexists; reflexivity. }
    destruct (path_exists env path) eqn:PE.
    2:{ simpl in E. subst r. simpl. rewrite jobs_rev_app, JF.
        repeat split; try reflexivity; [incl_log|].
        intros _ _. eexists. split; [left; reflexivity|]. now right. }
    unfold bind at 1 in E. unfold py_getsize at 1 in E.
    destruct (getsize env path) as [bytes|] eqn:GS.
    2:{ simpl in E. subst r. simpl. rewrite jobs_rev_app, JF.
        repeat split; try reflexivity; [incl_log | discriminate]. }
    unfold ret at 1 in E.
    unfold bind at 1 in E. unfold report at 1 in E. unfold emit at 1 in E.
    cbn [sequence_editor log] in E.
    rewrite bind_tool_only in E by apply quiet_verify_extracted.
    rewrite verify_extracted_value in E.
    pose proof (proj2 (quiet_verify_extracted env path
                  (inject_Z (original_frame_final_duration snap) / fps)%Q)) as JV.
    unfold logged in E. cbn [sequence_editor log] in E.
    set (evs1 := (events_of (verify_extracted env path _) ++ _)%list) in E.
    assert (J1 : jobs_rev evs1 =
                 mkJob (ffmpeg_command (inject_Z (original_frame_offset_start snap) / fps)
                          src (stream_index_of stream) path) timeout
                       (Some (inject_Z (original_frame_final_duration snap) / fps)%Q)
                 :: jobs_rev l).
    { subst evs1. rewrite jobs_rev_app, JV. simpl. rewrite jobs_rev_app, JF. reflexivity. }
    assert (I1 : incl l evs1) by (subst evs1; incl_log).
    clearbody evs1.
    assert (exists evs2, jobs_rev evs2 = jobs_rev evs1 /\ incl evs1 evs2 /\
              r = (let (r0, w') :=
                     (audio_strip0 <-
                        strips_new_sound env ("Audio_" ++ stream_title_of stream) path
                          (next_channel st) temp_extraction_start;;
                      match audio_strip0 with
                      | Some a0 =>
                          report INFO
                            (MsgCreated ("Audio_" ++ stream_title_of stream)
                               (frame_start a0) (frame_final_start a0)
                               (frame_final_end a0) (frame_final_duration a0));;
                          report INFO
                            (MsgAdded ("Audio_" ++ stream_title_of stream)
                               (channel a0) (frame_final_duration a0));;
                          ret (mkLoop (created_audio_strips st ++ [sid a0])%list
                                      (next_channel st + 1))
                      | None =>
                          report WARNING
                            (MsgCreateFailed ("Audio_" ++ stream_title_of stream));;
                          ret st
                      end) (mkWorld (Some (mkSeq strips act)) evs2) in
                   match r0 with
                   | Val a0 => (Val a0, w')
                   | Returned st0 => (Returned st0, w')
                   | Raised e =>
                       (report WARNING (MsgImportFailed (stream_index_of stream) e);;
                        ret st) w'
                   end)) as (evs2 & J2 & I2 & E2).
    { destruct (gt 10 (inject_Z bytes / 1024)) eqn:G; simpl in E.
      - eexists. split; [|split; [|exact E]]; [reflexivity | incl_log].
      - eexists. split; [|split; [|exact E]]; [reflexivity | incl_log]. }
    clear E. rewrite J1 in J2.
    assert (I3 : incl l evs2) by (eapply incl_tran; eassumption).
    clear I1 I2 J1 evs1.
    unfold strips_new_sound in E2.
    unfold bind at 1 in E2. unfold emit at 1 in E2. cbn [sequence_editor log] in E2.
    destruct (new_sound env ("Audio_" ++ stream_title_of stream) path (next_channel st)
                temp_extraction_start) as [d| |e] eqn:NS.
    + simpl in E2. subst r. simpl. rewrite J2.
      repeat split; try reflexivity; [incl_log; exact I3 | discriminate].
    + simpl in E2. subst r. simpl. rewrite J2.
      repeat split; try reflexivity; [incl_log; exact I3 | discriminate].
    + simpl in E2. subst r. simpl. rewrite J2.
      repeat split; try reflexivity; [incl_log; exact I3 | discriminate].
Qed.

Lemma steady_ret {A} (a : A) : steady (ret a).
Proof. intros w; simpl. split; [reflexivity | apply incl_refl]. Qed.

Lemma steady_raise {A} (e : Py.Exn) : steady (@raise A e).
Proof. intros w; simpl. split; [reflexivity | apply incl_refl]. Qed.

Lemma steady_py_return {A} (st : Status) : steady (@py_return A st).
Proof. intros w; simpl. split; [reflexivity | apply incl_refl]. Qed.

Lemma steady_bind {A B} (m : M A) (k : A -> M B) :
  steady m -> (forall a, steady (k a)) -> steady (bind m k).
Proof.
  intros Hm Hk w. unfold bind. specialize (Hm w).
  destruct (m w) as [[a|st|e] w1]; simpl in *; try assumption.
  destruct Hm as [Jm Im]. destruct (Hk a w1) as [J I].
  split; [congruence | eapply incl_tran; [exact Im | exact I]].
Qed.

Lemma steady_try_except {A} (m : M A) (h : Py.Exn -> M A) :
  steady m -> (forall e, steady (h e)) -> steady (try_except m h).
Proof.
  intros Hm Hh w. unfold try_except. specialize (Hm w).
  destruct (m w) as [[a|st|e] w1]; simpl in *; try assumption.
  destruct Hm as [Jm Im]. destruct (Hh e w1) as [J I].
  split; [congruence | eapply incl_tran; [exact Im | exact I]].
Qed.

Lemma steady_for_each {A St} (body : nat -> A -> St -> M St) (xs : list A) :
  (forall i x s, steady (body i x s)) -> forall i s, steady (for_each body i xs s).
Proof.
  intros Hb. induction xs as [|x xs IH]; intros i s; simpl.
  - apply steady_ret.
  - apply steady_bind; [apply Hb | intros s'; apply IH].
Qed.

Lemma steady_quiet {A} (m : M A) : quiet m -> steady m.
Proof.
  intros [T J] w. rewrite (T w). simpl. rewrite jobs_rev_app, J.
  split; [reflexivity | apply incl_appr, incl_refl].
Qed.

Lemma steady_set_strips (f : list Strip -> list Strip) : steady (set_strips f).
Proof.
  intros w. unfold set_strips. destruct (sequence_editor w); simpl;
    (split; [reflexivity | apply incl_refl]).
Qed.

Lemma steady_get_strips : steady get_strips.
Proof.
  intros w. unfold get_strips. destruct (sequence_editor w); simpl;
    (split; [reflexivity | apply incl_refl]).
Qed.

Lemma steady_get_active : steady get_active.
Proof.
  intros w. unfold get_active. destruct (sequence_editor w); simpl;
    (split; [reflexivity | apply incl_refl]).
Qed.

Lemma steady_emit (e : Event) :
  match e with EvPopen _ _ _ => False | _ => True end -> steady (emit e).
Proof.
  intros He w. simpl. split; [| apply incl_tl, incl_refl].
  destruct e; simpl; try reflexivity. contradiction.
Qed.

Ltac steady_step :=
  match goal with
  | |- steady (bind _ _) => apply steady_bind; [|intros]
  | |- steady (try_except _ _) => apply steady_try_except; [|intros]
  | |- steady (ret _) => apply steady_ret
  | |- steady (raise _) => apply steady_raise
  | |- steady (py_return _) => apply steady_py_return
  | |- steady (report _ _) => apply steady_quiet, quiet_report
  | |- steady (emit _) => apply steady_emit; exact I
  | |- steady (assign _ _) => apply steady_set_strips
  | |- steady (set_frame_start _ _ _) => apply steady_set_strips
  | |- steady (set_channel _ _ _) => apply steady_set_strips
  | |- steady (set_frame_offset_start _ _ _) => apply steady_set_strips
  | |- steady (set_frame_offset_end _ _ _) => apply steady_set_strips
  | |- steady (set_strips _) => apply steady_set_strips
  | |- steady get_strips => apply steady_get_strips
  | |- steady get_active => apply steady_get_active
  | |- steady (for_each _ _ _ _) => apply steady_for_each; intros
  | |- steady (match ?x with _ => _ end) => destruct x
  | |- steady (if ?b then _ else _) => destruct b
  end.

Lemma steady_ops_meta_make (env : Env) : steady (ops_meta_make env).
Proof.
  unfold ops_meta_make. repeat steady_step.
  intros w. simpl. split; [reflexivity | apply incl_refl].
Qed.

Lemma steady_group_and_restore env sel snap start created found :
  steady (group_and_restore env sel snap start created found).
Proof.
  unfold group_and_restore, move_to_temporary_area, restore_original,
    ops_select_all_deselect.
  repeat first [ apply steady_ops_meta_make | steady_step ].
Qed.

Lemma extract_loop_spec env src snap fps timeout n act :
  forall streams i st strips l,
    let r := for_each (extract_track env src snap fps timeout n) i streams st
               (mkWorld (Some (mkSeq strips act)) l) in
    let acc := track_loop env src snap fps timeout streams (strips, st) in
    fst r = Val (snd acc) /\
    sequence_editor (snd r) = Some (mkSeq (fst acc) act) /\
    jobs_rev (log (snd r)) =
      ((if Py.is_zero fps then []
        else rev (map (job_of env src snap fps timeout) streams)) ++ jobs_rev l)%list /\
    incl l (log (snd r)) /\
    (Py.is_zero fps = false ->
     forall s, In s streams -> extraction_ok env src snap fps timeout s = false ->
     exists m, In (EvReport WARNING m) (log (snd r)) /\ skip_warning env src snap s m).
Proof.
  induction streams as [|x rest IH]; intros i st strips l; simpl.
  - repeat split; try apply incl_refl.
    + now destruct (Py.is_zero fps).
    + intros _ s [].
  - unfold bind.
    pose proof (extract_track_spec env src snap fps timeout n i x st strips act l) as H.
    simpl in H.
    destruct (extract_track env src snap fps timeout n i x st
                (mkWorld (Some (mkSeq strips act)) l)) as [r1 [ed1 l1]].
    simpl in H. destruct H as (-> & -> & J1 & I1 & W1).
    specialize (IH (S i) (snd (track_step env src snap fps timeout x (strips, st)))
                  (fst (track_step env src snap fps timeout x (strips, st))) l1).
    simpl in IH. unfold track_loop in *. simpl.
    rewrite <- surjective_pairing in IH.
    destruct IH as (V & S2 & J2 & I2 & W2).
    split; [exact V|]. split; [exact S2|]. split; [|split].
    + rewrite J2, J1. destruct (Py.is_zero fps); simpl; [reflexivity|].
      now rewrite <- app_assoc.
    + eapply incl_tran; eassumption.
    + intros Z0 s [<-|Hs] Hok.
      * destruct (W1 Z0 Hok) as (m & Hm & Hw). exists m. split; [now apply I2 | exact Hw].
      * now apply W2.
Qed.

Lemma extract_additional_spec env s src found mb fps strips act l :
  (1 < length found)%nat ->
  let snap := snapshot s in
  let start := extraction_start_channel (map channel strips) in
  let timeout := audio_timeout mb in
  let acc := track_loop env src snap fps timeout (tl found) (strips, mkLoop [] start) in
  exists l2,
    jobs_rev l2 =
      ((if Py.is_zero fps then []
        else rev (map (job_of env src snap fps timeout) (tl found))) ++ jobs_rev l)%list /\
    incl l l2 /\
    (Py.is_zero fps = false ->
     forall x, In x (tl found) -> extraction_ok env src snap fps timeout x = false ->
     exists m, In (EvReport WARNING m) l2 /\ skip_warning env src snap x m) /\
    extract_additional env s src found mb fps (mkWorld (Some (mkSeq strips act)) l) =
    match created_audio_strips (snd acc) with
    | [] =>
        (Val tt,
         mkWorld (Some (mkSeq (fst acc) act)) (EvReport WARNING MsgNoneExtracted :: l2))
    | _ :: _ =>
        group_and_restore env (sid s) snap start (created_audio_strips (snd acc))
          (length found) (mkWorld (Some (mkSeq (fst acc) act)) l2)
    end.
Proof.
  intros Hlen snap start timeout acc.
  unfold extract_additional. apply Nat.ltb_lt in Hlen. rewrite Hlen.
  fold snap. fold timeout.
  unfold bind at 1. unfold progress_update at 1. unfold emit at 1.
  unfold bind at 1. unfold report at 1. unfold emit at 1.
  unfold bind at 1. unfold report at 1. unfold emit at 1.
  unfold bind at 1. unfold report at 1. unfold emit at 1.
  unfold bind at 1. unfold get_strips at 1.
  cbn [sequence_editor log strips_all]. fold start.
  set (l0 := (_ :: _ :: _ :: _ :: l)).
  assert (exists l1, jobs_rev l1 = jobs_rev l /\ incl l l1 /\
            (match map channel strips with
             | c :: cs => report INFO (MsgChannelsOccupied (Py.max_list c cs) start)
             | [] => report INFO (MsgNoChannels start)
             end) (mkWorld (Some (mkSeq strips act)) l0) =
            (Val tt, mkWorld (Some (mkSeq strips act)) l1)) as (l1 & J1 & I1 & E1).
  { subst l0. destruct (map channel strips); eexists;
      (split; [|split; [|reflexivity]]); [reflexivity|incl_log|reflexivity|incl_log]. }
  unfold bind at 1. rewrite E1. clearbody l0. clear E1 l0.
  unfold bind at 1.
  pose proof (extract_loop_spec env src snap fps timeout (length (tl found)) act
                (tl found) 0%nat (mkLoop [] start) strips l1) as H.
  simpl in H. fold acc in H.
  destruct (for_each (extract_track env src snap fps timeout (length (tl found))) 0
              (tl found) (mkLoop [] start) (mkWorld (Some (mkSeq strips act)) l1))
    as [r2 [ed2 l2]].
  simpl in H. destruct H as (-> & -> & J2 & I2 & W2).
  unfold bind at 1. unfold progress_update at 1. unfold emit at 1.
  cbn [sequence_editor log].
  exists (EvProgressUpdate 90 :: l2).
  split; [simpl; now rewrite J2, J1|].
  split; [apply incl_tl; eapply incl_tran; eassumption|].
  split.
  { intros Z0 x Hx Hok. destruct (W2 Z0 x Hx Hok) as (m & Hm & Hw).
    exists m. split; [now right | exact Hw]. }
  destruct (created_audio_strips (snd acc)); reflexivity.
Qed.

Lemma log_track_value env i s u w : fst (log_track env i s u w) = Val tt.
Proof.
  unfold log_track, bind, report, emit. simpl.
  destruct (Py.truthy (or_unknown (s_duration s)) &&
            negb (String.eqb (or_unknown (s_duration s)) "unknown")); [|reflexivity].
  destruct (float_of_str env (or_unknown (s_duration s))) as [d|]; [|reflexivity].
  now destruct (gt 1 d).
Qed.

Lemma log_tracks_value env streams : forall i w,
  fst (for_each (log_track env) i streams tt w) = Val tt.
Proof.
  induction streams as [|x rest IH]; intros i w; simpl; [reflexivity|].
  unfold bind. pose proof (log_track_value env i x tt w) as H.
  destruct (log_track env i x tt w) as [r w1]. simpl in H. subst r.
  apply IH.
Qed.

Lemma execute_shape env w ed s :
  sequence_editor w = Some ed ->
  find_selected (strips_all ed) None = SelOne s ->
  (jobs_rev (log (snd (execute env w))) = jobs_rev (log w) /\
   incl (log w) (log (snd (execute env w))) /\
   sequence_editor (snd (execute env w)) = sequence_editor w /\
   (isfile env (source_path env s) = true ->
    forall found, scan env (source_path env s) = ScanStreams found ->
    (1 < length found)%nat ->
    forall x, value_of (analyze_source env (source_path env s)) <> Val x)) \/
  (exists found mb fps l1,
     isfile env (source_path env s) = true /\
     scan env (source_path env s) = ScanStreams found /\
     (1 < length found)%nat /\
     value_of (analyze_source env (source_path env s)) = Val (mb, fps) /\
     jobs_rev l1 = jobs_rev (log w) /\ incl (log w) l1 /\
     execute env w =
     conclude (extract_additional env s (source_path env s) found mb fps
                 (mkWorld (Some ed) l1))).
Proof.
  intros Hed Hsel.
  remember (execute env w) as X eqn:EX.
  destruct (isfile env (source_path env s)) eqn:Hfile.
  2:{ left. unfold execute in EX. rewrite Hed, Hsel, Hfile in EX. simpl in EX. subst X.
      simpl. repeat split; first [reflexivity | assumption | solve [incl_log] | (intros; discriminate)]. }
  rewrite (execute_until_scan env w ed s) in EX by assumption.
  set (src := source_path env s) in *.
  destruct (scan env src) as [found|kind detail] eqn:Hscan.
  2:{ left. simpl in EX. subst X. simpl. rewrite Hed.
      repeat split; first [reflexivity | assumption | now symmetry | solve [incl_log] | (intros; discriminate)]. }
  destruct found as [|a [|b rest]].
  1,2: left; simpl in EX; subst X; simpl; rewrite Hed;
       repeat split; first [reflexivity | assumption | solve [incl_log] | (intros _ f [= <-]; simpl; lia)].
  unfold finally, try_except in EX. cbv beta iota in EX.
  set (P1 := (report INFO (MsgFoundTracks (length (a :: b :: rest))) ;;
              for_each (log_track env) 0 (a :: b :: rest) tt)) in EX.
  assert (QP1 : quiet P1).
  { subst P1. apply quiet_bind; [apply quiet_report|].
    intros; apply quiet_for_each; intros; apply quiet_log_track. }
  assert (V1 : value_of P1 = Val tt).
  { unfold value_of, P1. unfold bind at 1. unfold report, emit.
    cbv beta iota zeta. apply (log_tracks_value env (a :: b :: rest) 0%nat). }
  destruct QP1 as [T1 Q1].
  rewrite (bind_tool_only P1) in EX by exact T1.
  rewrite V1 in EX. clearbody P1. cbv beta iota in EX.
  unfold bind at 1 in EX. unfold progress_update at 1 in EX. unfold emit at 1 in EX.
  unfold bind at 1 in EX. unfold report at 1 in EX. unfold emit at 1 in EX.
  cbv beta iota in EX.
  rewrite bind_tool_only in EX by apply quiet_analyze_source.
  pose proof (proj2 (quiet_analyze_source env src)) as QA.
  unfold logged in EX. cbn [sequence_editor log] in EX. rewrite Hed in EX.
  destruct (value_of (analyze_source env src)) as [[mb fps]|st|e] eqn:VA.
  - right. exists (a :: b :: rest), mb, fps.
    match type of EX with
    | context [mkWorld (Some ed) ?l] => exists l
    end.
    split; [reflexivity|]. split; [reflexivity|]. split; [simpl; lia|].
    split; [reflexivity|].
    split; [|split].
    + rewrite jobs_rev_app, QA. simpl. rewrite jobs_rev_app, Q1. reflexivity.
    + incl_log.
    + subst X. unfold conclude, bind.
      match goal with
      | |- context [extract_additional ?x1 ?x2 ?x3 ?x4 ?x5 ?x6 ?x7] =>
          destruct (extract_additional x1 x2 x3 x4 x5 x6 x7) as [[u|st|e] w2]
      end; reflexivity.
  - left. simpl in EX. subst X. simpl.
    rewrite !jobs_rev_app, QA. simpl. rewrite jobs_rev_app, Q1. simpl.
    repeat split; first [reflexivity | assumption | now symmetry | solve [incl_log] | (intros; discriminate)].
  - left. simpl in EX. subst X. simpl.
    rewrite !jobs_rev_app, QA. simpl. rewrite jobs_rev_app, Q1. simpl.
    repeat split; first [reflexivity | assumption | now symmetry | solve [incl_log] | (intros; discriminate)].
Qed.

(** ** The run as a whole *)

Lemma execute_extracting env w strips act s found mb fps :
  sequence_editor w = Some (mkSeq strips act) ->
  find_selected strips None = SelOne s ->
  isfile env (source_path env s) = true ->
  scan env (source_path env s) = ScanStreams found ->
  (1 < length found)%nat ->
  value_of (analyze_source env (source_path env s)) = Val (mb, fps) ->
  let src := source_path env s in
  let snap := snapshot s in
  let start := extraction_start_channel (map channel strips) in
  let timeout := audio_timeout mb in
  let acc := track_loop env src snap fps timeout (tl found) (strips, mkLoop [] start) in
  exists l2,
    jobs_rev l2 =
      ((if Py.is_zero fps then []
        else rev (map (job_of env src snap fps timeout) (tl found)))
         ++ jobs_rev (log w))%list /\
    incl (log w) l2 /\
    (Py.is_zero fps = false ->
     forall x, In x (tl found) -> extraction_ok env src snap fps timeout x = false ->
     exists m, In (EvReport WARNING m) l2 /\ skip_warning env src snap x m) /\
    execute env w =
    conclude
      match created_audio_strips (snd acc) with
      | [] =>
          (Val tt,
           mkWorld (Some (mkSeq (fst acc) act)) (EvReport WARNING MsgNoneExtracted :: l2))
      | _ :: _ =>
          group_and_restore env (sid s) snap start (created_audio_strips (snd acc))
            (length found) (mkWorld (Some (mkSeq (fst acc) act)) l2)
      end.
Proof.
  intros Hed Hsel Hfile Hscan Hlen Hval src snap start timeout acc.
  destruct (execute_shape env w (mkSeq strips act) s Hed Hsel)
    as [(_ & _ & _ & H)|(found' & mb' & fps' & l1 & _ & Hscan' & _ & Hval' & J1 & I1 & E)].
  { exfalso. exact (H Hfile found Hscan Hlen (mb, fps) Hval). }
  fold src in Hscan, Hval, Hscan', Hval', E.
  rewrite Hscan in Hscan'. injection Hscan' as <-.
  rewrite Hval in Hval'. injection Hval' as <- <-.
  destruct (extract_additional_spec env s src found mb fps strips act l1 Hlen)
    as (l2 & J2 & I2 & W2 & E2).
  exists l2. split; [now rewrite J2, J1|]. split; [eapply incl_tran; eassumption|].
  split; [exact W2|]. rewrite E, E2. reflexivity.
Qed.

Lemma conclude_log (r : Res unit * World) :
  jobs_rev (log (snd (conclude r))) = jobs_rev (log (snd r)) /\
  incl (log (snd r)) (log (snd (conclude r))) /\
  sequence_editor (snd (conclude r)) = sequence_editor (snd r).
Proof.
  destruct r as [[u|st|e] w]; simpl; repeat split; incl_log.
Qed.

(** The jobs a run starts: none, or one per additional stream, in order. *)
Lemma execute_jobs env w ed s :
  sequence_editor w = Some ed ->
  find_selected (strips_all ed) None = SelOne s ->
  jobs (snd (execute env w)) = jobs w \/
  exists found mb fps,
    scan env (source_path env s) = ScanStreams found /\
    value_of (analyze_source env (source_path env s)) = Val (mb, fps) /\
    jobs (snd (execute env w)) =
    (jobs w ++ map (job_of env (source_path env s) (snapshot s) fps (audio_timeout mb))
                   (tl found))%list.
Proof.
  intros Hed Hsel.
  destruct (execute_shape env w ed s Hed Hsel)
    as [(J & _)|(found & mb & fps & l1 & Hfile & Hscan & Hlen & Hval & _)].
  { left. unfold jobs. now rewrite J. }
  destruct ed as [strips act].
  destruct (execute_extracting env w strips act s found mb fps Hed Hsel Hfile Hscan Hlen Hval)
    as (l2 & J2 & _ & _ & E).
  assert (J : jobs_rev (log (snd (execute env w))) = jobs_rev l2).
  { rewrite E.
    rewrite (proj1 (conclude_log _)).
    destruct (created_audio_strips _); [reflexivity|].
    apply (proj1 (steady_group_and_restore _ _ _ _ _ _ (mkWorld _ l2))). }
  destruct (Py.is_zero fps).
  - left. unfold jobs. now rewrite J, J2.
  - right. exists found, mb, fps. split; [assumption|]. split; [assumption|].
    unfold jobs. rewrite J, J2, rev_app_distr, rev_involutive. reflexivity.
Qed.

Lemma resolved_rate_value env src R :
  resolved_rate env src = Some R <->
  exists mb, value_of (analyze_source env src) = Val (mb, R).
Proof.
  unfold resolved_rate, value_of, blank.
  destruct (fst (analyze_source env src (mkWorld None []))) as [[mb fps]|st|e]; split.
  - intros [= <-]. now exists mb.
  - intros (mb' & [= _ <-]). reflexivity.
  - discriminate.
  - intros (mb' & H). discriminate.
  - discriminate.
  - intros (mb' & H). discriminate.
Qed.

(** C1. Every extraction job of a run seeks to [frame_offset_start / R] and
    is given the duration [frame_final_duration / R], where the two frame
    counts are those of the selected strip before the run and [R] is the
    frame rate resolved for the source: the same window for every
    additional stream, whatever duration the container declares.  For the
    window [{offsetStart=48, finalDuration=960}] at rate 24 these are 2 and
    40 seconds. *)
Theorem job_windows_from_snapshot (env : Env) (w : World) (ed : SeqEditor) (s : Strip)
    (R : Q) :
  sequence_editor w = Some ed ->
  find_selected (strips_all ed) None = SelOne s ->
  resolved_rate env (source_path env s) = Some R ->
  (0 < R)%Q ->
  exists new,
    jobs (snd (execute env w)) = (jobs w ++ new)%list /\
    (new = [] \/
     exists found,
       scan env (source_path env s) = ScanStreams found /\
       map job_map new = map (fun x => Some ("0:" ++ stream_index_of x)) (tl found)) /\
    Forall (fun j =>
              job_start j = Some (inject_Z (frame_offset_start s) / R)%Q /\
              job_duration j = Some (inject_Z (frame_final_duration s) / R)%Q) new /\
    (frame_offset_start s = 48 -> frame_final_duration s = 960 -> (R == 24)%Q ->
     Forall (fun j =>
               exists a d, job_start j = Some a /\ job_duration j = Some d /\
                           (a == 2)%Q /\ (d == 40)%Q) new).
Proof.
  intros Hed Hsel HR Hpos.
  destruct (execute_jobs env w ed s Hed Hsel) as [J|(found & mb & fps & Hscan & Hval & J)].
  - exists []. rewrite app_nil_r. split; [exact J|]. split; [now left|].
    split; [constructor|]. intros _ _ _. constructor.
  - assert (fps = R).
    { apply resolved_rate_value in HR. destruct HR as (mb' & HR).
      rewrite Hval in HR. now injection HR. }
    subst fps.
    exists (map (job_of env (source_path env s) (snapshot s) R (audio_timeout mb)) (tl found)).
    split; [exact J|]. split; [|split].
    + right. exists found. split; [exact Hscan|]. rewrite map_map. reflexivity.
    + apply Forall_forall. intros j Hj. apply in_map_iff in Hj.
      destruct Hj as (x & <- & _). split; reflexivity.
    + intros H48 H960 H24. apply Forall_forall. intros j Hj. apply in_map_iff in Hj.
      destruct Hj as (x & <- & _).
      exists (inject_Z (frame_offset_start s) / R)%Q,
             (inject_Z (frame_final_duration s) / R)%Q.
      split; [reflexivity|]. split; [reflexivity|].
      rewrite H48, H960, H24. split; reflexivity.
Qed.

Lemma job_windows_from_snapshot_witness :
  exists new,
    jobs (snd (execute (Scenario.env_with [Scenario.idx0; Scenario.idx1; Scenario.idx2] [])
                 Scenario.start)) = new /\
    length new = 2%nat /\
    Forall (fun j =>
              exists a d, job_start j = Some a /\ job_duration j = Some d /\
                          (a == 2)%Q /\ (d == 40)%Q) new.
Proof.
  destruct (job_windows_from_snapshot
              (Scenario.env_with [Scenario.idx0; Scenario.idx1; Scenario.idx2] [])
              Scenario.start Scenario.timeline Scenario.clip 24%Q
              eq_refl eq_refl eq_refl eq_refl) as (new & Hj & _ & _ & H).
  change (jobs Scenario.start ++ new)%list with new in Hj.
  exists new. split; [exact Hj|]. split.
  - rewrite <- Hj. vm_compute. reflexivity.
  - apply H; reflexivity.
Defined.

Lemma track_step_failed env src snap fps timeout x acc :
  extraction_ok env src snap fps timeout x = false ->
  track_step env src snap fps timeout x acc = acc.
Proof.
  intros H. destruct acc as [strips st]. unfold track_step, created_duration.
  now rewrite H.
Qed.

Lemma track_loop_all_failed env src snap fps timeout streams :
  forall acc,
    (forall x, In x streams -> extraction_ok env src snap fps timeout x = false) ->
    track_loop env src snap fps timeout streams acc = acc.
Proof.
  unfold track_loop. induction streams as [|x rest IH]; intros acc H; simpl; [reflexivity|].
  rewrite track_step_failed by (apply H; now left).
  apply IH. intros y Hy. apply H. now right.
Qed.

Lemma track_step_grows env src snap fps timeout x acc :
  incl (fst acc) (fst (track_step env src snap fps timeout x acc)) /\
  incl (created_audio_strips (snd acc))
       (created_audio_strips (snd (track_step env src snap fps timeout x acc))).
Proof.
  destruct acc as [strips st]. unfold track_step.
  destruct (created_duration env src snap fps timeout x (next_channel st)); simpl;
    split; try apply incl_refl; apply incl_appl, incl_refl.
Qed.

Lemma track_loop_grows env src snap fps timeout streams :
  forall acc,
    incl (fst acc) (fst (track_loop env src snap fps timeout streams acc)) /\
    incl (created_audio_strips (snd acc))
         (created_audio_strips (snd (track_loop env src snap fps timeout streams acc))).
Proof.
  unfold track_loop. induction streams as [|x rest IH]; intros acc; simpl.
  - split; apply incl_refl.
  - destruct (track_step_grows env src snap fps timeout x acc) as [H1 H2].
    destruct (IH (track_step env src snap fps timeout x acc)) as [H3 H4].
    split; eapply incl_tran; eassumption.
Qed.

Lemma track_step_created env src snap fps timeout x acc :
  host_creates env ->
  extraction_ok env src snap fps timeout x = true ->
  exists a id ch d,
    a = audio_strip env src snap x id ch d /\
    In a (fst (track_step env src snap fps timeout x acc)) /\
    In (sid a) (created_audio_strips (snd (track_step env src snap fps timeout x acc))).
Proof.
  intros [Hsize Hnew] Hok. destruct acc as [strips st].
  unfold track_step, created_duration. rewrite Hok.
  assert (Hex : path_exists env (temp_path_of env src snap x) = true).
  { unfold extraction_ok in Hok. apply andb_prop in Hok. destruct Hok as [_ Hok].
    destruct (ffmpeg_result env _) as [[a b]|st'|e]; try discriminate.
    apply andb_prop in Hok. tauto. }
  destruct (Hsize _ Hex) as (n & ->).
  destruct (Hnew ("Audio_" ++ stream_title_of x) (temp_path_of env src snap x)
              (next_channel st) temp_extraction_start) as (d & ->).
  simpl. eexists. exists (fresh_id strips), (next_channel st), d.
  split; [reflexivity|]. split; apply in_or_app; right; now left.
Qed.

Lemma track_loop_created env src snap fps timeout streams :
  host_creates env ->
  forall acc x,
    In x streams ->
    extraction_ok env src snap fps timeout x = true ->
    exists a id ch d,
      a = audio_strip env src snap x id ch d /\
      In a (fst (track_loop env src snap fps timeout streams acc)) /\
      In (sid a) (created_audio_strips (snd (track_loop env src snap fps timeout streams acc))).
Proof.
  intros Hhost. unfold track_loop.
  induction streams as [|y rest IH]; intros acc x Hx Hok; simpl; [contradiction|].
  destruct Hx as [->|Hx].
  - destruct (track_step_created env src snap fps timeout x acc Hhost Hok)
      as (a & id & ch & d & Ha & Hin & Hid).
    destruct (track_loop_grows env src snap fps timeout rest
                (track_step env src snap fps timeout x acc)) as [G1 G2].
    exists a, id, ch, d. split; [exact Ha|]. split; [now apply G1 | now apply G2].
  - now apply IH.
Qed.

(** C4 (amended). When every additional extraction job fails, the operator
    warns that no additional track was extracted and still returns
    [FINISHED]; the sequencer is exactly as it was before the run, so the
    original clip keeps its channel, frame start, offsets and duration. *)
Theorem all_jobs_failed_finishes_untouched (env : Env) (w : World) (strips : list Strip)
    (act : option nat) (s : Strip) (found : list StreamInfo) (mb fps : Q) :
  sequence_editor w = Some (mkSeq strips act) ->
  find_selected strips None = SelOne s ->
  isfile env (source_path env s) = true ->
  scan env (source_path env s) = ScanStreams found ->
  (1 < length found)%nat ->
  value_of (analyze_source env (source_path env s)) = Val (mb, fps) ->
  (forall x, In x (tl found) ->
     extraction_ok env (source_path env s) (snapshot s) fps (audio_timeout mb) x = false) ->
  status_of (execute env w) = Some FINISHED /\
  sequence_editor (snd (execute env w)) = sequence_editor w /\
  In (EvReport WARNING MsgNoneExtracted) (log (snd (execute env w))) /\
  (Py.is_zero fps = false ->
   length (jobs (snd (execute env w))) = (length (jobs w) + length (tl found))%nat).
Proof.
  intros Hed Hsel Hfile Hscan Hlen Hval Hfail.
  destruct (execute_extracting env w strips act s found mb fps
              Hed Hsel Hfile Hscan Hlen Hval) as (l2 & J2 & _ & _ & E).
  rewrite track_loop_all_failed in E by exact Hfail. simpl in E.
  rewrite E. simpl. split; [reflexivity|]. split; [now rewrite Hed|].
  split; [right; right; now left|].
  intros Z0. unfold jobs. simpl. rewrite J2, Z0.
  rewrite !length_rev, length_app, length_rev, length_map. lia.
Qed.

Lemma all_jobs_failed_finishes_untouched_witness :
  status_of (execute (Scenario.env_with [Scenario.idx0; Scenario.idx1; Scenario.idx2]
                        ["0:1"; "0:2"]) Scenario.start) = Some FINISHED /\
  sequence_editor (snd (execute (Scenario.env_with
                                   [Scenario.idx0; Scenario.idx1; Scenario.idx2]
                                   ["0:1"; "0:2"]) Scenario.start)) =
    Some Scenario.timeline.
Proof.
  set (env := Scenario.env_with [Scenario.idx0; Scenario.idx1; Scenario.idx2]
                ["0:1"; "0:2"]).
  assert (V : value_of (analyze_source env (source_path env Scenario.clip)) =
              Val ((104857600 # 1048576)%Q, 24%Q)) by (vm_compute; reflexivity).
  assert (F : forall x, In x (tl [Scenario.idx0; Scenario.idx1; Scenario.idx2]) ->
               extraction_ok env (source_path env Scenario.clip) (snapshot Scenario.clip)
                 24 (audio_timeout (104857600 # 1048576)) x = false).
  { intros x [<-|[<-|[]]]; vm_compute; reflexivity. }
  assert (S0 : scan env (source_path env Scenario.clip) =
               ScanStreams [Scenario.idx0; Scenario.idx1; Scenario.idx2])
    by (vm_compute; reflexivity).
  destruct (all_jobs_failed_finishes_untouched env
              Scenario.start [Scenario.clip; Scenario.other] None Scenario.clip
              [Scenario.idx0; Scenario.idx1; Scenario.idx2] (104857600 # 1048576) 24
              eq_refl eq_refl eq_refl S0 (le_S 2 2 (le_n 2)) V F) as (H1 & H2 & _).
  split; [exact H1 | exact H2].
Defined.

(** C4 as stated fails: with both additional jobs failing, the operator
    returns [FINISHED], not [CANCELLED], and reports no error. *)
Lemma all_jobs_failed_not_cancelled :
  Forall (fun x =>
            extraction_ok (Scenario.env_with
                             [Scenario.idx0; Scenario.idx1; Scenario.idx2] ["0:1"; "0:2"])
              "/v/a.mkv" (snapshot Scenario.clip) 24 (audio_timeout (104857600 # 1048576)) x = false)
         [Scenario.idx1; Scenario.idx2] /\
  status_of (execute (Scenario.env_with [Scenario.idx0; Scenario.idx1; Scenario.idx2]
                        ["0:1"; "0:2"]) Scenario.start) = Some FINISHED /\
  status_of (execute (Scenario.env_with [Scenario.idx0; Scenario.idx1; Scenario.idx2]
                        ["0:1"; "0:2"]) Scenario.start) <> Some CANCELLED /\
  reports ERROR (snd (execute (Scenario.env_with
                                 [Scenario.idx0; Scenario.idx1; Scenario.idx2]
                                 ["0:1"; "0:2"]) Scenario.start)) = [].
Proof.
  split; [repeat constructor; vm_compute; reflexivity|].
  split; [vm_compute; reflexivity|].
  split; [vm_compute; discriminate | vm_compute; reflexivity].
Qed.

Lemma nonempty_of_in {A} (x : A) (l : list A) : In x l -> exists y ys, l = y :: ys.
Proof. destruct l as [|y ys]; [contradiction | intros _; now exists y, ys]. Qed.

Lemma analyze_source_size env src mb fps :
  value_of (analyze_source env src) = Val (mb, fps) ->
  exists bytes,
    getsize env src = Some bytes /\ mb = (inject_Z bytes / inject_Z (1024 * 1024))%Q.
Proof.
  unfold value_of, analyze_source, try_except, py_getsize.
  unfold bind at 1.
  destruct (getsize env src) as [bytes|]; [|discriminate].
  intros H. exists bytes. split; [reflexivity|].
  unfold ret at 1 in H.
  set (k := fun _ : Z * string * string => _) in H.
  unfold bind at 1 in H.
  destruct (run_or_raise env (video_info_command src) 30 blank) as [[[[rc out] err]|st|e] w1];
    try discriminate H.
  subst k. cbv beta iota in H.
  destruct (negb (rc =? 0) || negb (Py.truthy (Py.strip out))); [discriminate H|].
  unfold bind at 1 in H.
  destruct (py_float env (Py.strip out) w1) as [[d|st|e] w2]; try discriminate H.
  unfold bind at 1 in H. unfold report at 1, emit at 1 in H.
  unfold bind at 1 in H.
  destruct (run_or_raise env (video_fps_command src) 30 _) as [[[[rc2 out2] err2]|st|e] w3];
    try discriminate H.
  cbv beta iota in H.
  unfold bind at 1 in H.
  match type of H with
  | context [let (r, w') := ?m ?w0 in _] => destruct (m w0) as [[f|st|e] w4]
  end; try discriminate H.
  unfold ret in H. simpl in H. now injection H.
Qed.

(** ** Three runs on the concrete installation *)

Ltac in_log := vm_compute; repeat (try (left; reflexivity); right).

Ltac by_running :=
  cbv zeta;
  repeat match goal with |- _ /\ _ => split end;
  match goal with
  | |- In _ _ => in_log
  | |- _ => vm_compute; reflexivity
  end.

(** C6. A job that fails without leaving a message is taken for a success.
    On the installation whose ffmpeg exits with code 1 after the
    monitoring loop has read its only line, [communicate()] has an empty
    stderr left and [run_ffmpeg_with_progress] returns [(None, '')]; the
    operator tests [if stderr:], finds the output file in place, and goes
    on: the run finishes without a single warning, and the strip made from
    the failed job's file is inside the composite. *)
Theorem failed_job_without_message_is_grouped :
  let env := Scenario.env_mute in
  let job := job_of env "/v/a.mkv" (snapshot Scenario.clip) 24 200 Scenario.idx1 in
  let r := execute env Scenario.start in
  final (popen env (job_command job)) = Exited 1 "" "" /\
  ffmpeg_result env job = Val (None, Some "") /\
  jobs (snd r) = [job] /\
  status_of r = Some FINISHED /\
  reports WARNING (snd r) = [] /\
  option_map sid (composite_of (snd r)) = Some 4%nat /\
  map (fun x => (sid x, filepath x, parent x)) (strips_of (snd r)) =
    [(2%nat, "/v/b.mkv", None);
     (4%nat, "", None);
     (1%nat, "/v/a.mkv", Some 4%nat);
     (3%nat, temp_path_of env "/v/a.mkv" (snapshot Scenario.clip) Scenario.idx1, Some 4%nat)].
Proof.
  by_running.
Qed.

(** C2. The composite is not put back where the original was.  On the
    timeline where another clip ends on the selected clip's channel at
    the frame where the trimmed-away head of the selected clip begins, no
    two strips overlap before the run, every job succeeds and the run
    reports that the original position was preserved; but the composite is
    given its channel while its two offsets are still 0, it overlaps the
    neighbour, and the host moves it to the end of the channel: it starts
    at frame 1018 where the original started at frame 10. *)
Theorem composite_lands_after_neighbour :
  let env := Scenario.env_with [Scenario.idx0; Scenario.idx1] [] in
  let r := execute env Scenario.crowded in
  strips_of Scenario.crowded = [Scenario.clip; Scenario.other; Scenario.prev] /\
  forallb (fun x => negb (collides (sid x) (strips_of Scenario.crowded)))
          (strips_of Scenario.crowded) = true /\
  find_selected (strips_of Scenario.crowded) None = SelOne Scenario.clip /\
  placement Scenario.clip = (1, 10, 48, 0, 960) /\
  status_of r = Some FINISHED /\
  reports WARNING (snd r) = [] /\
  In (EvReport INFO MsgPreserved) (log (snd r)) /\
  option_map placement (composite_of (snd r)) = Some (1, 1018, 48, 0, 960).
Proof.
  by_running.
Qed.

(** C3. A new audio strip is created over an existing strip.  On the
    timeline whose topmost channel, 128, holds a strip across frame 1000,
    the workspace is computed to start on channel 129; the host has no
    such channel and creates the strip on channel 128, where it overlaps
    the strip that was there; the run still reports that no existing
    content was disturbed. *)
Theorem audio_strip_created_over_existing_strip :
  let env := Scenario.env_with [Scenario.idx0; Scenario.idx1] [] in
  let snap := snapshot Scenario.clip in
  let start_channel := extraction_start_channel (map channel (strips_of Scenario.topped)) in
  let turn := extract_track env "/v/a.mkv" snap 24 200 1 0 Scenario.idx1
                            (mkLoop [] start_channel) Scenario.topped in
  let a := audio_strip env "/v/a.mkv" snap Scenario.idx1 3 start_channel 960 in
  strips_of Scenario.topped = [Scenario.clip; Scenario.title] /\
  start_channel = 129 /\
  strips_of (snd turn) = [Scenario.clip; Scenario.title; a] /\
  (channel a, frame_final_start a, frame_final_end a) = (128, 1000, 1960) /\
  (channel Scenario.title, frame_final_start Scenario.title, frame_final_end Scenario.title)
    = (128, 900, 1200) /\
  overlaps a Scenario.title = true /\
  In (EvNewSound "Audio_Comm" (temp_path_of env "/v/a.mkv" snap Scenario.idx1)
                 start_channel temp_extraction_start)
     (log (snd (execute env Scenario.topped))) /\
  In (EvReport INFO MsgSafety) (log (snd (execute env Scenario.topped))).
Proof.
  by_running.
Qed.

(** ** The per-job timeout *)

(** C9. For a source of [s] megabytes the timeout is
    [max(60, min(600, int(s * 2)))]; it lies between 60 and 600 seconds and
    never decreases when the source grows.  Every job of a run on a source
    of that size is given this timeout. *)
Theorem audio_timeout_bounded_monotone (s : Q) :
  (0 <= s)%Q ->
  audio_timeout s = Z.max 60 (Z.min 600 (Py.int_of_float (s * 2)%Q)) /\
  Py.int_of_float (s * 2)%Q = Qfloor (s * 2)%Q /\
  60 <= audio_timeout s <= 600 /\
  (forall s' : Q, (s <= s')%Q -> audio_timeout s <= audio_timeout s') /\
  (forall env w ed sel bytes,
     sequence_editor w = Some ed ->
     find_selected (strips_all ed) None = SelOne sel ->
     getsize env (source_path env sel) = Some bytes ->
     s = (inject_Z bytes / inject_Z (1024 * 1024))%Q ->
     exists new,
       jobs (snd (execute env w)) = (jobs w ++ new)%list /\
       Forall (fun j => job_timeout j = audio_timeout s) new).
Proof.
  intros Hs.
  assert (H2 : (0 <= s * 2)%Q) by (apply Qmult_le_0_compat; [assumption | discriminate]).
  split; [reflexivity|]. split; [now apply int_of_float_floor|].
  split; [unfold audio_timeout; lia|]. split.
  - intros s' Hle. unfold audio_timeout.
    assert (Hm : Py.int_of_float (s * 2)%Q <= Py.int_of_float (s' * 2)%Q).
    { apply int_of_float_mono; [assumption|].
      apply Qmult_le_compat_r; [assumption | discriminate]. }
    lia.
  - intros env w ed sel bytes Hed Hsel Hsize ->.
    destruct (execute_jobs env w ed sel Hed Hsel)
      as [J|(found & mb & fps & _ & Hval & J)].
    + exists []. rewrite app_nil_r. split; [exact J | constructor].
    + destruct (analyze_source_size env _ mb fps Hval) as (b & Hb & ->).
      rewrite Hsize in Hb. injection Hb as <-.
      eexists. split; [exact J|].
      apply Forall_forall. intros j Hj. apply in_map_iff in Hj.
      destruct Hj as (x & <- & _). reflexivity.
Qed.

Lemma audio_timeout_bounded_monotone_witness :
  audio_timeout 100 = 200 /\ 60 <= audio_timeout 100 <= 600 /\
  audio_timeout 100 <= audio_timeout 1000.
Proof.
  assert (H : (0 <= 100)%Q) by discriminate.
  destruct (audio_timeout_bounded_monotone 100 H) as (_ & _ & Hb & Hm & _).
  split; [reflexivity|]. split; [exact Hb|].
  apply Hm. discriminate.
Defined.

(** ** What a run logs, whatever happens *)

Section Rules.

Variable I : Kind -> list Event -> Prop.
Hypothesis I_val : I KVal [].
Hypothesis I_exc : I KExc [].
Hypothesis I_seq : forall k e1 e2, I KVal e1 -> I k e2 -> I k (e2 ++ e1)%list.
Hypothesis I_catch : forall k e1 e2, I KExc e1 -> I k e2 -> I k (e2 ++ e1)%list.
Hypothesis I_plain : forall e, plain e = true -> I KVal [e].
Hypothesis I_finished : I (KRet FINISHED) [].
Hypothesis I_scan_failed :
  forall detail, I (KRet CANCELLED) [EvReport ERROR (MsgScanFailed detail)].
Hypothesis I_duration_failed : I (KRet CANCELLED) [EvReport ERROR MsgDurationFailed].
Hypothesis I_analyze_failed :
  forall e, I (KRet CANCELLED) [EvReport ERROR (MsgAnalyzeFailed e)].
Hypothesis I_failed : forall e, I (KRet CANCELLED) [EvReport ERROR (MsgFailed e)].

Lemma obeys_ret {A} (a : A) : obeys I (ret a).
Proof. intros w. exists []. now split. Qed.

Lemma obeys_raise {A} (e : Py.Exn) : obeys I (@raise A e).
Proof. intros w. exists []. now split. Qed.

Lemma obeys_finish {A} : obeys I (@py_return A FINISHED).
Proof. intros w. exists []. now split. Qed.

Lemma obeys_emit (e : Event) : plain e = true -> obeys I (emit e).
Proof. intros H w. exists [e]. split; [reflexivity | now apply I_plain]. Qed.

Lemma obeys_fail {A} (m : Msg) :
  I (KRet CANCELLED) [EvReport ERROR m] ->
  obeys I (report ERROR m ;; @py_return A CANCELLED).
Proof. intros H w. exists [EvReport ERROR m]. split; [reflexivity | exact H]. Qed.

Lemma obeys_bind {A B} (m : M A) (k : A -> M B) :
  obeys I m -> (forall a, obeys I (k a)) -> obeys I (bind m k).
Proof.
  intros Hm Hk w. unfold bind. destruct (Hm w) as (e1 & L1 & I1).
  destruct (m w) as [[a|st|e] w1]; simpl in *.
  - destruct (Hk a w1) as (e2 & L2 & I2). exists (e2 ++ e1)%list. split.
    + now rewrite L2, L1, app_assoc.
    + now apply I_seq.
  - now exists e1.
  - now exists e1.
Qed.

Lemma obeys_try_except {A} (m : M A) (h : Py.Exn -> M A) :
  obeys I m -> (forall e, obeys I (h e)) -> obeys I (try_except m h).
Proof.
  intros Hm Hh w. unfold try_except. destruct (Hm w) as (e1 & L1 & I1).
  destruct (m w) as [[a|st|e] w1]; simpl in *.
  - now exists e1.
  - now exists e1.
  - destruct (Hh e w1) as (e2 & L2 & I2). exists (e2 ++ e1)%list. split.
    + now rewrite L2, L1, app_assoc.
    + now apply I_catch.
Qed.

Lemma obeys_when (b : bool) (m : M unit) : obeys I m -> obeys I (when b m).
Proof. destruct b; simpl; [trivial | intros _; apply obeys_ret]. Qed.

Lemma obeys_for_each {A St} (body : nat -> A -> St -> M St) (xs : list A) :
  (forall i x s, obeys I (body i x s)) -> forall i s, obeys I (for_each body i xs s).
Proof.
  intros Hb. induction xs as [|x xs IH]; intros i s; simpl.
  - apply obeys_ret.
  - apply obeys_bind; [apply Hb | intros s'; apply IH].
Qed.

(** Computations that log nothing and neither return nor fail silently. *)
Lemma obeys_silent {A} (m : M A) :
  (forall w, log (snd (m w)) = log w /\
             (kind_of (fst (m w)) = KVal \/ kind_of (fst (m w)) = KExc)) ->
  obeys I m.
Proof.
  intros H w. destruct (H w) as [L [K|K]]; exists []; rewrite K; now split.
Qed.

Lemma obeys_get_strips : obeys I get_strips.
Proof.
  apply obeys_silent. intros w. unfold get_strips.
  destruct (sequence_editor w); simpl; auto.
Qed.

Lemma obeys_set_strips (f : list Strip -> list Strip) : obeys I (set_strips f).
Proof.
  apply obeys_silent. intros w. unfold set_strips.
  destruct (sequence_editor w); simpl; auto.
Qed.

Lemma obeys_get_active : obeys I get_active.
Proof.
  apply obeys_silent. intros w. unfold get_active.
  destruct (sequence_editor w); simpl; auto.
Qed.

Ltac obeys_step :=
  match goal with
  | |- obeys _ (bind (report ERROR _) (fun _ => py_return CANCELLED)) =>
      apply obeys_fail;
      first [ apply I_scan_failed | apply I_duration_failed
            | apply I_analyze_failed | apply I_failed ]
  | |- obeys _ (bind _ _) => apply obeys_bind; [|intros]
  | |- obeys _ (try_except _ _) => apply obeys_try_except; [|intros]
  | |- obeys _ (ret _) => apply obeys_ret
  | |- obeys _ (raise _) => apply obeys_raise
  | |- obeys _ (py_return FINISHED) => apply obeys_finish
  | |- obeys _ (report _ _) => apply obeys_emit; reflexivity
  | |- obeys _ (progress_update _) => apply obeys_emit; reflexivity
  | |- obeys _ (emit _) => apply obeys_emit; reflexivity
  | |- obeys _ (when _ _) => apply obeys_when
  | |- obeys _ (assign _ _) => apply obeys_set_strips
  | |- obeys _ (set_frame_start _ _ _) => apply obeys_set_strips
  | |- obeys _ (set_channel _ _ _) => apply obeys_set_strips
  | |- obeys _ (set_frame_offset_start _ _ _) => apply obeys_set_strips
  | |- obeys _ (set_frame_offset_end _ _ _) => apply obeys_set_strips
  | |- obeys _ (set_strips _) => apply obeys_set_strips
  | |- obeys _ get_strips => apply obeys_get_strips
  | |- obeys _ get_active => apply obeys_get_active
  | |- obeys _ (for_each _ _ _ _) => apply obeys_for_each; intros
  | |- obeys _ (match ?x with _ => _ end) => destruct x
  | |- obeys _ (if ?b then _ else _) => destruct b
  end.

Lemma obeys_run env cmd t : obeys I (run env cmd t).
Proof. unfold run. repeat obeys_step. Qed.

Lemma obeys_run_or_raise env cmd t : obeys I (run_or_raise env cmd t).
Proof. unfold run_or_raise. repeat first [apply obeys_run | obeys_step]. Qed.

Lemma obeys_py_float env s : obeys I (py_float env s).
Proof. unfold py_float. repeat obeys_step. Qed.

Lemma obeys_py_truediv x y : obeys I (py_truediv x y).
Proof. unfold py_truediv. repeat obeys_step. Qed.

Lemma obeys_py_getsize env p : obeys I (py_getsize env p).
Proof. unfold py_getsize. repeat obeys_step. Qed.

Lemma obeys_parse_fps env s : obeys I (parse_fps env s).
Proof.
  unfold parse_fps.
  repeat first [apply obeys_py_float | apply obeys_py_truediv | obeys_step].
Qed.

Lemma obeys_get_audio_tracks env p : obeys I (get_audio_tracks env p).
Proof. unfold get_audio_tracks. repeat first [apply obeys_run | obeys_step]. Qed.

Lemma obeys_log_track env i s u : obeys I (log_track env i s u).
Proof. unfold log_track. repeat obeys_step. Qed.

Lemma obeys_analyze_source env src : obeys I (analyze_source env src).
Proof.
  unfold analyze_source.
  repeat first [ apply obeys_py_float | apply obeys_py_truediv | apply obeys_py_getsize
               | apply obeys_run_or_raise | apply obeys_parse_fps | obeys_step ].
Qed.

Lemma obeys_verify_extracted env p q : obeys I (verify_extracted env p q).
Proof.
  unfold verify_extracted.
  repeat first [apply obeys_py_float | apply obeys_run_or_raise | obeys_step].
Qed.

Lemma obeys_track_progress d t last : obeys I (track_progress d t last).
Proof. unfold track_progress. repeat obeys_step. Qed.

Lemma obeys_monitor timeout d p ts : forall last, obeys I (monitor timeout d p ts last).
Proof.
  induction ts as [|t ts IH]; intros last; simpl.
  - repeat obeys_step.
  - destruct (gt (elapsed t) (inject_Z timeout)); [repeat obeys_step|].
    apply obeys_bind; [apply obeys_track_progress | intros; apply IH].
Qed.

Lemma obeys_run_ffmpeg env cmd t d : obeys I (run_ffmpeg_with_progress env cmd t d).
Proof.
  unfold run_ffmpeg_with_progress.
  repeat first [apply obeys_monitor | obeys_step].
Qed.

Lemma obeys_strips_new_sound env nm p ch fr : obeys I (strips_new_sound env nm p ch fr).
Proof. unfold strips_new_sound. repeat obeys_step. Qed.

Lemma obeys_extract_track env src snap fps t n i s st :
  obeys I (extract_track env src snap fps t n i s st).
Proof.
  unfold extract_track.
  repeat first [ apply obeys_py_truediv | apply obeys_py_getsize
               | apply obeys_run_ffmpeg | apply obeys_verify_extracted
               | apply obeys_strips_new_sound | obeys_step ].
Qed.

Lemma obeys_ops_meta_make env : obeys I (ops_meta_make env).
Proof.
  unfold ops_meta_make. repeat obeys_step.
  apply obeys_silent. intros w. simpl. auto.
Qed.

Lemma obeys_group_and_restore env sel snap start created found :
  obeys I (group_and_restore env sel snap start created found).
Proof.
  unfold group_and_restore, move_to_temporary_area, restore_original,
    ops_select_all_deselect.
  repeat first [apply obeys_ops_meta_make | obeys_step].
Qed.

Lemma obeys_extract_additional env s src found mb fps :
  obeys I (extract_additional env s src found mb fps).
Proof.
  unfold extract_additional.
  repeat first [ apply obeys_group_and_restore
               | apply obeys_for_each; intros; apply obeys_extract_track
               | obeys_step ].
Qed.

Lemma obeys_operator_body env s src : obeys I (operator_body env s src).
Proof.
  unfold operator_body.
  repeat first [ apply obeys_get_audio_tracks | apply obeys_analyze_source
               | apply obeys_extract_additional
               | apply obeys_for_each; intros; apply obeys_log_track
               | obeys_step ].
Qed.

Lemma obeys_guarded_body env s src : obeys I (guarded_body env s src).
Proof.
  unfold guarded_body. apply obeys_try_except; [apply obeys_operator_body|].
  intros e. apply obeys_fail, I_failed.
Qed.

End Rules.

Lemma reports_rev_app lvl (a b : list Event) :
  reports_rev lvl (a ++ b) = (reports_rev lvl a ++ reports_rev lvl b)%list.
Proof.
  induction a as [|e a IH]; simpl; [reflexivity|].
  destruct e; try apply IH. destruct lvl, lvl0; simpl; now rewrite ?IH.
Qed.

Lemma errors_app (a b : list Event) : errors (a ++ b) = (errors a + errors b)%nat.
Proof. unfold errors. now rewrite reports_rev_app, length_app. Qed.

Lemma errors_plain e : plain e = true -> errors [e] = 0%nat.
Proof. destruct e as [[] m| | | | | | | |]; simpl; try discriminate; reflexivity. Qed.

Lemma guarded_body_errors env s src : obeys one_error_iff_cancelled (guarded_body env s src).
Proof.
  apply obeys_guarded_body; unfold one_error_iff_cancelled; try reflexivity.
  - intros k e1 e2 H1 H2. rewrite errors_app, H1, H2. lia.
  - intros k e1 e2 H1 H2. rewrite errors_app, H1, H2. lia.
  - apply errors_plain.
Qed.

Lemma guarded_body_bar env s src : obeys no_bar_events (guarded_body env s src).
Proof.
  apply obeys_guarded_body; unfold no_bar_events; try (now constructor).
  - intros k e1 e2 H1 H2. apply Forall_app. now split.
  - intros k e1 e2 H1 H2. apply Forall_app. now split.
  - intros e He. constructor; [|constructor]. now destruct e as [[] m| | | | | | | |].
Qed.

Lemma bind_not_val {A B} (m : M A) (k : A -> M B) w :
  (forall a w', kind_of (fst (k a w')) <> KVal) -> kind_of (fst (bind m k w)) <> KVal.
Proof.
  intros Hk. unfold bind. destruct (m w) as [[a|st|e] w1]; simpl; try discriminate.
  apply Hk.
Qed.

Lemma operator_body_not_val env s src w :
  kind_of (fst (operator_body env s src w)) <> KVal.
Proof.
  unfold operator_body.
  apply bind_not_val; intros _ w1. apply bind_not_val; intros _ w2.
  apply bind_not_val; intros [found|err detail] w3.
  - apply bind_not_val; intros _ w4. apply bind_not_val; intros _ w5.
    apply bind_not_val; intros _ w6. apply bind_not_val; intros [mb fps] w7.
    apply bind_not_val; intros _ w8. apply bind_not_val; intros _ w9.
    discriminate.
  - apply bind_not_val; intros _ w4. discriminate.
Qed.

Lemma guarded_body_returns env s src w :
  exists st, fst (guarded_body env s src w) = Returned st.
Proof.
  unfold guarded_body, try_except.
  pose proof (operator_body_not_val env s src w) as H.
  destruct (operator_body env s src w) as [[a|st|e] w1]; simpl in *.
  - congruence.
  - now exists st.
  - now exists CANCELLED.
Qed.

Lemma execute_cases env w :
  (exists m, execute env w = (Returned CANCELLED, logged [EvReport ERROR m] w)) \/
  (exists ed s,
      sequence_editor w = Some ed /\
      find_selected (strips_all ed) None = SelOne s /\
      isfile env (source_path env s) = true /\
      execute env w =
      finally (guarded_body env s (source_path env s)) (emit EvProgressEnd)
              (logged [EvProgressBegin 0 100] w)).
Proof.
  unfold execute. destruct w as [[ed|] l]; simpl.
  - destruct (find_selected (strips_all ed) None) as [| s |] eqn:F.
    + left. eexists. reflexivity.
    + destruct (isfile env (source_path env s)) eqn:Hf; simpl.
      * right. exists ed, s. repeat split; trivial.
      * left. eexists. reflexivity.
    + left. eexists. reflexivity.
  - left. eexists. reflexivity.
Qed.

(** X2. A run that returns CANCELLED has reported exactly one error, and a
    run that returns FINISHED has reported none. *)
Theorem cancelled_iff_one_error (env : Env) (w : World) :
  exists evs,
    log (snd (execute env w)) = (evs ++ log w)%list /\
    (status_of (execute env w) = Some CANCELLED /\ errors evs = 1%nat \/
     status_of (execute env w) = Some FINISHED /\ errors evs = 0%nat).
Proof.
  destruct (execute_cases env w) as [[m E] | (ed & s & _ & _ & _ & E)]; rewrite E.
  - exists [EvReport ERROR m]. split; [reflexivity|]. left. now split.
  - unfold finally, status_of.
    set (w0 := logged [EvProgressBegin 0 100] w).
    destruct (guarded_body_returns env s (source_path env s) w0) as [st Hst].
    destruct (guarded_body_errors env s (source_path env s) w0) as (evs & L & HI).
    destruct (guarded_body env s (source_path env s) w0) as [r w1]. simpl in *.
    subst r. simpl in HI.
    exists (EvProgressEnd :: evs ++ [EvProgressBegin 0 100])%list. split.
    + rewrite L. simpl. now rewrite <- app_assoc.
    + change (EvProgressEnd :: evs ++ [EvProgressBegin 0 100])%list
        with ([EvProgressEnd] ++ evs ++ [EvProgressBegin 0 100])%list.
      rewrite !errors_app. unfold one_error_iff_cancelled in HI.
      change (errors [EvProgressEnd]) with 0%nat.
      change (errors [EvProgressBegin 0 100]) with 0%nat.
      destruct st; [right | left]; split; trivial; lia.
Qed.

(** X3. The progress bar is opened at most once per run; when it is, it is
    closed by the last event of the run, however the run ends.  A run that
    does not open it logs one error report and nothing else. *)
Theorem progress_bar_bracketed (env : Env) (w : World) :
  (exists evs,
      Forall (fun e => bar_event e = false) evs /\
      log (snd (execute env w)) =
      (EvProgressEnd :: evs ++ EvProgressBegin 0 100 :: log w)%list) \/
  (exists m, log (snd (execute env w)) = EvReport ERROR m :: log w).
Proof.
  destruct (execute_cases env w) as [[m E] | (ed & s & _ & _ & _ & E)]; rewrite E.
  - right. now exists m.
  - left. unfold finally.
    set (w0 := logged [EvProgressBegin 0 100] w).
    destruct (guarded_body_bar env s (source_path env s) w0) as (evs & L & HI).
    destruct (guarded_body env s (source_path env s) w0) as [r w1]. simpl in *.
    exists evs. split; [exact HI|]. now rewrite L.
Qed.

(** ** A failed scan *)

(** X4. When the stream scan fails, in whichever way, the operator reports
    the scan's detail as an error and is cancelled; all it did is probe
    once: no ffmpeg job was started and the sequencer is as it was. *)
Theorem scan_failure_cancels (env : Env) (w : World) (ed : SeqEditor) (s : Strip)
    (kind detail : string) :
  sequence_editor w = Some ed ->
  find_selected (strips_all ed) None = SelOne s ->
  isfile env (source_path env s) = true ->
  scan env (source_path env s) = ScanError kind detail ->
  execute env w =
    (Returned CANCELLED,
     logged [ EvProgressEnd;
              EvReport ERROR (MsgScanFailed detail);
              EvRun (ffprobe_scan_command (source_path env s)) 30;
              EvReport INFO (MsgScanning (basename env (source_path env s)));
              EvProgressUpdate 10;
              EvProgressBegin 0 100 ] w) /\
  sequence_editor (snd (execute env w)) = sequence_editor w /\
  jobs (snd (execute env w)) = jobs w.
Proof.
  intros Hed Hsel Hfile Hscan.
  rewrite (execute_until_scan env w ed s) by assumption.
  rewrite Hscan. split; [reflexivity | split; reflexivity].
Qed.

Lemma scan_failure_cancels_witness :
  status_of (execute Scenario.env_no_ffprobe Scenario.start) = Some CANCELLED /\
  sequence_editor (snd (execute Scenario.env_no_ffprobe Scenario.start)) =
    Some Scenario.timeline /\
  jobs (snd (execute Scenario.env_no_ffprobe Scenario.start)) = [].
Proof.
  assert (S0 : scan Scenario.env_no_ffprobe
                 (source_path Scenario.env_no_ffprobe Scenario.clip) =
               ScanError "ffprobe_unexpected_error"
                         "Unexpected error running ffprobe: [Errno 2] No such file or directory: 'ffprobe'")
    by (vm_compute; reflexivity).
  destruct (scan_failure_cancels Scenario.env_no_ffprobe Scenario.start
              Scenario.timeline Scenario.clip _ _ eq_refl eq_refl eq_refl S0)
    as (E & Hs & Hj).
  split; [now rewrite E|]. split; [exact Hs | exact Hj].
Defined.

(** ** Phase 2 failures *)

Lemma reports_rev_plain e : plain e = true -> reports_rev ERROR [e] = [].
Proof. destruct e as [[] m| | | | | | | |]; simpl; try discriminate; reflexivity. Qed.

Lemma analyze_source_errors env src : obeys analysis_errors (analyze_source env src).
Proof.
  apply obeys_analyze_source; unfold analysis_errors; try reflexivity.
  - intros k e1 e2 H1 H2. rewrite reports_rev_app, H1, app_nil_r. exact H2.
  - intros k e1 e2 H1 H2. rewrite reports_rev_app, H1, app_nil_r. exact H2.
  - apply reports_rev_plain.
  - now left.
  - intros e. right. now exists e.
Qed.

Lemma analyze_source_outcome env src :
  (exists x, value_of (analyze_source env src) = Val x /\
             reports_rev ERROR (events_of (analyze_source env src)) = []) \/
  (value_of (analyze_source env src) = Returned CANCELLED /\
   (reports_rev ERROR (events_of (analyze_source env src)) = [MsgDurationFailed] \/
    exists e, reports_rev ERROR (events_of (analyze_source env src)) = [MsgAnalyzeFailed e])).
Proof.
  destruct (analyze_source_errors env src blank) as (evs & L & HI).
  unfold value_of, events_of. simpl in L. rewrite app_nil_r in L. rewrite L.
  assert (NR : forall e, fst (analyze_source env src blank) <> Raised e).
  { intros e. unfold analyze_source, try_except.
    match goal with |- context [let (r, w') := ?m ?w0 in _] =>
      destruct (m w0) as [[x|st|e'] w1] end; simpl; discriminate. }
  destruct (fst (analyze_source env src blank)) as [x|[|]|e]; simpl in HI.
  - left. now exists x.
  - contradiction.
  - right. now split.
  - now destruct (NR e).
Qed.

Lemma log_tracks_events env streams : forall i w,
  exists evs, for_each (log_track env) i streams tt w = (Val tt, logged evs w) /\
              jobs_rev evs = [] /\ reports_rev ERROR evs = [].
Proof.
  induction streams as [|x rest IH]; intros i w; simpl.
  - exists []. unfold ret. now rewrite logged_nil.
  - unfold bind.
    assert (H : exists evs, log_track env i x tt w = (Val tt, logged evs w) /\
                            jobs_rev evs = [] /\ reports_rev ERROR evs = []).
    { unfold log_track, bind, report, emit. simpl.
      destruct (Py.truthy (or_unknown (s_duration x)) &&
                negb (String.eqb (or_unknown (s_duration x)) "unknown")).
      2:{ eexists [_]. now repeat split. }
      unfold try_except, py_float.
      destruct (float_of_str env (or_unknown (s_duration x))) as [d|]; simpl.
      2:{ eexists [_]. now repeat split. }
      destruct (gt 1 d); simpl.
      - eexists [_; _]. now repeat split.
      - eexists [_]. now repeat split. }
    destruct H as (e1 & E1 & J1 & R1). rewrite E1.
    destruct (IH (S i) (logged e1 w)) as (e2 & E2 & J2 & R2). rewrite E2.
    exists (e2 ++ e1)%list. rewrite logged_logged. split; [reflexivity|].
    now rewrite jobs_rev_app, reports_rev_app, J1, J2, R1, R2.
Qed.

Lemma execute_analysis_stops env w ed s found st :
  sequence_editor w = Some ed ->
  find_selected (strips_all ed) None = SelOne s ->
  isfile env (source_path env s) = true ->
  scan env (source_path env s) = ScanStreams found ->
  (1 < length found)%nat ->
  value_of (analyze_source env (source_path env s)) = Returned st ->
  exists evs0,
    jobs_rev evs0 = [] /\ reports_rev ERROR evs0 = [] /\
    execute env w =
    (Returned st,
     logged (EvProgressEnd :: events_of (analyze_source env (source_path env s)) ++ evs0) w).
Proof.
  intros Hed Hsel Hfile Hscan Hlen VA.
  remember (execute env w) as X eqn:EX.
  rewrite (execute_until_scan env w ed s) in EX by assumption.
  set (src := source_path env s) in *.
  rewrite Hscan in EX.
  destruct found as [|a [|b rest]]; try (simpl in Hlen; lia).
  unfold finally, try_except in EX. cbv beta iota in EX.
  unfold bind at 1 in EX. unfold bind at 1 in EX.
  unfold report at 1 in EX. unfold emit at 1 in EX. cbv beta iota in EX.
  match type of EX with
  | context [for_each (log_track env) 0 ?l tt ?w0] =>
      destruct (log_tracks_events env l 0%nat w0) as (e1 & E1 & J1 & R1);
      rewrite E1 in EX
  end.
  cbv beta iota in EX.
  unfold bind at 1 in EX. unfold progress_update at 1 in EX. unfold emit at 1 in EX.
  unfold bind at 1 in EX. unfold report at 1 in EX. unfold emit at 1 in EX.
  cbv beta iota in EX.
  rewrite bind_tool_only in EX by apply quiet_analyze_source.
  rewrite VA in EX. simpl in EX.
  set (ea := events_of (analyze_source env src)) in *. clearbody ea.
  exists (EvReport INFO MsgGettingDuration :: EvProgressUpdate 20 :: e1 ++
          [EvReport INFO (MsgFoundTracks (length (a :: b :: rest)));
           EvRun (ffprobe_scan_command src) 30;
           EvReport INFO (MsgScanning (basename env src));
           EvProgressUpdate 10; EvProgressBegin 0 100])%list.
  split; [|split].
  - cbn [jobs_rev]. rewrite jobs_rev_app, J1. reflexivity.
  - cbn [reports_rev]. rewrite reports_rev_app, R1. reflexivity.
  - subst X. unfold logged. f_equal. f_equal. cbn [app]. f_equal.
    rewrite <- app_assoc. cbn [app]. f_equal. f_equal. f_equal.
    rewrite <- app_assoc. reflexivity.
Qed.

(** X5. When Phase 2 cannot settle a frame rate (the size, the duration or
    the rate of the source cannot be read), the run is cancelled with
    exactly one error, the duration error or the analysis error; no ffmpeg
    job was started and the sequencer is as it was. *)
Theorem analysis_failure_cancels_untouched (env : Env) (w : World) (ed : SeqEditor)
    (s : Strip) (found : list StreamInfo) :
  sequence_editor w = Some ed ->
  find_selected (strips_all ed) None = SelOne s ->
  isfile env (source_path env s) = true ->
  scan env (source_path env s) = ScanStreams found ->
  (1 < length found)%nat ->
  resolved_rate env (source_path env s) = None ->
  status_of (execute env w) = Some CANCELLED /\
  sequence_editor (snd (execute env w)) = sequence_editor w /\
  jobs (snd (execute env w)) = jobs w /\
  exists evs,
    log (snd (execute env w)) = (evs ++ log w)%list /\
    (reports_rev ERROR evs = [MsgDurationFailed] \/
     exists e, reports_rev ERROR evs = [MsgAnalyzeFailed e]).
Proof.
  intros Hed Hsel Hfile Hscan Hlen Hrate.
  destruct (analyze_source_outcome env (source_path env s)) as [(x & V & _)|(V & R)].
  { exfalso. unfold resolved_rate in Hrate. unfold value_of, blank in V.
    rewrite V in Hrate. now destruct x. }
  destruct (execute_analysis_stops env w ed s found CANCELLED Hed Hsel Hfile Hscan Hlen V)
    as (evs0 & J0 & R0 & E).
  pose proof (proj2 (quiet_analyze_source env (source_path env s))) as QA.
  set (ea := events_of (analyze_source env (source_path env s))) in *. clearbody ea.
  rewrite E. unfold status_of, jobs, logged. cbn [fst snd log sequence_editor].
  split; [reflexivity|]. split; [reflexivity|]. split.
  - change (EvProgressEnd :: ea ++ evs0)%list with ([EvProgressEnd] ++ ea ++ evs0)%list.
    now rewrite !jobs_rev_app, QA, J0.
  - exists (EvProgressEnd :: ea ++ evs0)%list. split; [reflexivity|].
    change (EvProgressEnd :: ea ++ evs0)%list with ([EvProgressEnd] ++ ea ++ evs0)%list.
    rewrite !reports_rev_app, R0, app_nil_r. exact R.
Qed.

Lemma analysis_failure_cancels_untouched_witness :
  resolved_rate Scenario.env_unreadable (source_path Scenario.env_unreadable Scenario.clip) = None /\
  status_of (execute Scenario.env_unreadable Scenario.start) = Some CANCELLED /\
  sequence_editor (snd (execute Scenario.env_unreadable Scenario.start)) =
    Some Scenario.timeline.
Proof.
  assert (R : resolved_rate Scenario.env_unreadable
                (source_path Scenario.env_unreadable Scenario.clip) = None)
    by (vm_compute; reflexivity).
  assert (S0 : scan Scenario.env_unreadable
                 (source_path Scenario.env_unreadable Scenario.clip) =
               ScanStreams [Scenario.idx0; Scenario.idx1])
    by (vm_compute; reflexivity).
  destruct (analysis_failure_cancels_untouched Scenario.env_unreadable Scenario.start
              Scenario.timeline Scenario.clip [Scenario.idx0; Scenario.idx1]
              eq_refl eq_refl eq_refl S0 (le_n 2) R) as (H1 & H2 & _).
  split; [exact R|]. split; [exact H1 | exact H2].
Defined.

(** ** The panel and the selection loop *)

Lemma find_selected_some (strips : list Strip) (a : Strip) :
  find_selected strips (Some a) =
  match filter is_candidate strips with
  | [] => SelOne a
  | _ :: _ => SelMultiple
  end.
Proof.
  induction strips as [|x xs IH]; simpl; [reflexivity|].
  destruct (is_candidate x); [reflexivity | apply IH].
Qed.

Lemma find_selected_of_candidates (strips : list Strip) :
  match filter is_candidate strips with
  | [] => find_selected strips None = SelNone
  | [s] => find_selected strips None = SelOne s
  | _ :: _ :: _ => find_selected strips None = SelMultiple
  end.
Proof.
  induction strips as [|x xs IH]; simpl; [reflexivity|].
  destruct (is_candidate x); [|exact IH].
  destruct (filter is_candidate xs) eqn:F; rewrite find_selected_some, F; reflexivity.
Qed.

(** X6. The selection loop of [execute] finds a strip exactly when one strip
    of the sequencer is selected and of a usable kind; it stops with
    "multiple" as soon as there are two, and with "none" when there is none. *)
Theorem selection_loop_counts_candidates (strips : list Strip) :
  find_selected strips None =
  match filter is_candidate strips with
  | [] => SelNone
  | [s] => SelOne s
  | _ :: _ :: _ => SelMultiple
  end.
Proof.
  induction strips as [|x xs IH]; simpl; [reflexivity|].
  destruct (is_candidate x); [|apply IH].
  rewrite find_selected_some. now destruct (filter is_candidate xs).
Qed.

Lemma execute_started env w ed s :
  sequence_editor w = Some ed ->
  find_selected (strips_all ed) None = SelOne s ->
  isfile env (source_path env s) = true ->
  execute env w =
  finally (guarded_body env s (source_path env s)) (emit EvProgressEnd)
          (logged [EvProgressBegin 0 100] w).
Proof.
  intros He Hf Hi. unfold execute. rewrite He, Hf. cbv zeta. rewrite Hi. reflexivity.
Qed.

Lemma execute_stopped env w ed :
  sequence_editor w = Some ed ->
  execute env w =
  match find_selected (strips_all ed) None with
  | SelNone => (Returned CANCELLED, logged [EvReport ERROR MsgNoneSelected] w)
  | SelMultiple => (Returned CANCELLED, logged [EvReport ERROR MsgMultipleSelected] w)
  | SelOne s =>
      if isfile env (source_path env s) then execute env w
      else (Returned CANCELLED,
            logged [EvReport ERROR (MsgSourceNotFound (source_path env s))] w)
  end.
Proof.
  intros He. destruct (find_selected (strips_all ed) None) as [|s|] eqn:Hf.
  - unfold execute. now rewrite He, Hf.
  - destruct (isfile env (source_path env s)) eqn:Hi; [reflexivity|].
    unfold execute. rewrite He, Hf. cbv zeta. now rewrite Hi.
  - unfold execute. now rewrite He, Hf.
Qed.

(** X7. When the panel offers the extract button, the operator it invokes
    passes all its pre-checks: it opens the progress bar. *)
Theorem button_offered_operator_starts (env : Env) (w : World) :
  In extract_button (fst (draw env w)) ->
  exists evs,
    log (snd (execute env w)) =
    (EvProgressEnd :: evs ++ EvProgressBegin 0 100 :: log w)%list.
Proof.
  unfold draw. destruct (sequence_editor w) as [ed|] eqn:He.
  2:{ simpl. intros [H|[]]. discriminate. }
  destruct (strips_top ed).
  { simpl. intros [H|[]]. discriminate. }
  pose proof (find_selected_of_candidates (strips_all ed)) as Hsel.
  destruct (filter is_candidate (strips_all ed)) as [|x [|y r]].
  - simpl. intros [H|[H|[]]]; discriminate.
  - cbv zeta. destruct (isfile env (source_path env x)) eqn:Hi.
    + intros _. rewrite (execute_started env w ed x He Hsel Hi). unfold finally.
      destruct (guarded_body_bar env x (source_path env x) (logged [EvProgressBegin 0 100] w))
        as (evs & L & _).
      destruct (guarded_body env x (source_path env x) (logged [EvProgressBegin 0 100] w))
        as [r w1]. simpl in *. exists evs. now rewrite L.
    + simpl. intros H. repeat (destruct H as [H|H]; [discriminate|]). destruct H.
  - simpl. intros [H|[]]. discriminate.
Qed.

Lemma button_offered_operator_starts_witness :
  In extract_button (fst (draw (Scenario.env_with [Scenario.idx0] []) Scenario.start)) /\
  exists evs,
    log (snd (execute (Scenario.env_with [Scenario.idx0] []) Scenario.start)) =
    (EvProgressEnd :: evs ++ EvProgressBegin 0 100 :: log Scenario.start)%list.
Proof.
  assert (B : In extract_button
                (fst (draw (Scenario.env_with [Scenario.idx0] []) Scenario.start)))
    by (vm_compute; do 4 right; left; reflexivity).
  split; [exact B|].
  exact (button_offered_operator_starts (Scenario.env_with [Scenario.idx0] [])
           Scenario.start B).
Defined.

(** X8. What the panel tells the user is what the operator would report:
    "Select only one video strip" with the multiple-selection error,
    "Select a video strip" with the no-selection error, and the
    missing-file warning, with the same path, with the file-not-found
    error.  In each case the operator is cancelled before it does anything. *)
Theorem panel_diagnosis_matches_operator (env : Env) (w : World) :
  (In (Label "Select only one video strip" ICON_ERROR) (fst (draw env w)) ->
   execute env w = (Returned CANCELLED, logged [EvReport ERROR MsgMultipleSelected] w)) /\
  (In (Label "Select a video strip" ICON_INFO) (fst (draw env w)) ->
   execute env w = (Returned CANCELLED, logged [EvReport ERROR MsgNoneSelected] w)) /\
  (forall path,
      In (Label "⚠ Source file not found" ICON_ERROR) (fst (draw env w)) ->
      In (Label ("Path: " ++ path) ICON_NONE) (fst (draw env w)) ->
      execute env w =
      (Returned CANCELLED, logged [EvReport ERROR (MsgSourceNotFound path)] w)).
Proof.
  unfold draw. destruct (sequence_editor w) as [ed|] eqn:He.
  2:{ simpl. repeat split; intros; repeat (destruct H as [H|H]; try discriminate); contradiction. }
  destruct (strips_top ed).
  { simpl. repeat split; intros; repeat (destruct H as [H|H]; try discriminate); contradiction. }
  pose proof (find_selected_of_candidates (strips_all ed)) as Hsel.
  pose proof (execute_stopped env w ed He) as Hx.
  destruct (filter is_candidate (strips_all ed)) as [|x [|y r]]; rewrite Hsel in Hx.
  - simpl. repeat split; intros; trivial;
      repeat (destruct H as [H|H]; try discriminate); contradiction.
  - cbv zeta. destruct (isfile env (source_path env x)) eqn:Hi.
    + destruct (getsize env (source_path env x)); simpl;
        repeat split; intros; repeat (destruct H as [H|H]; try discriminate); contradiction.
    + simpl. repeat split; intros; try (repeat (destruct H as [H|H]; try discriminate); contradiction).
      repeat (destruct H0 as [H0|H0]; try discriminate); try contradiction.
      injection H0 as H0. now subst path.
  - simpl. repeat split; intros; trivial;
      repeat (destruct H as [H|H]; try discriminate); contradiction.
Qed.

Lemma panel_diagnosis_matches_operator_witness :
  In (Label "Select only one video strip" ICON_ERROR)
     (fst (draw (Scenario.env_with [Scenario.idx0] []) Scenario.both_selected)) /\
  execute (Scenario.env_with [Scenario.idx0] []) Scenario.both_selected =
  (Returned CANCELLED, logged [EvReport ERROR MsgMultipleSelected] Scenario.both_selected).
Proof.
  assert (B : In (Label "Select only one video strip" ICON_ERROR)
                (fst (draw (Scenario.env_with [Scenario.idx0] [])
                        Scenario.both_selected)))
    by (vm_compute; left; reflexivity).
  split; [exact B|].
  exact (proj1 (panel_diagnosis_matches_operator (Scenario.env_with [Scenario.idx0] [])
                  Scenario.both_selected) B).
Defined.

(** ** Progress of one job *)

Lemma progress_values_app (a b : list Event) :
  progress_values (a ++ b) = (progress_values a ++ progress_values b)%list.
Proof.
  induction a as [|e a IH]; simpl; [reflexivity|]. destruct e; simpl; now rewrite ?IH.
Qed.

Lemma min_one_le (x : Q) : (min_one x <= 1)%Q.
Proof.
  unfold min_one, gt. destruct (Qle_bool x 1) eqn:E; simpl.
  - now apply Qle_bool_iff.
  - apply Qle_refl.
Qed.

Lemma gt_true (x y : Q) : gt x y = true -> (y < x)%Q.
Proof.
  unfold gt. intros H. apply negb_true_iff in H. apply Qnot_le_lt. intros L.
  apply Qle_bool_iff in L. congruence.
Qed.

Lemma track_progress_paced (d : option Q) (t : Tick) (last : Q) (w : World) :
  track_progress d t last w = (Val last, w) \/
  exists p, track_progress d t last w = (Val p, logged [EvProgressUpdate p] w) /\
            (1 # 100 < p - last)%Q /\ (p <= 1)%Q /\ tracks d = true.
Proof.
  unfold track_progress.
  destruct (readline t) as [|line tm]; [now left|].
  destruct (Py.truthy line); [|now left].
  destruct tm as [[[h m] s]|]; [|now left].
  destruct d as [d|]; [|now left].
  destruct (Py.is_zero d) eqn:Z; [now left|].
  cbv zeta.
  match goal with |- context [if ?b then _ else _] => destruct b eqn:G end; [|now left].
  right. eexists. split; [reflexivity|]. split; [now apply gt_true|].
  split; [apply min_one_le|]. simpl. now rewrite Z.
Qed.

Lemma monitor_paced (timeout : Z) (d : option Q) (p : Proc) (ts : list Tick) :
  forall last w, exists evs,
    log (snd (monitor timeout d p ts last w)) = (evs ++ log w)%list /\
    paced last (rev (progress_values evs)) /\
    (tracks d = false -> progress_values evs = []).
Proof.
  induction ts as [|t ts IH]; intros last w; simpl.
  - exists []. split; [|now split]. destruct (final p) as [rc out err|e]; [|reflexivity].
    now destruct (rc =? 0).
  - destruct (gt (elapsed t) (inject_Z timeout)).
    + exists []. split; [|now split]. now destruct (wait_raises p).
    + unfold bind.
      destruct (track_progress_paced d t last w) as [E|(q & E & G & L & T)]; rewrite E.
      * apply IH.
      * destruct (IH q (logged [EvProgressUpdate q] w)) as (evs & L2 & P2 & N2).
        exists (evs ++ [EvProgressUpdate q])%list. split; [|split].
        -- rewrite L2. simpl. now rewrite <- app_assoc.
        -- rewrite progress_values_app, rev_app_distr. simpl. auto.
        -- intros F. congruence.
Qed.

Lemma paced_bound (ps : list Q) :
  forall last, paced last ps -> ps <> [] ->
               (last + inject_Z (Z.of_nat (length ps)) * (1 # 100) < 1)%Q.
Proof.
  induction ps as [|p rest IH]; intros last H Hne; [congruence|].
  destruct H as (G & L & P).
  destruct rest as [|q rest'].
  - change (inject_Z (Z.of_nat (length [p]))) with 1%Q. lra.
  - assert (Hr : q :: rest' <> []) by discriminate.
    specialize (IH p P Hr).
    change (length (p :: q :: rest')) with (S (length (q :: rest'))).
    rewrite Nat2Z.inj_succ. unfold Z.succ. rewrite inject_Z_plus.
    change (inject_Z 1) with 1%Q. lra.
Qed.

Lemma paced_count (ps : list Q) : paced 0 ps -> (length ps <= 99)%nat.
Proof.
  intros H. destruct ps as [|p rest]; [simpl; lia|].
  assert (Hne : p :: rest <> []) by discriminate.
  pose proof (paced_bound _ _ H Hne) as B.
  set (n := length (p :: rest)) in *.
  assert (Hq : (inject_Z (Z.of_nat n) < inject_Z 100)%Q)
    by (change (inject_Z 100) with 100%Q; lra).
  rewrite <- Zlt_Qlt in Hq. lia.
Qed.

(** X9. The progress values one ffmpeg job reports are each at most 1, the
    first is above 1/100 and each is more than 1/100 above the one before;
    so a job reports progress at most 99 times, and never when no
    (non-zero) duration is known. *)
Theorem job_progress_paced (env : Env) (command : Command) (timeout : Z)
    (duration : option Q) (w : World) :
  exists evs,
    log (snd (run_ffmpeg_with_progress env command timeout duration w)) = (evs ++ log w)%list /\
    paced 0 (rev (progress_values evs)) /\
    (length (progress_values evs) <= if tracks duration then 99 else 0)%nat.
Proof.
  assert (H : exists evs,
             log (snd (run_ffmpeg_with_progress env command timeout duration w))
             = (evs ++ log w)%list /\
             paced 0 (rev (progress_values evs)) /\
             (tracks duration = false -> progress_values evs = [])).
  { unfold run_ffmpeg_with_progress, bind, emit, try_except. simpl.
    destruct (popen_raises (popen env command)) as [e|]; simpl.
    - exists [EvPopen command timeout duration]. now repeat split.
    - match goal with |- context [monitor ?x1 ?x2 ?x3 ?x4 ?x5 ?x6] =>
        destruct (monitor_paced x1 x2 x3 x4 x5 x6) as (evs & L & P & N);
        destruct (monitor x1 x2 x3 x4 x5 x6) as [[r|st|e] w2] end; simpl in *;
        (exists (evs ++ [EvPopen command timeout duration])%list; split; [|split];
         [ rewrite L; now rewrite <- app_assoc
         | rewrite progress_values_app, app_nil_r; exact P
         | intros F; rewrite progress_values_app, app_nil_r; now apply N ]). }
  destruct H as (evs & L & P & N). exists evs. split; [exact L|]. split; [exact P|].
  destruct (tracks duration).
  - rewrite <- length_rev. now apply paced_count.
  - now rewrite N.
Qed.

(** ** The sequencer after a grouping run *)

Lemma fresh_id_app (l l' : list Strip) : (fresh_id l <= fresh_id (l ++ l'))%nat.
Proof.
  unfold fresh_id. apply le_n_S. induction l as [|x xs IH]; simpl; lia.
Qed.

Lemma created_duration_host env src snap fps timeout x ch :
  host_creates env ->
  extraction_ok env src snap fps timeout x = true ->
  exists d, created_duration env src snap fps timeout x ch = Some d.
Proof.
  intros [Hsize Hnew] Hok. unfold created_duration. rewrite Hok.
  assert (Hex : path_exists env (temp_path_of env src snap x) = true).
  { unfold extraction_ok in Hok. apply andb_prop in Hok. destruct Hok as [_ Hok].
    destruct (ffmpeg_result env _) as [[a b]|st'|e]; try discriminate.
    apply andb_prop in Hok. tauto. }
  destruct (Hsize _ Hex) as (n & ->).
  destruct (Hnew ("Audio_" ++ stream_title_of x) (temp_path_of env src snap x)
                 ch temp_extraction_start) as (d & ->).
  now exists d.
Qed.

(** The strips the loop adds: one per verified stream, in stream order, on
    the channels asked for, consecutive from [next_channel] on, as the host
    clamps them. *)
Lemma track_loop_layout env src snap fps timeout (streams : list StreamInfo) :
  host_creates env ->
  forall acc,
    let acc' := track_loop env src snap fps timeout streams acc in
    exists news,
      fst acc' = (fst acc ++ news)%list /\
      created_audio_strips (snd acc') =
        (created_audio_strips (snd acc) ++ map sid news)%list /\
      map filepath news =
        map (temp_path_of env src snap) (extracted env src snap fps timeout streams) /\
      map name news =
        map (fun x => "Audio_" ++ stream_title_of x)
            (extracted env src snap fps timeout streams) /\
      forall k c, nth_error news k = Some c ->
        channel c = clamp_channel (next_channel (snd acc) + Z.of_nat k) /\
        frame_start c = temp_extraction_start /\
        stype c = SOUND /\ select c = true /\ parent c = None /\
        (fresh_id (fst acc) <= sid c)%nat.
Proof.
  intros Hhost. unfold track_loop, extracted.
  induction streams as [|x rest IH]; intros acc; simpl.
  - exists []. rewrite !app_nil_r.
    split; [reflexivity|]. split; [reflexivity|]. split; [reflexivity|].
    split; [reflexivity|]. intros [|k] c H; discriminate.
  - destruct acc as [strips st].
    destruct (extraction_ok env src snap fps timeout x) eqn:Hok.
    + destruct (created_duration_host env src snap fps timeout x (next_channel st) Hhost Hok)
        as (d & Hd).
      assert (Hs : track_step env src snap fps timeout x (strips, st) =
                   ((strips ++ [audio_strip env src snap x (fresh_id strips)
                                  (next_channel st) d])%list,
                    mkLoop (created_audio_strips st ++ [fresh_id strips])%list
                           (next_channel st + 1))).
      { unfold track_step. now rewrite Hd. }
      rewrite Hs.
      destruct (IH ((strips ++ [audio_strip env src snap x (fresh_id strips)
                                 (next_channel st) d])%list,
                    mkLoop (created_audio_strips st ++ [fresh_id strips])%list
                           (next_channel st + 1)))
        as (news & H1 & H2 & H3 & H4 & H5).
      cbn [fst snd created_audio_strips next_channel] in *.
      exists (audio_strip env src snap x (fresh_id strips) (next_channel st) d :: news).
      split; [now rewrite H1, <- app_assoc|].
      split; [now rewrite H2, <- app_assoc|].
      split; [simpl; now rewrite H3|].
      split; [simpl; now rewrite H4|].
      intros k c Hk. destruct k as [|k]; simpl in Hk.
      * injection Hk as <-. simpl. rewrite Z.add_0_r. repeat split; lia.
      * destruct (H5 k c Hk) as (C1 & C2 & C3 & C4 & C5 & C6).
        repeat split; try assumption;
          [rewrite C1; f_equal; lia|].
        pose proof (fresh_id_app strips
                      [audio_strip env src snap x (fresh_id strips) (next_channel st) d]).
        lia.
    + assert (Hs : track_step env src snap fps timeout x (strips, st) = (strips, st)).
      { unfold track_step, created_duration. now rewrite Hok. }
      rewrite Hs. apply IH.
Qed.

(** ** A host that creates no strip *)

Lemma track_loop_no_strip env src snap fps timeout streams :
  (forall nm p ch fr d, new_sound env nm p ch fr <> NewSoundOk d) ->
  forall acc, track_loop env src snap fps timeout streams acc = acc.
Proof.
  intros Hno. unfold track_loop.
  induction streams as [|x rest IH]; intros acc; simpl; [reflexivity|].
  assert (Hs : track_step env src snap fps timeout x acc = acc).
  { destruct acc as [strips st]. unfold track_step, created_duration.
    destruct (extraction_ok env src snap fps timeout x); [|reflexivity].
    destruct (getsize env (temp_path_of env src snap x)); [|reflexivity].
    destruct (new_sound env ("Audio_" ++ stream_title_of x) (temp_path_of env src snap x)
                (next_channel st) temp_extraction_start) as [d| |e] eqn:N; try reflexivity.
    now destruct (Hno _ _ _ _ _ N). }
  rewrite Hs. apply IH.
Qed.

(** X12. When the host creates no sound strip (it returns none, or raises),
    every job still runs, the operator warns that nothing was extracted
    and returns FINISHED, and the sequencer is as it was. *)
Theorem strip_creation_failure_finishes_untouched (env : Env) (w : World)
    (strips : list Strip) (act : option nat) (s : Strip) (found : list StreamInfo)
    (mb fps : Q) :
  sequence_editor w = Some (mkSeq strips act) ->
  find_selected strips None = SelOne s ->
  isfile env (source_path env s) = true ->
  scan env (source_path env s) = ScanStreams found ->
  (1 < length found)%nat ->
  value_of (analyze_source env (source_path env s)) = Val (mb, fps) ->
  (forall nm p ch fr d, new_sound env nm p ch fr <> NewSoundOk d) ->
  status_of (execute env w) = Some FINISHED /\
  sequence_editor (snd (execute env w)) = sequence_editor w /\
  In (EvReport WARNING MsgNoneExtracted) (log (snd (execute env w))) /\
  jobs (snd (execute env w)) =
    (jobs w ++
     (if Py.is_zero fps then []
      else map (job_of env (source_path env s) (snapshot s) fps (audio_timeout mb))
               (tl found)))%list.
Proof.
  intros Hed Hsel Hfile Hscan Hlen Hval Hno.
  destruct (execute_extracting env w strips act s found mb fps
              Hed Hsel Hfile Hscan Hlen Hval) as (l2 & J2 & _ & _ & E).
  rewrite track_loop_no_strip in E by exact Hno. simpl in E.
  rewrite E. simpl. split; [reflexivity|]. split; [now rewrite Hed|].
  split; [right; right; now left|].
  unfold jobs. simpl. rewrite J2, rev_app_distr.
  destruct (Py.is_zero fps); [reflexivity|]. now rewrite rev_involutive.
Qed.

Lemma strip_creation_failure_finishes_untouched_witness :
  status_of (execute Scenario.env_no_strips Scenario.start) = Some FINISHED /\
  sequence_editor (snd (execute Scenario.env_no_strips Scenario.start)) =
    Some Scenario.timeline /\
  length (jobs (snd (execute Scenario.env_no_strips Scenario.start))) = 1%nat.
Proof.
  set (env := Scenario.env_no_strips).
  assert (V : value_of (analyze_source env (source_path env Scenario.clip)) =
              Val ((104857600 # 1048576)%Q, 24%Q)) by (vm_compute; reflexivity).
  assert (S0 : scan env (source_path env Scenario.clip) =
               ScanStreams [Scenario.idx0; Scenario.idx1])
    by (vm_compute; reflexivity).
  assert (N : forall nm p ch fr d, new_sound env nm p ch fr <> NewSoundOk d)
    by (intros; discriminate).
  destruct (strip_creation_failure_finishes_untouched env Scenario.start
              [Scenario.clip; Scenario.other] None Scenario.clip
              [Scenario.idx0; Scenario.idx1] (104857600 # 1048576) 24
              eq_refl eq_refl eq_refl S0 (le_n 2) V N) as (H1 & H2 & _ & H4).
  split; [exact H1|]. split; [exact H2|]. now rewrite H4.
Defined.

(** ** A grouping that fails *)

Lemma lookup_in (id : nat) (l : list Strip) (a : Strip) :
  lookup id l = Some a -> In a l.
Proof. unfold lookup. intros H. apply find_some in H. tauto. Qed.

Lemma update_absent (id : nat) (f : Strip -> Strip) (l : list Strip) :
  lookup id l = None -> update id f l = l.
Proof.
  unfold lookup, update. intros H.
  rewrite <- (map_id l) at 2. apply map_ext_in. intros y Hy.
  now rewrite (find_none _ _ H y Hy).
Qed.

(** Without meta strips, moving a strip moves nothing else. *)
Lemma moved_to_plain (id : nat) (v : Z) (l : list Strip) :
  (forall y, In y l -> stype y <> META) ->
  moved_to id v l = update id (with_frame_start v) l.
Proof.
  intros Hty. unfold moved_to.
  destruct (lookup id l) as [x|] eqn:L.
  - apply lookup_in in L. specialize (Hty x L).
    unfold update. apply map_ext. intros y.
    destruct (Nat.eqb (sid y) id); [reflexivity|].
    destruct (stype x); try reflexivity. congruence.
  - symmetry. now apply update_absent.
Qed.

Lemma displaced_eq (sel : nat) (start : Z) (l : list Strip) :
  update sel (with_channel (clamp_channel (start - 1)))
    (update sel (with_frame_start temp_extraction_start) l) =
  map (displaced sel start) l.
Proof.
  unfold update. rewrite map_map. apply map_ext. intros x. unfold displaced.
  destruct (Nat.eqb (sid x) sel) eqn:E; simpl; now rewrite E.
Qed.

(** On a free temporary area the original strip goes where Phase 5 puts it. *)
Lemma move_to_temporary_area_free env sel start strips act l :
  (forall y, In y strips -> stype y <> META) ->
  area_free sel start strips = true ->
  move_to_temporary_area env sel start (mkWorld (Some (mkSeq strips act)) l) =
  (Val tt, mkWorld (Some (mkSeq (map (displaced sel start) strips) act)) l).
Proof.
  intros Hty Hfree. unfold area_free in Hfree.
  apply andb_prop in Hfree. destruct Hfree as [F1 F2].
  apply negb_true_iff in F1, F2.
  unfold move_to_temporary_area, bind, set_frame_start, set_channel, set_strips.
  cbn [sequence_editor log strips_all active_strip].
  rewrite (moved_to_plain _ _ _ Hty).
  assert (S1 : settle env sel strips
                 (update sel (with_frame_start temp_extraction_start) strips) =
               update sel (with_frame_start temp_extraction_start) strips)
    by (unfold settle; now rewrite F1).
  rewrite !S1, displaced_eq. unfold settle. now rewrite F2.
Qed.

Lemma for_each_assign (f : Strip -> Strip) (created : list nat) :
  forall i strips act l,
    for_each (fun _ id _ => assign id f) i created tt (mkWorld (Some (mkSeq strips act)) l) =
    (Val tt,
     mkWorld (Some (mkSeq (fold_left (fun acc id => update id f acc) created strips) act)) l).
Proof.
  induction created as [|id rest IH]; intros i strips act l; simpl; [reflexivity|].
  unfold bind. simpl. apply IH.
Qed.

Lemma displaced_sid sel start x : sid (displaced sel start x) = sid x.
Proof. unfold displaced. now destruct (Nat.eqb (sid x) sel). Qed.

Lemma place_nil_eq (sel : nat) (start : Z) (strips : list Strip) :
  update sel (with_select true)
    (map (with_select false) (map (displaced sel start) strips)) =
  map (place sel start []) strips.
Proof.
  unfold update. rewrite !map_map. apply map_ext. intros x. unfold place.
  cbn [existsb]. rewrite orb_false_r.
  pose proof (displaced_sid sel start x) as Hs.
  destruct (displaced sel start x) as [i nm ty se ch fs du o1 o2 fp pa].
  cbn [sid with_select] in *. subst i.
  now destruct (Nat.eqb (sid x) sel).
Qed.

Lemma place_fold_eq (sel : nat) (start : Z) (created : list nat) :
  forall cr strips,
    fold_left (fun acc id => update id (with_select true) acc) created
      (map (place sel start cr) strips) =
    map (place sel start (cr ++ created)) strips.
Proof.
  induction created as [|id rest IH]; intros cr strips; simpl.
  - now rewrite app_nil_r.
  - replace (cr ++ id :: rest)%list with ((cr ++ [id]) ++ rest)%list
      by (rewrite <- app_assoc; reflexivity).
    rewrite <- IH. f_equal. unfold update. rewrite map_map. apply map_ext.
    intros x. unfold place. rewrite existsb_app. cbn [existsb].
    pose proof (displaced_sid sel start x) as Hs.
    destruct (displaced sel start x) as [i nm ty se ch fs du o1 o2 fp pa].
    cbn [sid with_select] in *. subst i.
    destruct (Nat.eqb (sid x) sel), (Nat.eqb (sid x) id), (existsb (Nat.eqb (sid x)) cr);
      reflexivity.
Qed.

Lemma place_stype sel start created y : stype (place sel start created y) = stype y.
Proof. unfold place, displaced. now destruct (Nat.eqb (sid y) sel). Qed.


Lemma group_and_restore_noop env sel snap start created found strips act l :
  select_all_raises env = None ->
  (forall l0, meta_make env l0 = MetaNoop) ->
  (forall y, In y strips -> stype y <> META) ->
  area_free sel start strips = true ->
  exists l',
    group_and_restore env sel snap start created found
      (mkWorld (Some (mkSeq strips act)) l) =
    (Val tt,
     mkWorld (Some (mkSeq (map (place sel start created) strips) act))
             (EvReport WARNING MsgMetaMayHaveFailed :: l')).
Proof.
  intros Hsel Hmeta Hty Hfree.
  unfold group_and_restore.
  unfold bind at 1. unfold report at 1. unfold emit at 1. cbn [sequence_editor log].
  unfold bind at 1. rewrite (move_to_temporary_area_free _ _ _ _ _ _ Hty Hfree).
  unfold bind at 1. unfold report at 1. unfold emit at 1. cbn [sequence_editor log].
  unfold bind at 1. unfold ops_select_all_deselect at 1. rewrite Hsel.
  unfold bind at 1. unfold emit at 1. unfold set_strips at 1.
  cbn [sequence_editor log strips_all active_strip].
  unfold bind at 1. unfold assign at 1. unfold set_strips at 1.
  cbn [sequence_editor log strips_all active_strip].
  rewrite place_nil_eq.
  unfold bind at 1. rewrite for_each_assign.
  rewrite place_fold_eq. cbn [app].
  unfold bind at 1. unfold ops_meta_make at 1.
  unfold bind at 1. unfold emit at 1.
  unfold bind at 1. unfold get_strips at 1.
  cbn [sequence_editor log strips_all active_strip].
  rewrite Hmeta. unfold ret at 1.
  unfold bind at 1. unfold get_active at 1.
  cbn [sequence_editor log strips_all active_strip].
  set (placed := map (place sel start created) strips).
  assert (Hact : forall a, match act with
                           | Some id => lookup id placed
                           | None => None
                           end = Some a -> stype a <> META).
  { intros a Ha. destruct act as [id|]; [|discriminate].
    apply lookup_in in Ha. apply in_map_iff in Ha. destruct Ha as (y & <- & Hy).
    rewrite place_stype. now apply Hty. }
  destruct (match act with Some id => lookup id placed | None => None end) as [a|].
  - specialize (Hact a eq_refl). destruct (stype a); try congruence;
      unfold report, emit; cbn [sequence_editor log]; eexists; reflexivity.
  - unfold report, emit. cbn [sequence_editor log]. eexists. reflexivity.
Qed.

Lemma no_meta_after_loop env src snap fps timeout streams strips st :
  host_creates env ->
  (forall y, In y strips -> stype y <> META) ->
  forall y, In y (fst (track_loop env src snap fps timeout streams (strips, st))) ->
       stype y <> META.
Proof.
  intros Hcreate Hty y Hy.
  destruct (track_loop_layout env src snap fps timeout streams Hcreate (strips, st))
    as (news & H1 & _ & _ & _ & H5).
  cbn [fst snd] in H1. rewrite H1 in Hy.
  apply in_app_or in Hy. destruct Hy as [Hy|Hy]; [now apply Hty|].
  destruct (In_nth_error _ _ Hy) as (k & Hk).
  destruct (H5 k y Hk) as (_ & _ & -> & _). discriminate.
Qed.



(** X14. When the grouping operator groups nothing and raises nothing, in a
    sequencer without meta strips whose temporary area is free, the
    operator warns that the grouping may have failed and returns FINISHED;
    the selected strip is left at frame 1000 on the channel below the
    workspace rather than where it was, and every other strip has kept its
    placement. *)
Theorem grouping_noop_finishes_displaced (env : Env) (w : World)
    (strips : list Strip) (act : option nat) (s : Strip) (found : list StreamInfo)
    (mb fps : Q) :
  sequence_editor w = Some (mkSeq strips act) ->
  find_selected strips None = SelOne s ->
  isfile env (source_path env s) = true ->
  scan env (source_path env s) = ScanStreams found ->
  (1 < length found)%nat ->
  value_of (analyze_source env (source_path env s)) = Val (mb, fps) ->
  host_creates env ->
  select_all_raises env = None ->
  (forall l, meta_make env l = MetaNoop) ->
  (forall y, In y strips -> stype y <> META) ->
  (exists x, In x (tl found) /\
     extraction_ok env (source_path env s) (snapshot s) fps (audio_timeout mb) x = true) ->
  let start := extraction_start_channel (map channel strips) in
  area_free (sid s) start
    (fst (track_loop env (source_path env s) (snapshot s) fps (audio_timeout mb) (tl found)
            (strips, mkLoop [] start))) = true ->
  status_of (execute env w) = Some FINISHED /\
  In (EvReport WARNING MsgMetaMayHaveFailed) (log (snd (execute env w))) /\
  exists ed',
    sequence_editor (snd (execute env w)) = Some ed' /\
    active_strip ed' = act /\
    (length strips < length (strips_all ed'))%nat /\
    forall y, In y strips ->
      exists y', In y' (strips_all ed') /\
                 with_select (select y) y' = displaced (sid s) start y.
Proof.
  intros Hed Hsel Hfile Hscan Hlen Hval Hcreate Hdesel Hnoop Hty (x & Hx & Hok) start Hfree.
  destruct (execute_extracting env w strips act s found mb fps
              Hed Hsel Hfile Hscan Hlen Hval) as (l2 & _ & _ & _ & E).
  fold start in E.
  destruct (track_loop_created env (source_path env s) (snapshot s) fps (audio_timeout mb)
              (tl found) Hcreate (strips, mkLoop [] start) x Hx Hok)
    as (a & _ & _ & _ & _ & _ & Hid).
  destruct (nonempty_of_in _ _ Hid) as (c & cs & Hc).
  rewrite Hc in E. rewrite <- Hc in E.
  pose proof (no_meta_after_loop env (source_path env s) (snapshot s) fps (audio_timeout mb)
                (tl found) strips (mkLoop [] start) Hcreate Hty) as Hty'.
  destruct (track_loop_layout env (source_path env s) (snapshot s) fps (audio_timeout mb)
              (tl found) Hcreate (strips, mkLoop [] start)) as (news & H1 & H2 & _).
  cbn [fst snd created_audio_strips app] in H1, H2.
  assert (Hnews : (0 < length news)%nat).
  { rewrite Hc in H2. destruct news; [discriminate H2 | simpl; lia]. }
  match type of E with
  | context [group_and_restore ?x1 ?x2 ?x3 ?x4 ?x5 ?x6 (mkWorld (Some (mkSeq ?x7 ?x8)) ?x9)] =>
      destruct (group_and_restore_noop x1 x2 x3 x4 x5 x6 x7 x8 x9 Hdesel Hnoop Hty' Hfree)
        as (l' & G)
  end.
  rewrite G in E. rewrite E. unfold status_of, conclude, logged.
  cbn [fst snd log sequence_editor].
  split; [reflexivity|]. split; [right; right; now left|].
  eexists. split; [reflexivity|]. cbn [active_strip strips_all]. split; [reflexivity|].
  rewrite H1.
  split; [rewrite length_map, length_app; lia|].
  intros y Hy.
  eexists. split.
  - apply in_map. apply in_or_app. left. exact Hy.
  - unfold place, displaced. destruct y as [i0 nm ty se ch fs du o1 o2 fp pa]. simpl.
    now destruct (Nat.eqb i0 (sid s)).
Qed.

Lemma grouping_noop_finishes_displaced_witness :
  status_of (execute Scenario.env_grouping_noop Scenario.calm) = Some FINISHED /\
  exists ed' y',
    sequence_editor (snd (execute Scenario.env_grouping_noop Scenario.calm)) = Some ed' /\
    In y' (strips_all ed') /\
    with_select true y' = displaced 1 3 Scenario.clip.
Proof.
  set (env := Scenario.env_grouping_noop).
  assert (V : value_of (analyze_source env (source_path env Scenario.clip)) =
              Val ((104857600 # 1048576)%Q, 24%Q)) by (vm_compute; reflexivity).
  assert (S0 : scan env (source_path env Scenario.clip) =
               ScanStreams [Scenario.idx0; Scenario.idx1])
    by (vm_compute; reflexivity).
  assert (HC : host_creates env).
  { split; intros; eexists; reflexivity. }
  assert (T : forall y, In y [Scenario.clip; Scenario.early] -> stype y <> META).
  { intros y [<-|[<-|[]]]; discriminate. }
  assert (OK : exists x, In x (tl [Scenario.idx0; Scenario.idx1]) /\
                 extraction_ok env (source_path env Scenario.clip)
                   (snapshot Scenario.clip) 24 (audio_timeout (104857600 # 1048576)) x
                 = true).
  { exists Scenario.idx1. split; [now left | vm_compute; reflexivity]. }
  assert (F : area_free (sid Scenario.clip)
                (extraction_start_channel (map channel [Scenario.clip; Scenario.early]))
                (fst (track_loop env (source_path env Scenario.clip) (snapshot Scenario.clip)
                        24 (audio_timeout (104857600 # 1048576))
                        (tl [Scenario.idx0; Scenario.idx1])
                        ([Scenario.clip; Scenario.early],
                         mkLoop [] (extraction_start_channel
                                      (map channel [Scenario.clip; Scenario.early])))))
              = true) by (vm_compute; reflexivity).
  destruct (grouping_noop_finishes_displaced env Scenario.calm
              [Scenario.clip; Scenario.early] None Scenario.clip
              [Scenario.idx0; Scenario.idx1] (104857600 # 1048576) 24
              eq_refl eq_refl eq_refl S0 (le_n 2) V HC eq_refl (fun _ => eq_refl) T OK F)
    as (H1 & _ & ed' & H2 & _ & _ & H3).
  split; [exact H1|].
  destruct (H3 Scenario.clip (or_introl eq_refl)) as (y' & Hy & Hd).
  exists ed', y'. split; [exact H2|]. split; [exact Hy | exact Hd].
Defined.

(** ** The frame rate of Phase 2 *)



(** ** Frame rate strings *)

Lemma split_no_sep (c : ascii) (s : string) :
  Py.contains c s = false -> Py.split c s = [s].
Proof.
  induction s as [|d r IH]; simpl; [reflexivity|].
  intros H. apply orb_false_iff in H. destruct H as [H1 H2].
  rewrite H1, (IH H2). reflexivity.
Qed.

Lemma split_nonempty (c : ascii) (s : string) : Py.split c s <> [].
Proof.
  destruct s as [|d r]; simpl; [discriminate|].
  destruct (Ascii.eqb c d); [discriminate|]. destruct (Py.split c r); discriminate.
Qed.

Lemma split_at_first (c : ascii) (n d : string) :
  Py.contains c n = false -> Py.split c (n ++ String c d) = n :: Py.split c d.
Proof.
  induction n as [|x r IH]; simpl.
  - intros _. now rewrite Ascii.eqb_refl.
  - intros H. apply orb_false_iff in H. destruct H as [H1 H2].
    rewrite H1, (IH H2). reflexivity.
Qed.

Lemma split_with_sep (c : ascii) (s : string) :
  Py.contains c s = true -> exists p q r, Py.split c s = p :: q :: r.
Proof.
  induction s as [|d r IH]; simpl; [discriminate|].
  destruct (Ascii.eqb c d) eqn:E; simpl.
  - intros _. pose proof (split_nonempty c r) as N.
    destruct (Py.split c r) as [|q rest]; [congruence|]. now exists "", q, rest.
  - intros H. destruct (IH H) as (p & q & rest & ->). now exists (String d p), q, rest.
Qed.

Lemma contains_app (c : ascii) (n d : string) :
  Py.contains c (n ++ String c d) = true.
Proof.
  induction n as [|x r IH]; simpl.
  - now rewrite Ascii.eqb_refl.
  - rewrite IH. apply orb_true_r.
Qed.

(** X16. A frame rate string with a slash is read as numerator/denominator,
    split at its first and only slash: the quotient of the two floats,
    [ZeroDivisionError] for a zero denominator, [ValueError] when either
    part is not a float, and an unpacking error when there is a second
    slash.  Reading it logs nothing and leaves the sequencer alone. *)
Theorem parse_fps_fraction (env : Env) (n d : string) (w : World) :
  Py.contains "/" n = false ->
  parse_fps env (n ++ "/" ++ d) w =
  (if Py.contains "/" d then Raised "too many values to unpack (expected 2)"
   else
     match float_of_str env n, float_of_str env d with
     | Some a, Some b => if Py.is_zero b then Raised zero_division else Val (a / b)%Q
     | _, _ => Raised value_error
     end,
   w).
Proof.
  intros Hn. unfold parse_fps.
  change (n ++ "/" ++ d) with (n ++ String "/" d).
  rewrite contains_app, (split_at_first _ _ _ Hn).
  destruct (Py.contains "/" d) eqn:Hd.
  - destruct (split_with_sep _ _ Hd) as (p & q & r & ->). reflexivity.
  - rewrite (split_no_sep _ _ Hd).
    unfold bind, py_float, py_truediv, Py.truediv.
    destruct (float_of_str env n) as [a|]; [|reflexivity]. simpl.
    destruct (float_of_str env d) as [b|]; [|reflexivity]. simpl.
    now destruct (Py.is_zero b).
Qed.

Lemma parse_fps_fraction_witness :
  parse_fps (Scenario.env_with [] []) ("24" ++ "/" ++ "1") Scenario.start =
  (Val (24 / 1)%Q, Scenario.start).
Proof.
  exact (parse_fps_fraction (Scenario.env_with [] []) "24" "1" Scenario.start eq_refl).
Defined.

(** ** Output files *)

Lemma append_inj_l (p a b : string) : p ++ a = p ++ b -> a = b.
Proof. induction p as [|c r IH]; simpl; [trivial | intros [= H]; auto]. Qed.

Lemma append_length (a b : string) :
  String.length (a ++ b) = (String.length a + String.length b)%nat.
Proof. induction a as [|c r IH]; simpl; [reflexivity | now rewrite IH]. Qed.

Lemma append_inj_r (s a b : string) : a ++ s = b ++ s -> a = b.
Proof.
  revert b. induction a as [|c r IH]; intros b H.
  - destruct b as [|c' r']; [reflexivity|].
    apply (f_equal String.length) in H. simpl in H. rewrite append_length in H. lia.
  - destruct b as [|c' r'].
    + apply (f_equal String.length) in H. simpl in H. rewrite append_length in H. lia.
    + simpl in H. injection H as -> H. f_equal. now apply IH.
Qed.

Lemma to_int_proper (n : Z) :
  Z.to_int n <> Decimal.Pos Decimal.Nil /\ Z.to_int n <> Decimal.Neg Decimal.Nil.
Proof.
  destruct n; simpl; split; try discriminate; intros [= H];
    now apply (Unsigned.to_uint_nonnil p).
Qed.

Lemma str_of_int_parse (n : Z) :
  NilZero.int_of_string (Py.str_of_int n) = Some (Z.to_int n).
Proof.
  unfold Py.str_of_int. destruct (to_int_proper n). now apply NilZero.isi.
Qed.

Lemma str_of_int_inj (n m : Z) : Py.str_of_int n = Py.str_of_int m -> n = m.
Proof.
  intros H. apply (f_equal NilZero.int_of_string) in H.
  rewrite !str_of_int_parse in H. injection H as H. now apply DecimalZ.to_int_inj.
Qed.

Lemma str_of_opt_int_inj (a b : option Z) :
  Py.str_of_opt_int a = Py.str_of_opt_int b -> a = b.
Proof.
  destruct a as [n|], b as [m|]; simpl; intros H.
  - f_equal. now apply str_of_int_inj.
  - apply (f_equal NilZero.int_of_string) in H. rewrite str_of_int_parse in H. discriminate.
  - apply (f_equal NilZero.int_of_string) in H. rewrite str_of_int_parse in H. discriminate.
  - reflexivity.
Qed.

Lemma temp_audio_filename_inj (snap : Snapshot) (x y : StreamInfo) :
  temp_audio_filename snap x = temp_audio_filename snap y -> s_index x = s_index y.
Proof.
  unfold temp_audio_filename, stream_index_of. intros H.
  apply append_inj_l, append_inj_l, append_inj_l, append_inj_r in H.
  now apply str_of_opt_int_inj.
Qed.

(** X17. Within a run, the output path determines the stream: where joining
    a directory with a file name loses nothing, two streams are extracted
    to the same path exactly when they have the same [index]; so no job
    overwrites the file of a stream with another index. *)
Theorem output_paths_distinct (env : Env) (src : string) (snap : Snapshot)
    (x y : StreamInfo) :
  (forall d a b, path_join env d a = path_join env d b -> a = b) ->
  temp_path_of env src snap x = temp_path_of env src snap y <-> s_index x = s_index y.
Proof.
  intros Hjoin. split.
  - intros H. apply Hjoin in H. exact (temp_audio_filename_inj snap x y H).
  - intros H. unfold temp_path_of, stream_index_of. now rewrite H.
Qed.

Lemma output_paths_distinct_witness :
  temp_path_of (Scenario.env_with [] []) "/v/a.mkv" (snapshot Scenario.clip) Scenario.idx1 <>
  temp_path_of (Scenario.env_with [] []) "/v/a.mkv" (snapshot Scenario.clip) Scenario.idx2.
Proof.
  assert (J : forall d a b : string,
             path_join (Scenario.env_with [] []) d a = path_join (Scenario.env_with [] []) d b ->
             a = b).
  { intros d a b H. simpl in H. apply append_inj_l in H. now injection H. }
  intros H.
  apply (output_paths_distinct (Scenario.env_with [] []) "/v/a.mkv" (snapshot Scenario.clip)
           Scenario.idx1 Scenario.idx2 J) in H.
  discriminate H.
Defined.
